(** * Time-series mixers of lightwood: a shallow embedding

    The development follows three source files:
    - [lightwood/encoders/time_series/helpers/transformer_helpers.py]
    - [lightwood/mixer/nhits.py]
    - [lightwood/mixer/gluonts.py]

    Python values are embedded as follows.  A call that may raise returns a
    [result]; the exception says who originated it: an explicit [raise] of
    the wrapper code, an error of the Python runtime, or an exception that a
    third-party library propagated.  Objects mutated through [self] become
    records that the methods take and return. *)

From Stdlib Require Import String Ascii DecimalString.
From Stdlib Require Import List Bool Arith ZArith QArith Lia.
From Stdlib Require Import Sorting.Sorted Sorting.Permutation.
Set Warnings "-register-all".
Import ListNotations.
Open Scope string_scope.
Open Scope list_scope.
Open Scope nat_scope.

(** ** Exceptions and results *)

Module Py.

Inductive builtin : Set :=
| TypeError | KeyError | ValueError | AttributeError.

Inductive exn : Set :=
| Own (msg : string)          (* [raise Exception(msg)] written in the wrapper *)
| Builtin (b : builtin)       (* raised by the interpreter on the wrapper's behalf *)
| Vendor (library : string).  (* propagated from code outside these files:
                                 torch, pandas, gluonts, neuralforecast, ... *)

Inductive result (A : Type) : Type :=
| Ok (a : A)
| Raise (e : exn).
Arguments Ok {A} a.
Arguments Raise {A} e.

Definition bind {A B} (r : result A) (k : A -> result B) : result B :=
  match r with
  | Ok a => k a
  | Raise e => Raise e
  end.

(** A call into code outside these files either returns or throws; what it
    throws reaches the caller as a [Vendor] exception. *)
Inductive outcome (A : Type) : Type :=
| Returns (a : A)
| Throws (what : string).
Arguments Returns {A} a.
Arguments Throws {A} what.

Definition call {A} (o : outcome A) : result A :=
  match o with
  | Returns a => Ok a
  | Throws what => Raise (Vendor what)
  end.

(** The result is not an exception that the wrapper raised itself. *)
Definition never_own {A} (r : result A) : Prop :=
  forall msg, r <> Raise (Own msg).

Definition is_ok {A} (r : result A) : bool :=
  match r with Ok _ => true | Raise _ => false end.

(** A loop whose body may raise. *)
Fixpoint foldM {A B} (f : B -> A -> result B) (l : list A) (b : B)
  : result B :=
  match l with
  | [] => Ok b
  | x :: rest => match f b x with
                 | Ok b' => foldM f rest b'
                 | Raise e => Raise e
                 end
  end.

(** A comprehension whose body may raise. *)
Fixpoint mapM {A B} (f : A -> result B) (l : list A) : result (list B) :=
  match l with
  | [] => Ok []
  | x :: rest => match f x with
                 | Ok y => match mapM f rest with
                           | Ok ys => Ok (y :: ys)
                           | Raise e => Raise e
                           end
                 | Raise e => Raise e
                 end
  end.

(** Python truthiness of an optional number. *)
Definition truthy_nat (o : option nat) : bool :=
  match o with
  | Some n => negb (n =? 0)
  | None => false
  end.

End Py.
Import Py.

Notation "x <- r ;; k" := (Py.bind r (fun x => k))
  (at level 61, r at next level, right associativity).

(** ** transformer_helpers.py *)

Module TransformerHelpers.

(** [lengths.max()]: torch refuses the maximum of an empty tensor. *)
Definition tensor_max (lengths : list nat) : result nat :=
  match lengths with
  | [] => Raise (Vendor "torch")
  | x :: rest => Ok (fold_left Nat.max rest x)
  end.

(** [torch.arange(n)] *)
Definition arange (n : nat) : list nat := seq 0 n.

(** [torch.arange(lengths.max())[None, :] < lengths[:, None]]: broadcasting
    gives one row per length and one column per position. *)
Definition broadcast_lt (positions lengths : list nat) : list (list bool) :=
  map (fun len => map (fun j => j <? len) positions) lengths.

(** [~mask] *)
Definition logical_not (mask : list (list bool)) : list (list bool) :=
  map (map negb) mask.

(** The lengths are sequence lengths (docstring), so they are naturals;
    [get_chunk] clamps them at [0] before they reach this function. *)
Definition len_to_mask (lengths : list nat) (zeros : bool)
  : result (list (list bool)) :=
  m <- tensor_max lengths ;;
  let mask := broadcast_lt (arange m) lengths in
  Ok (if zeros then logical_not mask else mask).

(** Entry [(i, j)] of a mask. *)
Definition entry (mask : list (list bool)) (i j : nat) : bool :=
  nth j (nth i mask []) false.

End TransformerHelpers.

(** ** The classes the three files declare

    Each [class] statement is recorded with its base classes and the methods
    written in its body, with their parameters after [self]. *)

Module ClassTable.

Record method : Set := Method { m_name : string; m_params : list string }.

Record class_decl : Set :=
  Class_ { c_name : string; c_bases : list string; c_methods : list method }.

Definition PositionalEncoding : class_decl :=
  Class_ "PositionalEncoding" ["nn.Module"]
    [ Method "__init__" ["d_model"; "dropout"; "max_len"];
      Method "forward" ["x"] ].

Definition TransformerEncoder : class_decl :=
  Class_ "TransformerEncoder" ["nn.Module"]
    [ Method "__init__" ["ninp"; "nhead"; "nhid"; "nlayers"; "dropout"];
      Method "_generate_square_subsequent_mask" ["sz"];
      Method "init_weights" [];
      Method "forward" ["src"; "lengths"; "device"];
      Method "encode" ["batch"; "criterion"; "device"] ].

Definition GluonTSMixer : class_decl :=
  Class_ "GluonTSMixer" ["BaseMixer"]
    [ Method "__init__"
        ["stop_after"; "target"; "horizon"; "window"; "dtype_dict";
         "ts_analysis"; "n_epochs"; "early_stop_patience";
         "distribution_output"; "seed"; "static_features_cat";
         "static_features_real"];
      Method "fit" ["train_data"; "dev_data"];
      Method "partial_fit" ["train_data"; "dev_data"; "args"];
      Method "__call__" ["ds"; "args"];
      Method "_make_initial_ds" ["df"; "phase"; "groups"] ].

Definition EarlyStop : class_decl :=
  Class_ "EarlyStop" ["TrainingHistory"]
    [ Method "__init__" ["patience"];
      Method "on_validation_epoch_end"
        ["epoch_no"; "epoch_loss"; "training_network"; "trainer"] ].

Definition NHitsMixer : class_decl :=
  Class_ "NHitsMixer" ["BaseMixer"]
    [ Method "__init__"
        ["stop_after"; "target"; "horizon"; "window"; "dtype_dict";
         "ts_analysis"; "pretrained"; "train_args"];
      Method "fit" ["train_data"; "dev_data"];
      Method "partial_fit" ["train_data"; "dev_data"; "args"];
      Method "__call__" ["ds"; "args"];
      Method "_make_initial_df" ["df"] ].

Definition method_eqb (a b : method) : bool :=
  (m_name a =? m_name b)%string
  && if list_eq_dec string_dec (m_params a) (m_params b) then true else false.

(** The class body defines a method of that name and those parameters. *)
Definition defines (c : class_decl) (m : method) : bool :=
  existsb (method_eqb m) (c_methods c).

(** The class body defines some method of that name. *)
Definition defines_name (c : class_decl) (name : string) : bool :=
  existsb (fun m => (m_name m =? name)%string) (c_methods c).

(** The mixer contract: the three operations the ensembling system calls. *)
Definition mixer_contract : list method :=
  [ Method "fit" ["train_data"; "dev_data"];
    Method "partial_fit" ["train_data"; "dev_data"; "args"];
    Method "__call__" ["ds"; "args"] ].

Definition provides_mixer_contract (c : class_decl) : bool :=
  forallb (defines c) mixer_contract.

(** The classes that wrap the three back ends. *)
Definition wrappers : list class_decl :=
  [TransformerEncoder; GluonTSMixer; NHitsMixer].

End ClassTable.

(** ** Data frames

    A frame that the wrappers build themselves (the forecast table, the long
    frame handed to neuralforecast) has a range index [0 .. nrows-1] and
    named columns, kept in insertion order as pandas does. *)

Module Pandas.

Inductive cell : Type :=
| CInt (z : Z)
| CNum (q : Q)              (* a float *)
| CStr (s : string)
| CList (l : list cell)     (* a Python list stored in an object column *)
| CNaN.

Record Table : Type := mkTable { nrows : nat; cols : list (string * list cell) }.

Definition columns (t : Table) : list string := map fst (cols t).

Fixpoint lookup {A} (c : string) (l : list (string * A)) : option A :=
  match l with
  | [] => None
  | (k, v) :: rest => if (k =? c)%string then Some v else lookup c rest
  end.

Fixpoint assign {A} (c : string) (v : A) (l : list (string * A))
  : list (string * A) :=
  match l with
  | [] => [(c, v)]
  | (k, w) :: rest =>
      if (k =? c)%string then (k, v) :: rest else (k, w) :: assign c v rest
  end.

(** [t[c]] *)
Definition getitem (t : Table) (c : string) : result (list cell) :=
  match lookup c (cols t) with
  | Some v => Ok v
  | None => Raise (Vendor "pandas")
  end.

(** [t[c] = values] for a list of the frame's length: an existing column is
    replaced where it stands, a new one is appended. *)
Definition setitem (t : Table) (c : string) (values : list cell) : Table :=
  mkTable (nrows t) (assign c values (cols t)).

(** [t[c] = values] where [values] is an array or an index: pandas checks
    the length. *)
Definition setitem_array (t : Table) (c : string) (values : list cell)
  : result Table :=
  if length values =? nrows t then Ok (setitem t c values)
  else Raise (Vendor "pandas").

(** [t[c] = series] for a series with a range index: the values are aligned
    on the index, rows without a partner get NaN. *)
Definition setitem_series (t : Table) (c : string) (series : list cell)
  : Table :=
  setitem t c (map (fun i => nth i series CNaN) (seq 0 (nrows t))).

(** [t[c] = v] for a scalar. *)
Definition setitem_scalar (t : Table) (c : string) (v : cell) : Table :=
  setitem t c (repeat v (nrows t)).

Fixpoint set_nth {A} (i : nat) (v : A) (l : list A) : list A :=
  match l, i with
  | [], _ => []
  | _ :: rest, O => v :: rest
  | x :: rest, S j => x :: set_nth j v rest
  end.

(** [t.at[i, c] = v] for a row and a column the frame has. *)
Definition at_set (t : Table) (i : nat) (c : string) (v : cell) : Table :=
  match lookup c (cols t) with
  | Some col => mkTable (nrows t) (assign c (set_nth i v col) (cols t))
  | None => t
  end.

(** [pd.DataFrame(v, index=np.arange(n), columns=names)] *)
Definition filled (v : cell) (n : nat) (names : list string) : Table :=
  mkTable n (map (fun c => (c, repeat v n)) names).

(** [t.reset_index()] of a frame with a range index: the old index becomes
    the first column, named [index]. *)
Definition reset_index (t : Table) : Table :=
  mkTable (nrows t)
    (("index", map (fun i => CInt (Z.of_nat i)) (seq 0 (nrows t))) :: cols t).

(** [a == b] on scalars; NaN equals nothing. *)
Definition cell_eqb (a b : cell) : bool :=
  match a, b with
  | CInt x, CInt y => (x =? y)%Z
  | CNum x, CNum y => Qeq_bool x y
  | CStr x, CStr y => (x =? y)%string
  | _, _ => false
  end.

(** Positions of the rows that a Boolean mask selects. *)
Definition where_ (mask : list bool) : list nat :=
  map fst (filter snd (combine (seq 0 (length mask)) mask)).

(** [series[mask]] *)
Definition select {A} (mask : list bool) (values : list A) : list A :=
  map snd (filter fst (combine mask values)).

(** [series.unique()]: the distinct values in order of first appearance. *)
Fixpoint unique_by {A} (eqb : A -> A -> bool) (l : list A) : list A :=
  match l with
  | [] => []
  | x :: rest => x :: filter (fun y => negb (eqb x y)) (unique_by eqb rest)
  end.

Definition unique : list string -> list string := unique_by String.eqb.

(** [series.iloc[-1]] *)
Definition iloc_last {A} (l : list A) : result A :=
  match rev l with
  | x :: _ => Ok x
  | [] => Raise (Vendor "pandas")
  end.

(** [series.index[0]] and [array[0]] *)
Definition item0 {A} (l : list A) : result A :=
  match l with
  | x :: _ => Ok x
  | [] => Raise (Vendor "pandas")
  end.

(** The value of a cell the code treats as text. *)
Definition cell_str (c : cell) : string :=
  match c with CStr s => s | _ => "" end.

(** Row [i] of column [c] of a table holds [v]. *)
Definition holds (t : Table) (i : nat) (c : string) (v : cell) : Prop :=
  exists col, lookup c (cols t) = Some col /\ nth i col CNaN = v.

End Pandas.
Import Pandas.

(** ** What the mixers receive from the rest of lightwood

    [lightwood.api.types] and [lightwood.data.encoded_ds] are not part of the
    three files; the records below hold exactly what the mixers read from
    their objects. *)

Module Lightwood.

(** [ts_analysis['tss']]; a [group_by] of [None] and an empty one are both
    falsy and are the empty list here. *)
Record TimeseriesSettings : Set := mkTss
  { order_by : string; group_by : list string; tss_horizon : nat }.

(** [ts_analysis]; [sample_freq] is [ts_analysis['sample_freqs']['__default']]. *)
Record TsAnalysis : Set := mkTsAnalysis
  { tss : TimeseriesSettings; sample_freq : string }.

(** One row of [ds.data_frame], with the columns the mixers touch. *)
Record Row : Set := mkRow
  { r_index : Z;              (* the frame's index label: parsed order-by value *)
    r_oby : Z;                (* column [__mdb_original_<order_by>] *)
    r_target : Q;             (* the target column *)
    r_group : list string;    (* the [tss.group_by] columns, in that order *)
    r_orig : Z;               (* column [__mdb_original_index] *)
    r_cat : list string;      (* the static categorical features, in order *)
    r_real : list Q }.        (* the static real features, in order *)

Definition Frame : Set := list Row.

(** An [EncodedDs] or [ConcatedEncodedDs]: its frame and the length it
    reports ([len(ds)], or [sum(ds.encoded_ds_lengths)]). *)
Record Ds : Set := mkDs { data_frame : Frame; ds_len : nat }.

(** [ConcatedEncodedDs([a, b])] *)
Definition concat_ds (a b : Ds) : Ds :=
  mkDs (data_frame a ++ data_frame b) (ds_len a + ds_len b).

Record PredictionArguments : Set := mkArgs
  { predict_proba : bool; fixed_confidence : option Q }.

(** [df.sort_values(by=key)] and [df.sort_index()].  pandas leaves the order
    of rows with equal keys open; here they keep the order they had. *)
Fixpoint insert_by {A} (key : A -> Z) (r : A) (l : list A) : list A :=
  match l with
  | [] => [r]
  | x :: rest => if (key r <=? key x)%Z then r :: x :: rest
                 else x :: insert_by key r rest
  end.

Fixpoint sort_by {A} (key : A -> Z) (l : list A) : list A :=
  match l with
  | [] => []
  | r :: rest => insert_by key r (sort_by key rest)
  end.

(** The order that sorting by a key establishes. *)
Definition key_le {A} (key : A -> Z) (a b : A) : Prop := (key a <= key b)%Z.

Definition str_of_Z (z : Z) : string := NilZero.string_of_int (Z.to_int z).

Definition strings_eqb (a b : list string) : bool :=
  if list_eq_dec string_dec a b then true else false.

End Lightwood.
Import Lightwood.

(** ** nhits.py *)

Module NHits.

(** What the mixer asks of neuralforecast. *)
Class Backend : Type :=
  { Model : Type;
    (* [NHITS.load_from_checkpoint(url)] *)
    load_from_checkpoint : string -> outcome Model;
    (* [model.hparams.n_time_in], [model.hparams.n_time_out] *)
    n_time_in : Model -> nat;
    n_time_out : Model -> nat;
    (* [NHITS(h, input_size, **train_args, loss=MQLoss(level=[level]))],
       wrapped in [NeuralForecast(models=[model], freq)] and fitted with
       [fit(df, val_size)] *)
    train : nat -> nat -> list (string * Z) -> Z -> string -> Table -> nat
            -> outcome Model;
    (* [model.predict(futr_df=df).reset_index()] *)
    predict : Model -> Table -> outcome Table }.

Section WithBackend.
Context {B : Backend}.

Record NHitsMixer : Type := mkMixer
  { stop_after : Q;
    stable : bool;
    prepared : bool;
    supports_proba : bool;
    target : string;
    window : nat;
    horizon : nat;
    ts_analysis : TsAnalysis;
    grouped_by : list string;
    train_args : list (string * Z);
    conf_level : Z;
    pretrained : bool;
    model_name : option string;
    model : option Model;
    hyperparam_search : option bool }.

Definition base_url : string :=
  "https://nixtla-public.s3.amazonaws.com/transfer/pretrained_models/".

Definition freq_to_model : list (string * string) :=
  [ ("Y", "yearly"); ("Q", "monthly"); ("M", "monthly"); ("W", "daily");
    ("D", "daily"); ("H", "hourly"); ("T", "hourly"); ("S", "hourly") ].

Definition model_names : list (string * string) :=
  [ ("hourly", "nhits_m4_hourly.ckpt"); ("daily", "nhits_m4_daily.ckpt");
    ("monthly", "nhits_m4_monthly.ckpt"); ("yearly", "nhits_m4_yearly.ckpt") ].

(** [d.pop(k, default)] *)
Definition pop (k : string) (default : Z) (d : list (string * Z))
  : Z * list (string * Z) :=
  (match lookup k d with Some v => v | None => default end,
   filter (fun kv => negb (fst kv =? k)%string) d).

(** [train_args] is a dictionary whose entry [trainer_args] is a
    dictionary; [None] and the empty dictionary are falsy. *)
Definition __init__ (stop_after : Q) (target : string) (horizon window : nat)
    (ts_analysis : TsAnalysis) (pretrained : bool)
    (train_args : option (list (string * list (string * Z)))) : NHitsMixer :=
  let grouped_by :=
    match group_by (tss ts_analysis) with
    | [] => ["__default"]
    | g => g
    end in
  let trainer_args :=
    match train_args with
    | Some ((_ :: _) as d) =>
        match lookup "trainer_args" d with Some a => a | None => [] end
    | _ => []
    end in
  let (level, rest) := pop "conf_level" 90%Z trainer_args in
  {| stop_after := stop_after;
     stable := false;
     prepared := false;
     supports_proba := false;
     target := target;
     window := window;
     horizon := horizon;
     ts_analysis := ts_analysis;
     grouped_by := grouped_by;
     train_args := rest;
     conf_level := level;
     pretrained := pretrained;
     model_name := None;
     model := None;
     hyperparam_search := None |}.

(** The [unique_id] of a row: the comma-join of its group values, or the
    constant when the mixer is not grouped. *)
Definition unique_id (self : NHitsMixer) (r : Row) : string :=
  if negb (strings_eqb (grouped_by self) ["__default"])
  then String.concat "," (r_group r)
  else "__default".

Definition _make_initial_df (self : NHitsMixer) (df : Frame) : Table :=
  let df := sort_by r_oby df in
  let parsed := map r_index df in
  (* [df.reset_index(drop=True)]: from here on the rows are numbered 0.. *)
  let Y_df := mkTable (List.length df) [] in
  let Y_df := setitem Y_df "y" (map (fun r => CNum (r_target r)) df) in
  let Y_df := setitem Y_df "ds" (map CInt parsed) in
  let Y_df := setitem Y_df "unique_id"
                (map (fun r => CStr (unique_id self r)) df) in
  reset_index Y_df.

(** [min] of the group sizes, [df[gby].value_counts().min()]; the minimum
    of no group is NaN, which [int] refuses. *)
Definition value_counts_min (df : Frame) : result nat :=
  let keys := map r_group df in
  let counts :=
    map (fun k => List.length (filter (strings_eqb k) keys))
        (unique_by strings_eqb keys) in
  match counts with
  | [] => Raise (Builtin ValueError)
  | c :: rest => Ok (fold_left Nat.min rest c)
  end.

(** [int(.1 * n)] for a count [n]: the float product truncates to the
    tenth of [n], rounded down. *)
Definition tenth (n : nat) : nat := n / 10.

Definition with_model (self : NHitsMixer) (name : option string)
    (m : option Model) (p : bool) (w : nat) : NHitsMixer :=
  {| stop_after := stop_after self; stable := stable self;
     prepared := prepared self; supports_proba := supports_proba self;
     target := target self; window := w; horizon := horizon self;
     ts_analysis := ts_analysis self; grouped_by := grouped_by self;
     train_args := train_args self; conf_level := conf_level self;
     pretrained := p; model_name := name; model := m;
     hyperparam_search := hyperparam_search self |}.

Definition fit (self : NHitsMixer) (train_data dev_data : Ds)
  : result NHitsMixer :=
  let cat_ds := concat_ds train_data dev_data in
  let gby := group_by (tss (ts_analysis self)) in
  let df := data_frame cat_ds in
  let Y_df := _make_initial_df self df in
  n_time <- match gby with
            | _ :: _ => value_counts_min df
            | [] => Ok (List.length (unique_by Z.eqb (map r_oby df)))
            end ;;
  let n_ts_val := Nat.max (tenth n_time) (horizon self) in
  let n_time_out_ := horizon self in
  self <- (if pretrained self then
             key <- match lookup (sample_freq (ts_analysis self)) freq_to_model with
                    | Some k => Ok k
                    | None => Raise (Builtin KeyError)
                    end ;;
             let name := match lookup key model_names with
                         | Some n => n
                         | None => "nhits_m4_hourly.ckpt"
                         end in
             m <- call (load_from_checkpoint (base_url ++ name)%string) ;;
             let p := pretrained self in
             let p := if negb (window self <? n_time_in m) then false else p in
             let p := if n_time_out m <? horizon self then false else p in
             Ok (with_model self (Some name) (Some m) p (window self))
           else Ok self) ;;
  if negb (pretrained self) then
    let w := if n_time <? window self + horizon self
             then Nat.max 1 (n_time - horizon self - 1)
             else window self in
    m <- call (train n_time_out_ w (train_args self) (conf_level self)
                 (sample_freq (ts_analysis self)) Y_df n_ts_val) ;;
    Ok (with_model self (model_name self) (Some m) (pretrained self) w)
  else Ok self.

Definition set_flags (self : NHitsMixer) (hs : option bool) (p : bool)
  : NHitsMixer :=
  {| stop_after := stop_after self; stable := stable self;
     prepared := p; supports_proba := supports_proba self;
     target := target self; window := window self; horizon := horizon self;
     ts_analysis := ts_analysis self; grouped_by := grouped_by self;
     train_args := train_args self; conf_level := conf_level self;
     pretrained := pretrained self; model_name := model_name self;
     model := model self; hyperparam_search := hs |}.

(** The arguments of [fit] are passed in the order the source passes them. *)
Definition partial_fit (self : NHitsMixer) (train_data dev_data : Ds)
    (args : option (list (string * nat))) : result NHitsMixer :=
  let self := set_flags self (Some false) (prepared self) in
  self <- fit self dev_data train_data ;;
  Ok (set_flags self (hyperparam_search self) true).

Definition pred_cols (self : NHitsMixer) : list string :=
  [ ("NHITS-lo-" ++ str_of_Z (conf_level self))%string;
    "NHITS-median";
    ("NHITS-hi-" ++ str_of_Z (conf_level self))%string ].

Definition target_cols : list string := ["lower"; "prediction"; "upper"].

(** [[0 for _ in range(h)]] *)
Definition zeros (h : nat) : cell := CList (repeat (CInt 0) h).

(** The body of the loop over the groups, for one group and one column. *)
Definition write_forecast (self : NHitsMixer) (fcst : Table)
    (gidx : cell) (group : string) (ydf : Table) (pt : string * string)
  : result Table :=
  let (pred_col, target_col) := pt in
  uid <- getitem fcst "unique_id" ;;
  preds <- getitem fcst pred_col ;;
  let mask := map (fun u => cell_eqb u (CStr group)) uid in
  let group_preds := firstn (horizon self) (select mask preds) in
  index <- getitem ydf "index" ;;
  idx <- item0 (where_ (map (fun i => cell_eqb i gidx) index)) ;;
  Ok (at_set ydf idx target_col (CList group_preds)).

Definition __call__ (self : NHitsMixer) (ds : Ds) (args : PredictionArguments)
  : result Table :=
  (* [if args.predict_proba: log.warning(...)] only logs *)
  let length := ds_len ds in
  let ydf := filled (CInt 0) length ["prediction"; "lower"; "upper"] in
  let input_df := _make_initial_df self (data_frame ds) in
  index <- getitem input_df "index" ;;
  let ydf := setitem_series ydf "index" index in
  let ydf := fold_left
               (fun ydf target_col =>
                  setitem ydf target_col
                    (map (fun _ => zeros (horizon self)) (seq 0 (nrows ydf))))
               target_cols ydf in
  uid <- getitem input_df "unique_id" ;;
  let groups := unique (map cell_str uid) in
  group_ends <- mapM (fun group =>
                        iloc_last
                          (select (map (fun u => cell_eqb u (CStr group)) uid)
                                  index))
                     groups ;;
  m <- match model self with
       | Some m => Ok m
       | None => Raise (Builtin AttributeError)
       end ;;
  fcst <- call (predict m input_df) ;;
  ydf <- foldM (fun ydf (gg : cell * string) =>
                  let (gidx, group) := gg in
                  foldM (write_forecast self fcst gidx group)
                        (combine (pred_cols self) target_cols) ydf)
               (combine group_ends groups) ydf ;;
  Ok (setitem_scalar ydf "confidence" (CNum (9 # 10))).

(** Row [i] is the last one of its series in a frame with these series. *)
Definition group_end (ids : list string) (i : nat) : Prop :=
  i < List.length ids
  /\ forall j, i < j -> j < List.length ids -> nth j ids "" <> nth i ids "".

(** What a cell of the three forecast columns can hold: the zero-filled
    array, or the first [h] values the library returned for a group. *)
Definition forecast_cell (h : nat) (c : cell) : Prop :=
  c = zeros h \/ exists values, c = CList (firstn h values).

(** The state of the forecast table between two writes of the loop. *)
Definition forecast_table (h len : nat) (index : list cell) (t : Table) : Prop :=
  nrows t = len
  /\ columns t = ["prediction"; "lower"; "upper"; "index"]
  /\ lookup "index" (cols t) = Some index
  /\ forall c, In c target_cols ->
       exists col, lookup c (cols t) = Some col
                   /\ List.length col = len /\ Forall (forecast_cell h) col.

(** The rows outside the collected ends keep their zero-filled arrays. *)
Definition zeros_outside (h len : nat) (ends : list cell) (t : Table) : Prop :=
  forall c col i,
    In c target_cols -> lookup c (cols t) = Some col -> i < len ->
    ~ In (CInt (Z.of_nat i)) ends -> nth i col CNaN = zeros h.

(** [fcst[fcst['unique_id'] == group][pred_col].tolist()[:self.horizon]],
    the cell that the loop of [__call__] writes for a group and a column of
    the library's forecast. *)
Definition group_forecast (self : NHitsMixer) (fcst : Table)
    (group pred_col : string) : option cell :=
  match lookup "unique_id" (cols fcst), lookup pred_col (cols fcst) with
  | Some uid, Some preds =>
      Some (CList (firstn (horizon self)
                     (select (map (fun u => cell_eqb u (CStr group)) uid) preds)))
  | _, _ => None
  end.

End WithBackend.

End NHits.

(** ** gluonts.py *)

Module GluonTS.

(** A row of [df[keep_cols]]: the index label and the kept columns. *)
Record KRow : Set := mkKRow
  { k_index : Z;
    k_target : Q;
    k_group : list string;
    k_cat : list string;
    k_real : list Q }.

(** A frame that pandas resampled: its index labels and its columns. *)
Record Resampled : Type := mkResampled { rs_index : list Z; rs_table : Table }.

(** [item_id] is the list [gby] when the mixer is grouped and the name
    ['__default_group'] otherwise. *)
Inductive item_id : Set :=
| Columns (names : list string)
| Column (name : string).

Record Trainer : Set := mkTrainer
  { epochs : nat;
    num_batches_per_epoch : option nat;
    early_stop_patience : nat;     (* [EarlyStop(patience).patience] *)
    with_train_stats : bool }.     (* [self.model_train_stats] among the callbacks *)

Record Estimator (Distribution : Type) : Type := mkEstimator
  { freq : string;
    prediction_length : nat;
    distr_output : Distribution;
    lags_seq : list nat;
    batch_size : nat;
    use_feat_static_cat : bool;
    use_feat_static_real : bool;
    trainer : Trainer }.
Arguments mkEstimator {Distribution}.
Arguments freq {Distribution}.
Arguments prediction_length {Distribution}.
Arguments distr_output {Distribution}.
Arguments lags_seq {Distribution}.
Arguments batch_size {Distribution}.
Arguments use_feat_static_cat {Distribution}.
Arguments use_feat_static_real {Distribution}.
Arguments trainer {Distribution}.

(** What the mixer asks of gluonts, importlib and pandas' resampling. *)
Class Backend : Type :=
  { Model : Type;
    Dataset : Type;
    Forecast : Type;
    Distribution : Type;
    PyModule : Type;
    StudentTOutput : Distribution;
    (* [importlib.import_module(name)] *)
    import_module : string -> outcome PyModule;
    (* [getattr(module, name)()]; [None] when the attribute is missing *)
    getattr_call : PyModule -> string -> option (outcome Distribution);
    (* [df.resample(freq).agg(agg_map)] *)
    resample_agg : string -> list (string * string) -> list KRow
                   -> outcome Resampled;
    (* [df.groupby(by=col).resample(freq).agg(agg_map).reset_index(level=[0])] *)
    groupby_resample_agg : string -> string -> list (string * string)
                           -> list KRow -> outcome Resampled;
    (* [PandasDataset.from_long_dataframe(df, target, item_id, freq,
        timestamp, feat_static_real, feat_static_cat)] *)
    from_long_dataframe : Resampled -> string -> item_id -> string -> string
                          -> option (list string) -> option (list string)
                          -> outcome Dataset;
    (* [train_ds.freq] *)
    dataset_freq : Dataset -> string;
    (* [estimator.train(ds)] *)
    train : Estimator Distribution -> Dataset -> outcome Model;
    (* [estimator.train_from(model, ds)] *)
    train_from : Estimator Distribution -> option Model -> option Dataset
                 -> outcome Model;
    (* [list(model.predict(ds))] *)
    predict : Model -> option Dataset -> outcome (list Forecast);
    (* [forecast.quantile(q)] *)
    quantile : Forecast -> Q -> outcome (list Q) }.

(** [lightwood.helpers.ts.get_group_matches(df, combination, group_columns)]
    is not in these files; the mixer uses the sub-frame it returns. *)
Class Helpers : Type :=
  { get_group_matches : Frame -> list string -> list string -> outcome Frame }.

Inductive phase : Set := Train | Adjust | Predict.

Section WithBackend.
Context {B : Backend} {H : Helpers}.

Record GluonTSMixer : Type := mkMixer
  { stop_after : Q;
    stable : bool;
    prepared : bool;
    supports_proba : bool;
    target : string;
    window : nat;
    horizon : nat;
    n_epochs : nat;
    ts_analysis : TsAnalysis;
    grouped_by : list string;
    groups : list string;
    estimator : option (Estimator Distribution);
    model : option Model;
    train_cache : option (list KRow);
    patience : nat;
    seed : Z;
    trains_once : bool;
    static_features_cat : list string;
    static_features_real : list string;
    distribution : Distribution }.

(** [s.split(".")] *)
Fixpoint split_dot (s : string) : list string :=
  match s with
  | EmptyString => [""]
  | String c rest =>
      if Ascii.eqb c "."%char then "" :: split_dot rest
      else match split_dot rest with
           | h :: t => String c h :: t
           | [] => [String c ""]
           end
  end.

Definition own_message : string :=
  "This mixer can only be used with 0 or 1 partition columns.".

Definition __init__ (stop_after : Q) (target : string) (horizon window : nat)
    (ts_analysis : TsAnalysis) (n_epochs early_stop_patience : nat)
    (distribution_output : string) (seed : Z)
    (static_features_cat static_features_real : option (list string))
  : result GluonTSMixer :=
  let grouped_by :=
    match group_by (tss ts_analysis) with
    | [] => ["__default"]
    | g => g
    end in
  let parts := split_dot distribution_output in
  dist_module <- call (import_module
                       (String.concat "." ("gluonts.mx.distribution"
                                           :: removelast parts))) ;;
  distribution <- match getattr_call dist_module (last parts "") with
                  | Some made => call made
                  | None => Ok StudentTOutput
                  end ;;
  if 1 <? List.length grouped_by then Raise (Own own_message)
  else
    Ok {| stop_after := stop_after;
          stable := true;
          prepared := false;
          supports_proba := false;
          target := target;
          window := window;
          horizon := horizon;
          n_epochs := n_epochs;
          ts_analysis := ts_analysis;
          grouped_by := grouped_by;
          groups := [];
          estimator := None;
          model := None;
          train_cache := None;
          patience := early_stop_patience;
          seed := seed;
          trains_once := true;
          static_features_cat :=
            match static_features_cat with Some l => l | None => [] end;
          static_features_real :=
            match static_features_real with Some l => l | None => [] end;
          distribution := distribution |}.

(** The fields that the methods assign after construction. *)
Definition update (self : GluonTSMixer) (prepared_ : bool) (n_epochs_ : nat)
    (groups_ : list string) (estimator_ : option (Estimator Distribution))
    (model_ : option Model) (train_cache_ : option (list KRow))
    (patience_ : nat) : GluonTSMixer :=
  {| stop_after := stop_after self; stable := stable self;
     prepared := prepared_; supports_proba := supports_proba self;
     target := target self; window := window self; horizon := horizon self;
     n_epochs := n_epochs_; ts_analysis := ts_analysis self;
     grouped_by := grouped_by self; groups := groups_;
     estimator := estimator_; model := model_; train_cache := train_cache_;
     patience := patience_; seed := seed self; trains_once := trains_once self;
     static_features_cat := static_features_cat self;
     static_features_real := static_features_real self;
     distribution := distribution self |}.

Definition set_groups (self : GluonTSMixer) (g : list string) : GluonTSMixer :=
  update self (prepared self) (n_epochs self) g (estimator self) (model self)
         (train_cache self) (patience self).

Definition set_train_cache (self : GluonTSMixer) (c : option (list KRow))
  : GluonTSMixer :=
  update self (prepared self) (n_epochs self) (groups self) (estimator self)
         (model self) c (patience self).

(** [agg_map]: a dictionary, so a later assignment to a key replaces the
    earlier one. *)
Definition agg_map (self : GluonTSMixer) : list (string * string) :=
  let m := [(target self, "sum")] in
  let m := fold_left (fun m col => assign col "first" m)
                     (static_features_cat self) m in
  fold_left (fun m col => assign col "mean" m) (static_features_real self) m.

(** [df[keep_cols]] followed by [deepcopy] *)
Definition keep_cols (df : Frame) : list KRow :=
  map (fun r => mkKRow (r_index r) (r_target r) (r_group r) (r_cat r) (r_real r)) df.

(** The value of the column [gby[0]] in a row. *)
Definition gby0 (r : KRow) : string := hd "" (k_group r).

(** [df[df[gby[0]].isin(groups)]] *)
Definition isin (groups : list string) (df : list KRow) : list KRow :=
  filter (fun r => existsb (String.eqb (gby0 r)) groups) df.

Definition qs_eqb (a b : list Q) : bool :=
  (List.length a =? List.length b)
  && forallb (fun p => Qeq_bool (fst p) (snd p)) (combine a b).

(** Two rows agree on every column; the index label is not a column. *)
Definition same_columns (a b : KRow) : bool :=
  Qeq_bool (k_target a) (k_target b)
  && strings_eqb (k_group a) (k_group b)
  && strings_eqb (k_cat a) (k_cat b)
  && qs_eqb (k_real a) (k_real b).

(** [df.drop_duplicates()]: the first of equal rows is kept. *)
Definition drop_duplicates (df : list KRow) : list KRow :=
  unique_by same_columns df.

(** [pd.concat([a, b])], which skips an [a] that is [None]. *)
Definition concat_opt (a : option (list KRow)) (b : list KRow) : list KRow :=
  match a with Some rows => rows ++ b | None => b end.

Definition oby_col_name : string := "__gluon_timestamp".

Definition none_if_empty (l : list string) : option (list string) :=
  match l with [] => None | _ => Some l end.

(** [df['__default_group'] = '__default_group'] *)
Definition with_default_group (r : Resampled) : Resampled :=
  mkResampled (rs_index r)
    (setitem_scalar (rs_table r) "__default_group" (CStr "__default_group")).

(** [df[oby_col_name] = df.index] *)
Definition with_timestamp (r : Resampled) : Resampled :=
  mkResampled (rs_index r)
    (setitem (rs_table r) oby_col_name (map CInt (rs_index r))).

(** The first half of [_make_initial_ds], up to [df = df.drop_duplicates()]:
    the mixer with its group list and its cache brought up to date, and the
    deduplicated frame that is to be resampled. *)
Definition deduplicated_frame (self : GluonTSMixer) (df : option Frame)
    (phase_ : phase) (groups_ : option (list string))
  : result (GluonTSMixer * list KRow) :=
  let gby := group_by (tss (ts_analysis self)) in
  let in_fit := match phase_ with Predict => false | _ => true end in
  (* the group list in use, and [self.groups] after the first test *)
  let '(groups_, self) :=
    match groups_, gby with
    | None, _ :: _ => (Some (groups self), self)
    | _, _ =>
        if match gby with [] => false | _ => true end && in_fit
           && negb (strings_eqb (grouped_by self) ["__default"])
        then (groups_,
              set_groups self
                (groups self
                 ++ unique (match groups_ with Some g => g | None => [] end)))
        else (groups_, self)
    end in
  let in_groups rows :=
    isin (match groups_ with Some g => g | None => [] end) rows in
  selected <-
    match df, in_fit with
    | None, false =>
        match train_cache self, gby with
        | None, _ :: _ => Raise (Builtin TypeError)
        | None, [] => Raise (Builtin AttributeError)
        | Some cache, _ :: _ => Ok (self, in_groups cache)
        | Some cache, [] => Ok (self, cache)
        end
    | None, true => Raise (Builtin TypeError)
    | Some df, _ =>
        let df := keep_cols df in
        match phase_ with
        | Train => Ok (set_train_cache self (Some (sort_by k_index df)), df)
        | _ =>
            cache <- match gby, train_cache self with
                     | _ :: _, None => Raise (Builtin TypeError)
                     | _ :: _, Some c => Ok (Some (in_groups c))
                     | [], c => Ok c
                     end ;;
            let self :=
              match phase_ with
              | Adjust =>
                  set_train_cache self
                    (Some (sort_by k_index
                             (drop_duplicates (concat_opt (train_cache self) df))))
              | _ => self
              end in
            Ok (self, sort_by k_index (concat_opt cache df))
        end
    end ;;
  let '(self, df) := selected in
  Ok (self, drop_duplicates df).

Definition _make_initial_ds (self : GluonTSMixer) (df : option Frame)
    (phase_ : phase) (groups_ : option (list string))
  : result (GluonTSMixer * option Dataset) :=
  let gby := group_by (tss (ts_analysis self)) in
  let freq_ := sample_freq (ts_analysis self) in
  let agg := agg_map self in
  deduplicated <- deduplicated_frame self df phase_ groups_ ;;
  let '(self, df) := deduplicated in
  match df with
  | [] => Ok (self, None)
  | _ =>
      resampled <-
        match gby with
        | g :: _ =>
            r <- call (groupby_resample_agg g freq_ agg df) ;;
            Ok (r, Columns gby)
        | [] =>
            r <- call (resample_agg freq_ agg df) ;;
            Ok (with_default_group r, Column "__default_group")
        end ;;
      let '(r, gby_) := resampled in
      let r := with_timestamp r in
      ds <- call (from_long_dataframe r (target self) gby_ freq_ oby_col_name
                    (none_if_empty (static_features_real self))
                    (none_if_empty (static_features_cat self))) ;;
      Ok (self, Some ds)
  end.

(** [max(1, patience)] of [EarlyStop.__init__] *)
Definition early_stop (patience_ : nat) : nat := Nat.max 1 patience_.

(** The groups seen in a frame, [list(df[self.grouped_by[0]].unique())],
    or [None] for a mixer that is not grouped. *)
Definition seen_groups (self : GluonTSMixer) (df : Frame)
  : option (list string) :=
  if negb (strings_eqb (grouped_by self) ["__default"])
  then Some (unique (map (fun r => hd "" (r_group r)) df))
  else None.

Definition fit (self : GluonTSMixer) (train_data dev_data : Ds)
  : result GluonTSMixer :=
  let cat_ds := concat_ds train_data dev_data in
  let fit_groups := seen_groups self (data_frame cat_ds) in
  made <- _make_initial_ds self (Some (data_frame cat_ds)) Train fit_groups ;;
  let '(self, train_ds) := made in
  let batch_size_ := 32 in
  train_ds <- match train_ds with
              | Some d => Ok d
              | None => Raise (Builtin AttributeError)
              end ;;
  let est :=
    mkEstimator (dataset_freq train_ds) (horizon self) (distribution self)
      (map (fun i => i + 1) (seq 0 (window self)))
      batch_size_
      (match static_features_cat self with [] => false | _ => true end)
      (match static_features_real self with [] => false | _ => true end)
      (mkTrainer (n_epochs self)
         (Some (Nat.max 1 (List.length (data_frame cat_ds) / batch_size_)))
         (early_stop (patience self)) true) in
  m <- call (train est train_ds) ;;
  Ok (update self true (n_epochs self) (groups self) (Some est) (Some m)
             (train_cache self) (patience self)).

(** [args] is a dictionary; [args.get(k)] of a missing key or of [0] is
    falsy. *)
Definition partial_fit (self : GluonTSMixer) (train_data dev_data : Ds)
    (args : option (list (string * nat))) : result GluonTSMixer :=
  let args := match args with Some a => a | None => [] end in
  let n_epochs_ := if truthy_nat (lookup "n_epochs" args)
                   then match lookup "n_epochs" args with
                        | Some n => n | None => n_epochs self end
                   else n_epochs self in
  let patience_ := if truthy_nat (lookup "patience" args)
                   then match lookup "patience" args with
                        | Some n => n | None => patience self end
                   else patience self in
  est <- match estimator self with
         | Some e =>
             Ok (mkEstimator (freq e) (prediction_length e) (distr_output e)
                   (lags_seq e) (batch_size e) (use_feat_static_cat e)
                   (use_feat_static_real e)
                   (mkTrainer n_epochs_ None (early_stop patience_) false))
         | None => Raise (Builtin AttributeError)
         end ;;
  let self := update self (prepared self) n_epochs_ (groups self) (Some est)
                     (model self) (train_cache self) patience_ in
  let ds := concat_ds train_data dev_data in
  let adjust_groups := seen_groups self (data_frame ds) in
  made <- _make_initial_ds self (Some (data_frame ds)) Adjust adjust_groups ;;
  let '(self, ds) := made in
  m <- call (train_from est (model self) ds) ;;
  Ok (update self (prepared self) (n_epochs self) (groups self)
             (estimator self) (Some m) (train_cache self) (patience self)).

(** [args.fixed_confidence if args.fixed_confidence else 0.9]: a confidence
    of [None] or of zero is falsy. *)
Definition confidence_of (args : PredictionArguments) : Q :=
  match fixed_confidence args with
  | Some c => if Qeq_bool c 0 then 9 # 10 else c
  | None => 9 # 10
  end.

(** [1 - conf] *)
Definition one_minus (conf : Q) : Q := 1 - conf.

(** [max(series)] of Python: no maximum of nothing. *)
Definition py_max (l : list Z) : result Z :=
  match l with
  | [] => Raise (Builtin ValueError)
  | x :: rest => Ok (fold_left Z.max rest x)
  end.

(** [[entry for entry in forecast.quantile(q)]] *)
Definition quantile_list (f : Forecast) (q : Q) : result cell :=
  values <- call (quantile f q) ;;
  Ok (CList (map CNum values)).

(** The body of the loop over the groups and their forecasts. *)
Definition write_forecast (df : Frame) (gby : list string) (conf : Q)
    (ydf : Table) (gf : string * Forecast) : result Table :=
  let (group, group_forecast) := gf in
  subdf <- call (get_group_matches df [group] gby) ;;
  last_ <- py_max (map r_orig subdf) ;;
  original <- getitem ydf "__original_index" ;;
  idx <- item0 (where_ (map (fun o => cell_eqb o (CInt last_)) original)) ;;
  p <- quantile_list group_forecast (1 # 2) ;;
  let ydf := at_set ydf idx "prediction" p in
  l <- quantile_list group_forecast (one_minus conf) ;;
  let ydf := at_set ydf idx "lower" l in
  u <- quantile_list group_forecast conf ;;
  Ok (at_set ydf idx "upper" u).

Definition __call__ (self : GluonTSMixer) (ds : Ds) (args : PredictionArguments)
  : result Table :=
  (* the two [seed] calls only set the generators of the libraries *)
  let length := ds_len ds in
  let ydf := mkTable length [] in
  let init_arr := CList (repeat (CInt 0) (tss_horizon (tss (ts_analysis self)))) in
  let ydf := fold_left
               (fun ydf col =>
                  setitem ydf col (map (fun _ => init_arr) (seq 0 (nrows ydf))))
               ["prediction"; "lower"; "upper"] ydf in
  ydf <- setitem_array ydf "index" (map (fun r => CInt (r_index r)) (data_frame ds)) ;;
  let conf := confidence_of args in
  let ydf := setitem_scalar ydf "confidence" (CNum conf) in
  let gby := group_by (tss (ts_analysis self)) in
  let groups_ := match gby with
                 | _ :: _ => Some (unique (map (fun r => hd "" (r_group r))
                                               (data_frame ds)))
                 | [] => None
                 end in
  let df := data_frame ds in
  ydf <- setitem_array ydf "__original_index" (map (fun r => CInt (r_orig r)) df) ;;
  made <- _make_initial_ds self (Some df) Predict groups_ ;;
  let input_ds := snd made in
  m <- match model self with
       | Some m => Ok m
       | None => Raise (Builtin AttributeError)
       end ;;
  forecasts <- call (predict m input_ds) ;;
  (* [zip(groups, forecasts)]: [None] cannot be zipped *)
  pairs <- match groups_ with
           | Some g => Ok (combine g forecasts)
           | None => Raise (Builtin TypeError)
           end ;;
  foldM (write_forecast df gby conf) pairs ydf.

(** The three columns that hold arrays. *)
Definition array_cols : list string := ["prediction"; "lower"; "upper"].

(** What a cell of these columns can hold: the zero-filled array of the
    given length, or the values of a quantile of some forecast. *)
Definition forecast_cell (zeros_length : nat) (c : cell) : Prop :=
  c = CList (repeat (CInt 0) zeros_length)
  \/ exists f q values, quantile f q = Returns values /\ c = CList (map CNum values).

(** The state of the forecast table between two rounds of the loop. *)
Definition forecast_table (zeros_length len : nat) (conf : Q)
    (index original : list cell) (t : Table) : Prop :=
  nrows t = len
  /\ columns t = ["prediction"; "lower"; "upper"; "index"; "confidence";
                  "__original_index"]
  /\ lookup "index" (cols t) = Some index
  /\ lookup "confidence" (cols t) = Some (repeat (CNum conf) len)
  /\ lookup "__original_index" (cols t) = Some original
  /\ forall c, In c array_cols ->
       exists col, lookup c (cols t) = Some col
                   /\ List.length col = len
                   /\ Forall (forecast_cell zeros_length) col.

(** Row [i] of the frame holds the largest original index of the rows that
    [get_group_matches] returns for some group of the frame. *)
Definition group_maximum (df : Frame) (gby : list string) (i : nat) : Prop :=
  exists group sub mx,
    In group (unique (map (fun r => hd "" (r_group r)) df))
    /\ get_group_matches df [group] gby = Returns sub
    /\ py_max (map r_orig sub) = Ok mx
    /\ nth i (map r_orig df) 0%Z = mx.

(** The rows that hold no such maximum keep their zero-filled arrays. *)
Definition zeros_outside (zeros_length len : nat) (df : Frame)
    (gby : list string) (t : Table) : Prop :=
  forall c col i,
    In c array_cols -> lookup c (cols t) = Some col -> i < len ->
    ~ group_maximum df gby i ->
    nth i col CNaN = CList (repeat (CInt 0) zeros_length).

End WithBackend.

End GluonTS.

(** ** transformer_helpers.py, the chunks and the encoder *)

Module Transformer.

(** [torch.clamp(x, min=lo, max=hi)]; torch sets every element to [hi] when
    [lo] is greater than [hi]. *)
Definition clamp (lo hi x : Z) : Z := Z.min (Z.max x lo) hi.

(** A float of the additive attention mask. *)
Inductive attn : Set :=
| Weight (q : Q)
| NegInf.

(** What the helpers ask of torch: the slices of the three-dimensional
    source, and the layers of the encoder. *)
Class Torch : Type :=
  { Tensor : Type;
    (* [source[:, :lengths, :]] *)
    slice_until : Tensor -> list Z -> outcome Tensor;
    (* [source[:, lengths:, :]] *)
    slice_from : Tensor -> list Z -> outcome Tensor;
    (* [t[mask, :, :]] *)
    index_rows : Tensor -> list bool -> outcome Tensor;
    (* [src.size(0)], and [t.shape[1]] of a tensor of three dimensions *)
    size0 : Tensor -> nat;
    size1 : Tensor -> nat;
    (* [t.unsqueeze(-1)] and [t.squeeze(-1)] *)
    unsqueeze_last : Tensor -> outcome Tensor;
    squeeze_last : Tensor -> outcome Tensor;
    (* [self.encoder(src)], the linear layer *)
    linear : Tensor -> outcome Tensor;
    (* [self.pos_encoder(src)] *)
    pos_encoder : Tensor -> outcome Tensor;
    (* [device], and the masks as [.to(device)] returns them *)
    Device : Type;
    AttnMask : Type;
    PadMask : Type;
    (* [mask.to(device)] of the attention mask and of the padding mask *)
    attn_to : list (list attn) -> Device -> outcome AttnMask;
    pad_to : list (list bool) -> Device -> outcome PadMask;
    (* [self.src_mask.size(0)] *)
    attn_size0 : AttnMask -> nat;
    (* [self.transformer_encoder(src, mask=..., src_key_padding_mask=...)] *)
    transformer_encoder : Tensor -> AttnMask -> PadMask -> outcome Tensor }.

Section WithTorch.
Context {T : Torch}.

(** The lengths are an integer tensor; the [-1] keeps the last element of a
    sequence as target. *)
Definition get_chunk (source : Tensor) (source_lengths : list Z) (start step : Z)
  : result (Tensor * Tensor * list Z) :=
  let lengths := map (fun l => clamp 0 step ((l - 1) - start)) source_lengths in
  let non_empty := map (fun l => negb (l =? 0)%Z) lengths in
  data <- call (slice_until source lengths) ;;
  target <- call (slice_from source lengths) ;;
  data <- call (index_rows data non_empty) ;;
  target <- call (index_rows target non_empty) ;;
  Ok (data, target, select non_empty lengths).

(** [f] applied to every element and its position. *)
Definition imap {A C} (f : nat -> A -> C) (l : list A) : list C :=
  map (fun p => f (fst p) (snd p)) (combine (seq 0 (List.length l)) l).

(** [torch.ones(n, m)] *)
Definition ones (n m : nat) : list (list Q) := repeat (repeat 1%Q m) n.

(** [torch.triu(t)]: the entries below the diagonal become zero. *)
Definition triu (t : list (list Q)) : list (list Q) :=
  imap (fun i row => imap (fun j x => if i <=? j then x else 0%Q) row) t.

(** [t == v] *)
Definition eq_scalar (t : list (list Q)) (v : Q) : list (list bool) :=
  map (map (fun x => Qeq_bool x v)) t.

(** [t.transpose(0, 1)] of a matrix *)
Definition transpose (t : list (list bool)) : list (list bool) :=
  map (fun j => map (fun row => nth j row false) t)
      (seq 0 (List.length (hd [] t))).

(** [mask.float()] *)
Definition to_float (mask : list (list bool)) : list (list attn) :=
  map (map (fun b : bool => if b then Weight 1 else Weight 0)) mask.

(** [t.masked_fill(cond, v)] *)
Definition masked_fill (t : list (list attn)) (cond : list (list bool)) (v : attn)
  : list (list attn) :=
  map (fun rc : list attn * list bool =>
         map (fun xc : attn * bool => if snd xc then v else fst xc)
             (combine (fst rc) (snd rc)))
      (combine t cond).

(** [mask == 0] and [mask == 1] for a Boolean [mask] *)
Definition is_false (mask : list (list bool)) : list (list bool) :=
  map (map negb) mask.

Definition is_true (mask : list (list bool)) : list (list bool) := mask.

Definition _generate_square_subsequent_mask (sz : nat) : list (list attn) :=
  let mask := transpose (eq_scalar (triu (ones sz sz)) 1) in
  masked_fill (masked_fill (to_float mask) (is_false mask) NegInf)
              (is_true mask) (Weight 0).

(** The encoder keeps the mask of its last call, on the device it was moved
    to; the layers are torch's. *)
Record TransformerEncoder : Type := mkEncoder
  { src_mask : option AttnMask }.

(** [forward(src, lengths, device)].  The kept mask is made anew when there
    is none or when its size differs from that of the batch; the device is
    not compared.  The result holds the encoder as the call leaves it. *)
Definition forward (self : TransformerEncoder) (src : Tensor) (lengths : list nat)
    (device : Device) : result (TransformerEncoder * Tensor) :=
  let stale :=
    match src_mask self with
    | None => true
    | Some m => negb (attn_size0 m =? size0 src)
    end in
  mask <- match src_mask self, stale with
          | Some m, false => Ok m
          | _, _ =>
              call (attn_to (_generate_square_subsequent_mask (size0 src)) device)
          end ;;
  let self := mkEncoder (Some mask) in
  src <- call (linear src) ;;
  src <- call (pos_encoder src) ;;
  lengths_mask <- TransformerHelpers.len_to_mask lengths true ;;
  lengths_mask <- call (pad_to lengths_mask device) ;;
  output <- call (transformer_encoder src mask lengths_mask) ;;
  Ok (self, output).

(** [range(0, stop, step)] *)
Definition range_by (stop step : nat) : result (list nat) :=
  if step =? 0 then Raise (Builtin ValueError)
  else Ok (map (fun k => k * step) (seq 0 ((stop + step - 1) / step))).

(** One round of the loop of [encode].  The state is the encoder, the
    output of the last round and the loss so far; [criterion] is the loss
    function that the caller passes in.  The lengths of a chunk are clamped
    at zero, so they are the naturals that [forward] takes. *)
Definition encode_round (criterion : Tensor -> Tensor -> list Z -> outcome Q)
    (device : Device)
    (train_batch : Tensor) (len_batch : list Z) (timesteps : nat)
    (state : TransformerEncoder * option Tensor * Q) (start_chunk : nat)
  : result (TransformerEncoder * option Tensor * Q) :=
  let '(self, _, loss) := state in
  chunk <- get_chunk train_batch len_batch (Z.of_nat start_chunk)
             (Z.of_nat timesteps) ;;
  let '(data, targets, lengths_chunk) := chunk in
  data <- call (unsqueeze_last data) ;;
  forwarded <- forward self data (map Z.to_nat lengths_chunk) device ;;
  let '(self, output) := forwarded in
  output <- call (squeeze_last output) ;;
  l <- call (criterion output targets lengths_chunk) ;;
  Ok (self, Some output, (loss + l)%Q).

(** The loop of [encode] over the chunks, for a batch of three dimensions;
    the [return] that follows the loop is not part of this definition. *)
Definition encode_loop (self : TransformerEncoder)
    (criterion : Tensor -> Tensor -> list Z -> outcome Q) (device : Device)
    (train_batch : Tensor) (len_batch : list Z)
  : result (TransformerEncoder * option Tensor * Q) :=
  let batch_size := size0 train_batch in
  let timesteps := size1 train_batch in
  starts <- range_by batch_size timesteps ;;
  foldM (encode_round criterion device train_batch len_batch timesteps) starts
        (self, None, 0%Q).

End WithTorch.

(** The columns [start::2] of a matrix with [d] columns. *)
Definition every_second (start d : nat) : list nat :=
  filter (fun j => (start <=? j) && Nat.even (j - start)) (seq 0 d).

(** [torch.arange(0, d, 2)] *)
Definition arange_by_two (d : nat) : list nat :=
  map (fun k => 2 * k) (seq 0 ((d + 1) / 2)).

(** The width of the block that [PositionalEncoding.__init__] assigns to the
    columns [1::2]: the cosines of [position * div_term], cut to
    [d_model // 2] columns when [d_model] is odd. *)
Definition cosine_width (d_model : nat) : nat :=
  if d_model mod 2 =? 0 then List.length (arange_by_two d_model)
  else List.length (firstn (d_model / 2) (arange_by_two d_model)).

End Transformer.

(** ** gluonts.py, the early stopping *)

Module EarlyStop.

(** [EarlyStop]; the history of the validation losses is kept by its base
    class, gluonts' [TrainingHistory]. *)
Record EarlyStop : Set := mkEarlyStop
  { patience : nat;
    counter : nat;
    validation_loss_history : list Q }.

Definition __init__ (patience : nat) : EarlyStop :=
  {| patience := GluonTS.early_stop patience;
     counter := 0;
     validation_loss_history := [] |}.

(** [a > b] on losses *)
Definition greater (a b : Q) : bool := negb (Qle_bool a b).

(** [on_validation_epoch_end]: the call of the base class appends the loss
    to the history; the result is whether training goes on. *)
Definition on_validation_epoch_end (self : EarlyStop) (epoch_loss : Q)
  : EarlyStop * bool :=
  let history := validation_loss_history self ++ [epoch_loss] in
  let n := List.length history in
  let counter :=
    if 1 <? n then
      if greater (nth (n - 1) history 0%Q) (nth (n - 2) history 0%Q)
      then counter self + 1
      else 0
    else counter self in
  (mkEarlyStop (patience self) counter history,
   if patience self <=? counter then false else true).

(** The callback over the epochs of a training: the callback after the last
    epoch, and what each epoch answered. *)
Fixpoint epochs (self : EarlyStop) (losses : list Q) : EarlyStop * list bool :=
  match losses with
  | [] => (self, [])
  | loss :: rest =>
      let (self, go_on) := on_validation_epoch_end self loss in
      let (self, answers) := epochs self rest in
      (self, go_on :: answers)
  end.

(** The number of epochs at the end of a history that each had a greater
    loss than the epoch before: [rising_run] reads the history from its end. *)
Fixpoint rising_run_rev (newest_first : list Q) : nat :=
  match newest_first with
  | a :: (b :: _) as older => if greater a b then S (rising_run_rev older) else 0
  | _ => 0
  end.

Definition rising_run (history : list Q) : nat := rising_run_rev (rev history).

End EarlyStop.

(** ** Small back ends and data to run the mixers on *)

Module Examples.

(** A stand-in for neuralforecast: a model knows its horizon and its level and
    remembers the number of rows of every frame it was trained on. *)
Record toy_nhits_model : Set := mkToyNHits
  { toy_h : nat; toy_level : Z; toy_history : list nat }.

(** One block of [toy_h] rows per series of the input frame. *)
Definition toy_nhits_predict (m : toy_nhits_model) (df : Table) : outcome Table :=
  match lookup "unique_id" (cols df) with
  | None => Throws "neuralforecast"
  | Some ids =>
      let ids := flat_map (fun u => repeat u (toy_h m)) (unique (map cell_str ids)) in
      let steps := map (fun i => CInt (Z.of_nat i)) (seq 0 (List.length ids)) in
      Returns
        (mkTable (List.length ids)
           [ ("unique_id", map CStr ids);
             ("ds", steps);
             (("NHITS-lo-" ++ str_of_Z (toy_level m))%string, map (fun _ => CNum 1) ids);
             ("NHITS-median", map (fun _ => CNum 2) ids);
             (("NHITS-hi-" ++ str_of_Z (toy_level m))%string, map (fun _ => CNum 3) ids) ])
  end.

Definition toy_nhits : NHits.Backend :=
  {| NHits.Model := toy_nhits_model;
     NHits.load_from_checkpoint := fun _ => Returns (mkToyNHits 48 90 []);
     NHits.n_time_in := fun _ => 240;
     NHits.n_time_out := fun m => toy_h m;
     NHits.train := fun h _ _ level _ df _ => Returns (mkToyNHits h level [nrows df]);
     NHits.predict := toy_nhits_predict |}.

(** A stand-in for gluonts: a model knows its prediction length and remembers
    the size of every data set it was trained on, in order; a data set is
    the list of its series with the number of rows. *)
Record toy_gluon_model : Set := mkToyGluon
  { toy_length : nat; toy_trained_on : list nat }.

Record toy_dataset : Set := mkToyDataset
  { toy_items : list string; toy_rows : nat; toy_freq : string }.

Definition toy_resample (agg : list (string * string)) (rows : list GluonTS.KRow)
  : GluonTS.Resampled :=
  GluonTS.mkResampled (map GluonTS.k_index rows)
    (mkTable (List.length rows)
       (map (fun kv => (fst kv, map (fun r => CNum (GluonTS.k_target r)) rows)) agg)).

Definition toy_from_long (r : GluonTS.Resampled) (item : GluonTS.item_id)
    (freq : string) : toy_dataset :=
  let name := match item with
              | GluonTS.Columns names => hd "" names
              | GluonTS.Column name => name
              end in
  let ids := match lookup name (cols (GluonTS.rs_table r)) with
             | Some c => unique (map cell_str c)
             | None => []
             end in
  mkToyDataset ids (nrows (GluonTS.rs_table r)) freq.

Definition toy_gluon : GluonTS.Backend :=
  {| GluonTS.Model := toy_gluon_model;
     GluonTS.Dataset := toy_dataset;
     GluonTS.Forecast := nat;
     GluonTS.Distribution := string;
     GluonTS.PyModule := string;
     GluonTS.StudentTOutput := "StudentTOutput";
     GluonTS.import_module := fun name => Returns name;
     GluonTS.getattr_call := fun _ name =>
       if (name =? "")%string then None else Some (Returns name);
     GluonTS.resample_agg := fun _ agg rows => Returns (toy_resample agg rows);
     GluonTS.groupby_resample_agg := fun col _ agg rows =>
       let r := toy_resample agg rows in
       Returns (GluonTS.mkResampled (GluonTS.rs_index r)
                  (setitem (GluonTS.rs_table r) col
                     (map (fun k => CStr (GluonTS.gby0 k)) rows)));
     GluonTS.from_long_dataframe := fun r _ item freq _ _ _ =>
       Returns (toy_from_long r item freq);
     GluonTS.dataset_freq := toy_freq;
     GluonTS.train := fun est ds =>
       Returns (mkToyGluon (GluonTS.prediction_length est) [toy_rows ds]);
     GluonTS.train_from := fun est m ds =>
       match m, ds with
       | Some m, Some ds =>
           Returns (mkToyGluon (GluonTS.prediction_length est)
                      (toy_trained_on m ++ [toy_rows ds]))
       | _, _ => Throws "gluonts"
       end;
     GluonTS.predict := fun m ds =>
       match ds with
       | Some ds => Returns (map (fun _ => toy_length m) (toy_items ds))
       | None => Throws "gluonts"
       end;
     GluonTS.quantile := fun h q => Returns (repeat q h) |}.

(** The rows of a frame whose group values are the given combination. *)
Definition toy_helpers : GluonTS.Helpers :=
  {| GluonTS.get_group_matches := fun df combination _ =>
       Returns (filter (fun r => strings_eqb (r_group r) combination) df) |}.

(** Two series, [a] and [b], three and two time steps, stored by series. *)
Definition row (t : Z) (y : Q) (g : string) (i : Z) : Row :=
  mkRow t t y [g] i [] [].

Definition two_series : Frame :=
  [ row 1 10 "a" 0; row 2 11 "a" 1; row 3 12 "a" 2;
    row 1 20 "b" 3; row 2 21 "b" 4 ].

Definition two_series_ds : Ds := mkDs two_series 5.

(** The same two series at five distinct times, still stored by series:
    [a] at times 1, 2 and 5, [b] at times 3 and 4. *)
Definition interleaved : Frame :=
  [ row 1 10 "a" 0; row 2 11 "a" 1; row 5 12 "a" 2;
    row 3 20 "b" 3; row 4 21 "b" 4 ].

Definition interleaved_ds : Ds := mkDs interleaved 5.

Definition grouped : TsAnalysis := mkTsAnalysis (mkTss "t" ["g"] 2) "D".

Definition ungrouped : TsAnalysis := mkTsAnalysis (mkTss "t" [] 2) "D".

Definition no_args : PredictionArguments := mkArgs false None.

Definition empty_ds : Ds := mkDs [] 0.

(** An N-HITS mixer of horizon 2, fitted on the two series. *)
Definition nhits_trained : result (@NHits.NHitsMixer toy_nhits) :=
  @NHits.fit toy_nhits
     (@NHits.__init__ toy_nhits 1 "y" 2 3 grouped false None)
     two_series_ds empty_ds.

(** A GluonTS mixer of horizon 2, fitted on the two series. *)
Definition gluon_trained (ta : TsAnalysis) : result (@GluonTS.GluonTSMixer toy_gluon) :=
  m <- @GluonTS.__init__ toy_gluon 1 "y" 2 3 ta 10 3 "" 0%Z None None ;;
  @GluonTS.fit toy_gluon m two_series_ds empty_ds.


(** A stand-in for torch: a tensor is a batch of sequences of integers.  As
    in torch, a tensor of lengths is a slice bound only when it has a single
    element, and a Boolean index has one entry per row.  A device is its
    name, and a mask that was moved carries the name of its device; the
    layers of the encoder hand their input on when the two masks are on the
    same device. *)
Definition toy_torch : Transformer.Torch :=
  {| Transformer.Tensor := list (list Z);
     Transformer.slice_until := fun t lengths =>
       match lengths with
       | [l] => Returns (map (firstn (Z.to_nat l)) t)
       | _ => Throws "torch"
       end;
     Transformer.slice_from := fun t lengths =>
       match lengths with
       | [l] => Returns (map (skipn (Z.to_nat l)) t)
       | _ => Throws "torch"
       end;
     Transformer.index_rows := fun t mask =>
       if List.length mask =? List.length t then Returns (select mask t)
       else Throws "torch";
     Transformer.size0 := fun t => List.length t;
     Transformer.size1 := fun t => List.length (hd [] t);
     Transformer.unsqueeze_last := fun t => Returns t;
     Transformer.squeeze_last := fun t => Returns t;
     Transformer.linear := fun t => Returns t;
     Transformer.pos_encoder := fun t => Returns t;
     Transformer.Device := string;
     Transformer.AttnMask := string * list (list Transformer.attn);
     Transformer.PadMask := string * list (list bool);
     Transformer.attn_to := fun m d => Returns (d, m);
     Transformer.pad_to := fun m d => Returns (d, m);
     Transformer.attn_size0 := fun m => List.length (snd m);
     Transformer.transformer_encoder := fun t mask padding =>
       if (fst mask =? fst padding)%string then Returns t
       else Throws "torch" |}.

End Examples.

(** * Properties *)

(** ** [len_to_mask] *)

Section LenToMask.
Import TransformerHelpers.

Lemma fold_max_ge (l : list nat) (a : nat) :
  a <= fold_left Nat.max l a /\ Forall (fun x => x <= fold_left Nat.max l a) l.
Proof.
  revert a; induction l as [|x l IH]; intros a; simpl.
  - split; [lia | constructor].
  - destruct (IH (Nat.max a x)) as [Ha Hl]. split; [lia|].
    constructor; [lia | exact Hl].
Qed.

Lemma fold_max_in (l : list nat) (a : nat) :
  fold_left Nat.max l a = a \/ In (fold_left Nat.max l a) l.
Proof.
  revert a; induction l as [|x l IH]; intros a; simpl; [now left|].
  destruct (IH (Nat.max a x)) as [E|E].
  - rewrite E. destruct (Nat.max_spec a x) as [[_ ->]|[_ ->]]; auto.
  - auto.
Qed.

Lemma tensor_max_is_maximum (lengths : list nat) (M : nat) :
  In M lengths -> Forall (fun x => x <= M) lengths ->
  tensor_max lengths = Ok M.
Proof.
  intros Hin Hmax. destruct lengths as [|x rest]; [contradiction|].
  simpl. f_equal. apply Nat.le_antisymm.
  - rewrite Forall_forall in Hmax.
    destruct (fold_max_in rest x) as [E|E].
    + rewrite E. apply Hmax. now left.
    + apply Hmax. now right.
  - destruct (fold_max_ge rest x) as [Hx Hr].
    destruct Hin as [<-|Hin]; [exact Hx|].
    rewrite Forall_forall in Hr. now apply Hr.
Qed.

Lemma entry_broadcast_lt (lengths : list nat) (M i j : nat) :
  i < length lengths -> j < M ->
  entry (broadcast_lt (arange M) lengths) i j = (j <? nth i lengths 0).
Proof.
  intros Hi Hj. unfold entry, broadcast_lt, arange.
  rewrite (nth_indep _ [] (map (fun j => j <? 0) (seq 0 M)))
    by (rewrite length_map; exact Hi).
  rewrite (map_nth (fun len => map (fun j => j <? len) (seq 0 M)) lengths 0 i).
  rewrite (nth_indep _ false ((fun j => j <? nth i lengths 0) 0))
    by (rewrite length_map, length_seq; exact Hj).
  rewrite (map_nth (fun j => j <? nth i lengths 0) (seq 0 M) 0 j).
  now rewrite seq_nth.
Qed.

Lemma entry_logical_not (mask : list (list bool)) (M i j : nat) :
  i < length mask -> Forall (fun row => length row = M) mask -> j < M ->
  entry (logical_not mask) i j = negb (entry mask i j).
Proof.
  intros Hi Hrows Hj. unfold entry, logical_not.
  rewrite (nth_indep _ [] (map negb [])) by (rewrite length_map; exact Hi).
  rewrite (map_nth (map negb) mask [] i).
  assert (Hlen : length (nth i mask []) = M).
  { rewrite Forall_forall in Hrows. apply Hrows. now apply nth_In. }
  rewrite (nth_indep _ false (negb false)) by (rewrite length_map; lia).
  now rewrite (map_nth negb).
Qed.

End LenToMask.

(** C10: for a non-empty tensor of lengths with maximum [M], [len_to_mask]
    returns a matrix with one row per length and [M] columns; without
    [zeros] its entry [(i, j)] is true exactly when [j < lengths[i]], and
    with [zeros] it is the elementwise negation of that matrix. *)
Theorem len_to_mask_spec (lengths : list nat) (M : nat)
    (Hin : In M lengths) (Hmax : Forall (fun x => x <= M) lengths) :
  exists mask,
    TransformerHelpers.len_to_mask lengths false = Ok mask
    /\ length mask = length lengths
    /\ Forall (fun row => length row = M) mask
    /\ (forall i j, i < length lengths -> j < M ->
          (TransformerHelpers.entry mask i j = true <-> j < nth i lengths 0))
    /\ TransformerHelpers.len_to_mask lengths true
       = Ok (TransformerHelpers.logical_not mask)
    /\ (forall i j, i < length lengths -> j < M ->
          TransformerHelpers.entry (TransformerHelpers.logical_not mask) i j
          = negb (TransformerHelpers.entry mask i j)).
Proof.
  exists (TransformerHelpers.broadcast_lt (TransformerHelpers.arange M) lengths).
  assert (Hlen : length (TransformerHelpers.broadcast_lt
                           (TransformerHelpers.arange M) lengths)
                 = length lengths)
    by (unfold TransformerHelpers.broadcast_lt; apply length_map).
  assert (Hrows : Forall (fun row => length row = M)
                    (TransformerHelpers.broadcast_lt
                       (TransformerHelpers.arange M) lengths)).
  { unfold TransformerHelpers.broadcast_lt, TransformerHelpers.arange.
    apply Forall_forall. intros row Hrow. apply in_map_iff in Hrow.
    destruct Hrow as [len [<- _]]. now rewrite length_map, length_seq. }
  unfold TransformerHelpers.len_to_mask.
  rewrite (tensor_max_is_maximum lengths M Hin Hmax). simpl.
  repeat split; auto.
  - rewrite entry_broadcast_lt by assumption. apply Nat.ltb_lt.
  - rewrite entry_broadcast_lt by assumption. apply Nat.ltb_lt.
  - intros i j Hi Hj. apply (entry_logical_not _ M); auto. now rewrite Hlen.
Qed.

Lemma len_to_mask_spec_witness :
  exists mask,
    TransformerHelpers.len_to_mask [2; 0; 3] false = Ok mask
    /\ mask = [[true; true; false]; [false; false; false]; [true; true; true]]
    /\ TransformerHelpers.len_to_mask [2; 0; 3] true
       = Ok [[false; false; true]; [true; true; true]; [false; false; false]].
Proof.
  destruct (len_to_mask_spec [2; 0; 3] 3) as [mask [Hm [_ [_ [_ [Hz _]]]]]].
  - simpl; auto.
  - repeat constructor; lia.
  - exists mask. vm_compute in Hm. inversion Hm. subst mask.
    repeat split; reflexivity.
Defined.

(** ** The mixer contract among the declared classes *)

(** C5, as stated, fails: the class that wraps the Transformer encoder
    defines none of the three operations of the mixer contract. *)
Lemma transformer_encoder_is_no_mixer :
  In ClassTable.TransformerEncoder ClassTable.wrappers
  /\ ClassTable.provides_mixer_contract ClassTable.TransformerEncoder = false
  /\ forallb ClassTable.provides_mixer_contract ClassTable.wrappers = false.
Proof.
  split; [simpl; auto | split; reflexivity].
Qed.

(** C5, amended: the two mixer classes derive from [BaseMixer] and define
    [fit(train_data, dev_data)], [partial_fit(train_data, dev_data, args)] and
    [__call__(ds, args)]; the Transformer encoder derives from [nn.Module],
    defines no method of these names and offers [forward] and [encode]. *)
Theorem mixer_contract_of_the_mixers :
  ClassTable.provides_mixer_contract ClassTable.GluonTSMixer = true
  /\ ClassTable.provides_mixer_contract ClassTable.NHitsMixer = true
  /\ ClassTable.c_bases ClassTable.GluonTSMixer = ["BaseMixer"]
  /\ ClassTable.c_bases ClassTable.NHitsMixer = ["BaseMixer"]
  /\ ClassTable.c_bases ClassTable.TransformerEncoder = ["nn.Module"]
  /\ forallb (fun m => negb (ClassTable.defines_name ClassTable.TransformerEncoder
                                                     (ClassTable.m_name m)))
             ClassTable.mixer_contract = true
  /\ ClassTable.defines ClassTable.TransformerEncoder
       (ClassTable.Method "forward" ["src"; "lengths"; "device"]) = true
  /\ ClassTable.defines ClassTable.TransformerEncoder
       (ClassTable.Method "encode" ["batch"; "criterion"; "device"]) = true.
Proof.
  repeat split; reflexivity.
Qed.

(** ** Exceptions that the wrapper raises itself *)

Section NeverOwn.

Lemma never_own_ok {A} (a : A) : never_own (Ok a).
Proof. intros msg E; discriminate E. Qed.

Lemma never_own_builtin {A} (b : builtin) : never_own (@Raise A (Builtin b)).
Proof. intros msg E; discriminate E. Qed.

Lemma never_own_vendor {A} (w : string) : never_own (@Raise A (Vendor w)).
Proof. intros msg E; discriminate E. Qed.

Lemma never_own_call {A} (o : outcome A) : never_own (call o).
Proof. destruct o; intros msg E; discriminate E. Qed.

Lemma never_own_raise {A C} (e : exn) :
  never_own (@Raise A e) -> never_own (@Raise C e).
Proof.
  intros Hr msg E. apply (Hr msg). inversion E. reflexivity.
Qed.

Lemma never_own_bind {A C} (r : result A) (k : A -> result C) :
  never_own r -> (forall a, never_own (k a)) -> never_own (Py.bind r k).
Proof.
  intros Hr Hk msg. destruct r as [a|e]; simpl.
  - apply Hk.
  - apply (never_own_raise e Hr).
Qed.

Lemma never_own_foldM {A C} (f : C -> A -> result C) (l : list A) (c : C) :
  (forall c a, never_own (f c a)) -> never_own (foldM f l c).
Proof.
  intros Hf. revert c. induction l as [|x l IH]; intros c; simpl.
  - apply never_own_ok.
  - specialize (Hf c x). destruct (f c x) as [c'|e].
    + apply IH.
    + exact Hf.
Qed.

Lemma never_own_mapM {A C} (f : A -> result C) (l : list A) :
  (forall a, never_own (f a)) -> never_own (mapM f l).
Proof.
  intros Hf. induction l as [|x l IH]; simpl.
  - apply never_own_ok.
  - specialize (Hf x). destruct (f x) as [y|e];
      [|exact (never_own_raise e Hf)].
    destruct (mapM f l) as [ys|e];
      [apply never_own_ok | exact (never_own_raise e IH)].
Qed.

Lemma never_own_getitem (t : Table) (c : string) : never_own (getitem t c).
Proof.
  unfold getitem. destruct (lookup c (cols t));
    [apply never_own_ok | apply never_own_vendor].
Qed.

Lemma never_own_item0 {A} (l : list A) : never_own (item0 l).
Proof. destruct l; [apply never_own_vendor | apply never_own_ok]. Qed.

Lemma never_own_iloc_last {A} (l : list A) : never_own (iloc_last l).
Proof.
  unfold iloc_last. destruct (rev l); [apply never_own_vendor | apply never_own_ok].
Qed.

Lemma never_own_setitem_array (t : Table) (c : string) (v : list cell) :
  never_own (setitem_array t c v).
Proof.
  unfold setitem_array. destruct (_ =? _);
    [apply never_own_ok | apply never_own_vendor].
Qed.

End NeverOwn.

(** Walks through a method body: every step is a bind, a library call, a
    pandas access, a loop or a branch. *)
Ltac never_own_step :=
  first
    [ apply never_own_ok
    | apply never_own_builtin
    | apply never_own_vendor
    | apply never_own_call
    | apply never_own_getitem
    | apply never_own_item0
    | apply never_own_iloc_last
    | apply never_own_setitem_array
    | apply never_own_bind; [| intro]
    | apply never_own_foldM; intros
    | apply never_own_mapM; intros
    | match goal with
      | |- never_own (match ?x with _ => _ end) => destruct x
      | |- never_own (if ?b then _ else _) => destruct b
      end ].

Ltac never_own_walk := repeat never_own_step.

Section OwnExceptions.
Context {NB : NHits.Backend} {GB : GluonTS.Backend} {GH : GluonTS.Helpers}.

Lemma nhits_fit_never_own (self : NHits.NHitsMixer) (a b : Ds) :
  never_own (NHits.fit self a b).
Proof. unfold NHits.fit, NHits.value_counts_min. never_own_walk. Qed.

Lemma nhits_partial_fit_never_own (self : NHits.NHitsMixer) (a b : Ds) args :
  never_own (NHits.partial_fit self a b args).
Proof.
  unfold NHits.partial_fit. apply never_own_bind; [|intro; apply never_own_ok].
  apply nhits_fit_never_own.
Qed.

Lemma nhits_call_never_own (self : NHits.NHitsMixer) (ds : Ds) args :
  never_own (NHits.__call__ self ds args).
Proof. unfold NHits.__call__, NHits.write_forecast. never_own_walk. Qed.

Lemma gluonts_deduplicated_frame_never_own (self : GluonTS.GluonTSMixer) df ph g :
  never_own (GluonTS.deduplicated_frame self df ph g).
Proof. unfold GluonTS.deduplicated_frame. never_own_walk. Qed.

Lemma gluonts_make_initial_ds_never_own (self : GluonTS.GluonTSMixer) df ph g :
  never_own (GluonTS._make_initial_ds self df ph g).
Proof.
  unfold GluonTS._make_initial_ds. apply never_own_bind;
    [apply gluonts_deduplicated_frame_never_own | intro; never_own_walk].
Qed.

Lemma gluonts_fit_never_own (self : GluonTS.GluonTSMixer) (a b : Ds) :
  never_own (GluonTS.fit self a b).
Proof.
  unfold GluonTS.fit. apply never_own_bind;
    [apply gluonts_make_initial_ds_never_own | intro; never_own_walk].
Qed.

Lemma gluonts_partial_fit_never_own (self : GluonTS.GluonTSMixer) (a b : Ds) args :
  never_own (GluonTS.partial_fit self a b args).
Proof.
  unfold GluonTS.partial_fit. apply never_own_bind; [never_own_walk | intro].
  apply never_own_bind;
    [apply gluonts_make_initial_ds_never_own | intro; never_own_walk].
Qed.

Lemma gluonts_call_never_own (self : GluonTS.GluonTSMixer) (ds : Ds) args :
  never_own (GluonTS.__call__ self ds args).
Proof.
  unfold GluonTS.__call__. apply never_own_bind; [never_own_walk | intro].
  apply never_own_bind; [never_own_walk | intro].
  apply never_own_bind; [apply gluonts_make_initial_ds_never_own | intro].
  unfold GluonTS.write_forecast, GluonTS.quantile_list, GluonTS.py_max.
  never_own_walk.
Qed.

End OwnExceptions.

(** C4, as stated, fails: with two partition columns the constructor of the
    GluonTS mixer raises the wrapper's own exception. *)
Lemma gluonts_init_raises_its_own_exception :
  @GluonTS.__init__ Examples.toy_gluon 1 "y" 2 3
     (mkTsAnalysis (mkTss "t" ["g"; "h"] 2) "D") 10 3 "" 0%Z None None
  = Raise (Own "This mixer can only be used with 0 or 1 partition columns.").
Proof. reflexivity. Qed.

(** C4, amended: the wrapper raises an exception of its own in one place
    only, the constructor of the GluonTS mixer, and exactly when more than
    one partition column is configured and the distribution was loaded;
    [fit], [partial_fit] and [__call__] of both mixers never do. *)
Theorem own_exception_only_from_gluonts_init
    (NB : NHits.Backend) (GB : GluonTS.Backend) (GH : GluonTS.Helpers) :
  (forall stop_after target horizon window ta n_epochs patience dist seed cat real msg,
      GluonTS.__init__ stop_after target horizon window ta n_epochs patience
                       dist seed cat real = Raise (Own msg)
      <-> (msg = GluonTS.own_message
           /\ 1 < length (group_by (tss ta))
           /\ exists m,
               GluonTS.import_module
                 (String.concat "." ("gluonts.mx.distribution"
                                     :: removelast (GluonTS.split_dot dist)))
               = Returns m
               /\ forall what,
                   GluonTS.getattr_call m (last (GluonTS.split_dot dist) "")
                   <> Some (Throws what)))
  /\ (forall self a b, never_own (NHits.fit self a b))
  /\ (forall self a b args, never_own (NHits.partial_fit self a b args))
  /\ (forall self ds args, never_own (NHits.__call__ self ds args))
  /\ (forall self a b, never_own (GluonTS.fit self a b))
  /\ (forall self a b args, never_own (GluonTS.partial_fit self a b args))
  /\ (forall self ds args, never_own (GluonTS.__call__ self ds args)).
Proof.
  split; [| repeat split; intros;
            auto using nhits_fit_never_own, nhits_partial_fit_never_own,
              nhits_call_never_own, gluonts_fit_never_own,
              gluonts_partial_fit_never_own, gluonts_call_never_own ].
  intros stop_after target horizon window ta n_epochs patience dist seed cat real msg.
  unfold GluonTS.__init__.
  destruct (GluonTS.import_module _) as [m|what] eqn:Him; simpl.
  - destruct (GluonTS.getattr_call m _) as [[d|what]|] eqn:Hget; simpl.
    + destruct (group_by (tss ta)) as [|g1 [|g2 rest]] eqn:Hg; simpl.
      * split; [discriminate | intros [_ [Hlt _]]; lia].
      * split; [discriminate | intros [_ [Hlt _]]; lia].
      * split.
        -- intros E. inversion E. split; [reflexivity|]. split; [lia|].
           exists m. split; [reflexivity|]. rewrite Hget. discriminate.
        -- intros [-> _]. reflexivity.
    + split; [discriminate|].
      intros [_ [_ [m' [Em Hno]]]]. inversion Em; subst m'.
      exfalso. apply (Hno what). exact Hget.
    + destruct (group_by (tss ta)) as [|g1 [|g2 rest]] eqn:Hg; simpl.
      * split; [discriminate | intros [_ [Hlt _]]; lia].
      * split; [discriminate | intros [_ [Hlt _]]; lia].
      * split.
        -- intros E. inversion E. split; [reflexivity|]. split; [lia|].
           exists m. split; [reflexivity|]. rewrite Hget. discriminate.
        -- intros [-> _]. reflexivity.
  - split; [discriminate|]. intros [_ [_ [m [Em _]]]]. discriminate Em.
Qed.

(** ** Facts about the frame operations *)

Section TableFacts.

Lemma lookup_assign_same {A} (c : string) (v : A) (l : list (string * A)) :
  lookup c (assign c v l) = Some v.
Proof.
  induction l as [|[k w] l IH]; simpl.
  - now rewrite String.eqb_refl.
  - destruct (k =? c)%string eqn:E; simpl; rewrite E; auto.
Qed.

Lemma lookup_assign_other {A} (c c' : string) (v : A) (l : list (string * A)) :
  c <> c' -> lookup c (assign c' v l) = lookup c l.
Proof.
  intros Hne. induction l as [|[k w] l IH]; simpl.
  - destruct (c' =? c)%string eqn:E; [|reflexivity].
    apply String.eqb_eq in E. congruence.
  - destruct (k =? c')%string eqn:E; simpl.
    + apply String.eqb_eq in E. subst k.
      destruct (c' =? c)%string eqn:E'; [|reflexivity].
      apply String.eqb_eq in E'. congruence.
    + now rewrite IH.
Qed.

Lemma keys_assign_known {A} (c : string) (v : A) (l : list (string * A)) :
  In c (map fst l) -> map fst (assign c v l) = map fst l.
Proof.
  induction l as [|[k w] l IH]; simpl; [contradiction|].
  intros Hin. destruct (k =? c)%string eqn:E; simpl; [reflexivity|].
  f_equal. apply IH. destruct Hin as [->|Hin]; [|exact Hin].
  rewrite String.eqb_refl in E. discriminate.
Qed.

Lemma keys_assign_new {A} (c : string) (v : A) (l : list (string * A)) :
  ~ In c (map fst l) -> map fst (assign c v l) = map fst l ++ [c].
Proof.
  induction l as [|[k w] l IH]; simpl; [reflexivity|].
  intros Hnot. destruct (k =? c)%string eqn:E; simpl.
  - apply String.eqb_eq in E. subst k. exfalso. apply Hnot. now left.
  - f_equal. apply IH. intros Hin. apply Hnot. now right.
Qed.

Lemma lookup_some_key {A} (c : string) (l : list (string * A)) (v : A) :
  lookup c l = Some v -> In c (map fst l).
Proof.
  induction l as [|[k w] l IH]; simpl; [discriminate|].
  destruct (k =? c)%string eqn:E.
  - apply String.eqb_eq in E. auto.
  - intros Hl. right. now apply IH.
Qed.

Lemma length_set_nth {A} (i : nat) (v : A) (l : list A) :
  length (set_nth i v l) = length l.
Proof.
  revert i; induction l as [|x l IH]; intros [|i]; simpl; auto.
Qed.

Lemma nth_set_nth_same {A} (i : nat) (v d : A) (l : list A) :
  i < length l -> nth i (set_nth i v l) d = v.
Proof.
  revert i; induction l as [|x l IH]; intros [|i]; simpl; intros Hi;
    try lia; auto. apply IH. lia.
Qed.

Lemma nth_set_nth_other {A} (i j : nat) (v d : A) (l : list A) :
  i <> j -> nth j (set_nth i v l) d = nth j l d.
Proof.
  revert i j; induction l as [|x l IH]; intros [|i] [|j] Hne; simpl; auto;
    try congruence.
Qed.

Lemma set_nth_Forall {A} (P : A -> Prop) (i : nat) (v : A) (l : list A) :
  P v -> Forall P l -> Forall P (set_nth i v l).
Proof.
  intros Hv. revert i; induction l as [|x l IH]; intros [|i] Hl; simpl; auto;
    inversion Hl; subst; constructor; auto.
Qed.

Lemma columns_at_set (t : Table) (i : nat) (c : string) (v : cell) :
  columns (at_set t i c v) = columns t.
Proof.
  unfold at_set, columns. destruct (lookup c (cols t)) eqn:E; simpl; auto.
  apply keys_assign_known. now apply lookup_some_key in E.
Qed.

Lemma nrows_at_set (t : Table) (i : nat) (c : string) (v : cell) :
  nrows (at_set t i c v) = nrows t.
Proof. unfold at_set. destruct (lookup c (cols t)); reflexivity. Qed.

Lemma lookup_at_set_other (t : Table) (i : nat) (c c' : string) (v : cell) :
  c <> c' -> lookup c (cols (at_set t i c' v)) = lookup c (cols t).
Proof.
  intros Hne. unfold at_set. destruct (lookup c' (cols t)); simpl; auto.
  now apply lookup_assign_other.
Qed.

Lemma lookup_at_set_same (t : Table) (i : nat) (c : string) (v : cell) col :
  lookup c (cols t) = Some col ->
  lookup c (cols (at_set t i c v)) = Some (set_nth i v col).
Proof.
  intros E. unfold at_set. rewrite E. simpl. apply lookup_assign_same.
Qed.

Lemma foldM_invariant {A C} (P : C -> Prop) (f : C -> A -> result C)
    (l : list A) (c c' : C) :
  (forall c a c', P c -> f c a = Ok c' -> P c') ->
  P c -> foldM f l c = Ok c' -> P c'.
Proof.
  intros Hstep. revert c. induction l as [|x l IH]; intros c Hc; simpl.
  - intros E. inversion E. now subst.
  - destruct (f c x) as [c1|e] eqn:E; [|discriminate].
    apply IH. now apply (Hstep c x).
Qed.

Lemma fold_left_invariant {A C} (P : C -> Prop) (f : C -> A -> C)
    (l : list A) (c : C) :
  (forall c a, P c -> P (f c a)) -> P c -> P (fold_left f l c).
Proof.
  intros Hstep. revert c. induction l as [|x l IH]; intros c Hc; simpl; auto.
Qed.

End TableFacts.

Lemma bind_ok_inv {A C} (r : result A) (k : A -> result C) (y : C) :
  Py.bind r k = Ok y -> exists a, r = Ok a /\ k a = Ok y.
Proof.
  destruct r as [a|e]; simpl; [|discriminate]. intros E. now exists a.
Qed.

(** Splits an equation [x <- r ;; k = Ok y] into the two steps. *)
Ltac bind_ok H :=
  let a := fresh "a" in
  let E := fresh "E" in
  apply bind_ok_inv in H; destruct H as [a [E H]]; cbv beta in H.

(** ** The forecast table of the N-HITS mixer *)

Section NHitsCall.
Context {B : NHits.Backend}.

Lemma length_insert_by {A} (key : A -> Z) (r : A) (l : list A) :
  length (insert_by key r l) = S (length l).
Proof.
  induction l as [|x l IH]; simpl; [reflexivity|].
  destruct (key r <=? key x)%Z; simpl; auto.
Qed.

Lemma length_sort_by {A} (key : A -> Z) (l : list A) :
  length (sort_by key l) = length l.
Proof.
  induction l as [|x l IH]; simpl; [reflexivity|].
  now rewrite length_insert_by, IH.
Qed.

(** The long frame, column by column. *)
Lemma make_initial_df_cols (self : NHits.NHitsMixer) (df : Frame) :
  NHits._make_initial_df self df
  = mkTable (length df)
      [ ("index", map (fun i => CInt (Z.of_nat i)) (seq 0 (length df)));
        ("y", map (fun r => CNum (r_target r)) (sort_by r_oby df));
        ("ds", map (fun r => CInt (r_index r)) (sort_by r_oby df));
        ("unique_id",
         map (fun r => CStr (NHits.unique_id self r)) (sort_by r_oby df)) ].
Proof.
  unfold NHits._make_initial_df, reset_index, setitem. simpl.
  rewrite length_sort_by, map_map. reflexivity.
Qed.

Lemma nhits_table_at_set (h len : nat) (index : list cell) (t : Table)
    (i : nat) (c : string) (values : list cell) :
  In c NHits.target_cols ->
  NHits.forecast_table h len index t ->
  NHits.forecast_table h len index (at_set t i c (CList (firstn h values))).
Proof.
  intros Hc [Hn [Hcols [Hidx Hall]]].
  assert (Hne : "index" <> c)
    by (intros <-; simpl in Hc; intuition discriminate).
  split; [now rewrite nrows_at_set|].
  split; [now rewrite columns_at_set|].
  split; [now rewrite lookup_at_set_other|].
  intros c' Hc'. destruct (Hall c' Hc') as [col [Hl [Hlen Hcells]]].
  destruct (string_dec c' c) as [->|Hdiff].
  - exists (set_nth i (CList (firstn h values)) col).
    split; [now apply lookup_at_set_same|].
    split; [now rewrite length_set_nth|].
    apply set_nth_Forall; [right; now exists values | exact Hcells].
  - exists col. split; [now rewrite lookup_at_set_other | auto].
Qed.

Lemma nhits_write_forecast_table (self : NHits.NHitsMixer) (fcst : Table)
    (gidx : cell) (group : string) (len : nat) (index : list cell)
    (t t' : Table) (pt : string * string) :
  In (snd pt) NHits.target_cols ->
  NHits.forecast_table (NHits.horizon self) len index t ->
  NHits.write_forecast self fcst gidx group t pt = Ok t' ->
  NHits.forecast_table (NHits.horizon self) len index t'.
Proof.
  intros Hc Ht Hw. destruct pt as [pred_col target_col].
  unfold NHits.write_forecast in Hw.
  bind_ok Hw. bind_ok Hw. bind_ok Hw. bind_ok Hw.
  inversion Hw; subst t'. now apply nhits_table_at_set.
Qed.

Lemma in_combine_target_cols (self : NHits.NHitsMixer) (pt : string * string) :
  In pt (combine (NHits.pred_cols self) NHits.target_cols) ->
  In (snd pt) NHits.target_cols.
Proof. destruct pt as [p t]. intros Hin. now apply in_combine_r in Hin. Qed.

Lemma foldM_invariant_in {A C} (P : C -> Prop) (f : C -> A -> result C)
    (l : list A) (c c' : C) :
  (forall c a c', In a l -> P c -> f c a = Ok c' -> P c') ->
  P c -> foldM f l c = Ok c' -> P c'.
Proof.
  revert c. induction l as [|x l IH]; intros c Hstep Hc; simpl.
  - intros E. inversion E. now subst.
  - destruct (f c x) as [c1|e] eqn:E; [|discriminate].
    apply IH.
    + intros c2 a c3 Hin. apply Hstep. now right.
    + apply (Hstep c x); auto. now left.
Qed.

(** The table before the loop: zero-filled arrays and the positions. *)
Lemma nhits_table_before_loop (self : NHits.NHitsMixer) (len : nat)
    (index : list cell) :
  NHits.forecast_table (NHits.horizon self) len
    (map (fun i => nth i index CNaN) (seq 0 len))
    (fold_left
       (fun ydf target_col =>
          setitem ydf target_col
            (map (fun _ => NHits.zeros (NHits.horizon self)) (seq 0 (nrows ydf))))
       NHits.target_cols
       (setitem_series (filled (CInt 0) len ["prediction"; "lower"; "upper"])
                       "index" index)).
Proof.
  repeat split.
  intros c Hc. exists (map (fun _ => NHits.zeros (NHits.horizon self)) (seq 0 len)).
  assert (Hz : Forall (NHits.forecast_cell (NHits.horizon self))
                 (map (fun _ => NHits.zeros (NHits.horizon self)) (seq 0 len))).
  { apply Forall_forall. intros x Hx. apply in_map_iff in Hx.
    destruct Hx as [_ [<- _]]. now left. }
  simpl in Hc. destruct Hc as [<-|[<-|[<-|[]]]];
    (split; [reflexivity | split; [now rewrite length_map, length_seq | exact Hz]]).
Qed.

(** What [__call__] returns is the looped-over table with the confidence
    column appended. *)
Lemma nhits_call_table (self : NHits.NHitsMixer) (ds : Ds)
    (args : PredictionArguments) (ydf : Table) :
  NHits.__call__ self ds args = Ok ydf ->
  exists index t,
    NHits.forecast_table (NHits.horizon self) (ds_len ds) index t
    /\ ydf = setitem_scalar t "confidence" (CNum (9 # 10)).
Proof.
  unfold NHits.__call__. rewrite make_initial_df_cols.
  unfold getitem at 1. cbn [lookup cols String.eqb Ascii.eqb Bool.eqb Py.bind].
  unfold getitem at 1. cbn [lookup cols String.eqb Ascii.eqb Bool.eqb Py.bind].
  intros Hc. bind_ok Hc. bind_ok Hc. bind_ok Hc. bind_ok Hc.
  inversion Hc; subst ydf. clear Hc.
  eexists. exists a2. split; [|reflexivity].
  eapply (foldM_invariant_in _ _ _ _ _ _ (nhits_table_before_loop self _ _) E2).
  Unshelve.
  intros t [gidx group] t' _ Ht Hstep. cbv beta iota in Hstep.
  eapply (foldM_invariant_in _ _ _ _ _ _ Ht Hstep).
  Unshelve.
  intros t1 pt t2 Hin Ht1 Hw.
  eapply nhits_write_forecast_table; eauto using in_combine_target_cols.
Qed.

End NHitsCall.

(** ** When the N-HITS mixer returns *)

Section NHitsReturns.
Context {B : NHits.Backend}.

Lemma mapM_ok {A C} (P : C -> Prop) (f : A -> result C) (l : list A) :
  (forall x, In x l -> exists y, f x = Ok y /\ P y) ->
  exists ys, mapM f l = Ok ys /\ Forall P ys /\ length ys = length l.
Proof.
  induction l as [|x l IH]; intros Hf; simpl.
  - exists []. auto.
  - destruct (Hf x (or_introl eq_refl)) as [y [-> Hy]].
    destruct IH as [ys [-> [Hys Hlen]]].
    + intros x' Hx'. apply Hf. now right.
    + exists (y :: ys). simpl. auto.
Qed.

Lemma foldM_ok {A C} (P : C -> Prop) (f : C -> A -> result C) (l : list A) (c : C) :
  (forall c a, In a l -> P c -> exists c', f c a = Ok c' /\ P c') ->
  P c -> exists c', foldM f l c = Ok c' /\ P c'.
Proof.
  revert c. induction l as [|x l IH]; intros c Hf Hc; simpl.
  - now exists c.
  - destruct (Hf c x (or_introl eq_refl) Hc) as [c1 [-> Hc1]].
    apply IH; auto. intros c2 a Hin. apply Hf. now right.
Qed.

Lemma in_unique_by {A} (eqb : A -> A -> bool) (x : A) (l : list A) :
  In x (unique_by eqb l) -> In x l.
Proof.
  induction l as [|y l IH]; simpl; [auto|].
  intros [->|Hin]; [now left|]. right. apply IH.
  now apply filter_In in Hin.
Qed.

Lemma in_select {A} (mask : list bool) (values : list A) (x : A) :
  In x (select mask values) -> In x values.
Proof.
  unfold select. intros Hin. apply in_map_iff in Hin.
  destruct Hin as [[b v] [<- Hin]]. apply filter_In in Hin.
  destruct Hin as [Hin _]. now apply in_combine_r in Hin.
Qed.

Lemma select_some {A C} (p : A -> bool) (keys : list A) (values : list C) :
  length keys = length values ->
  (exists k, In k keys /\ p k = true) ->
  select (map p keys) values <> [].
Proof.
  revert values. induction keys as [|k keys IH]; intros [|v values] Hlen [k' [Hin Hp]];
    simpl in *; try contradiction; try discriminate.
  unfold select. simpl. destruct (p k) eqn:Hk; simpl; [discriminate|].
  destruct Hin as [->|Hin]; [congruence|].
  apply IH; [lia | now exists k'].
Qed.

Lemma iloc_last_in {A} (l : list A) :
  l <> [] -> exists x, iloc_last l = Ok x /\ In x l.
Proof.
  intros Hne. unfold iloc_last. destruct (rev l) as [|x r] eqn:E.
  - apply (f_equal (@rev A)) in E. rewrite rev_involutive in E. contradiction.
  - exists x. split; [reflexivity|]. apply in_rev. rewrite E. now left.
Qed.

Lemma where_some (mask : list bool) :
  In true mask -> where_ mask <> [].
Proof.
  unfold where_. generalize 0. induction mask as [|b mask IH]; intros n Hin;
    simpl in *; [contradiction|].
  destruct b; simpl; [discriminate|].
  destruct Hin as [Hin|Hin]; [discriminate|]. now apply IH.
Qed.

Lemma item0_ok {A} (l : list A) : l <> [] -> exists x, item0 l = Ok x.
Proof. destruct l as [|x l]; [contradiction | now exists x]. Qed.

(** A position of the long frame is found again in the [index] column of a
    forecast table that has as many rows. *)
Lemma position_in_table_index (n : nat) (gidx : cell) :
  In gidx (map (fun i => CInt (Z.of_nat i)) (seq 0 n)) ->
  In true
     (map (fun i => cell_eqb i gidx)
          (map (fun i => nth i (map (fun i => CInt (Z.of_nat i)) (seq 0 n)) CNaN)
               (seq 0 n))).
Proof.
  intros Hin. apply in_map_iff in Hin. destruct Hin as [k [<- Hk]].
  apply in_seq in Hk. apply in_map_iff. exists (CInt (Z.of_nat k)).
  split; [simpl; apply Z.eqb_refl|].
  apply in_map_iff. exists k. split; [|apply in_seq; lia].
  rewrite (nth_indep _ CNaN (CInt (Z.of_nat 0))) by (rewrite length_map, length_seq; lia).
  rewrite (map_nth (fun i => CInt (Z.of_nat i))). rewrite seq_nth by lia.
  reflexivity.
Qed.

(** [__call__] returns a table when the mixer holds a model, the library
    returns a forecast frame with the series column and the three quantile
    columns, and the data set reports the length of its frame. *)
Lemma nhits_call_returns (self : NHits.NHitsMixer) (ds : Ds)
    (args : PredictionArguments) (m : NHits.Model) (fcst : Table) :
  NHits.model self = Some m ->
  NHits.predict m (NHits._make_initial_df self (data_frame ds)) = Returns fcst ->
  (forall c, In c ("unique_id" :: NHits.pred_cols self) ->
             lookup c (cols fcst) <> None) ->
  ds_len ds = length (data_frame ds) ->
  exists ydf, NHits.__call__ self ds args = Ok ydf.
Proof.
  intros Hm Hp Hcols Hlen.
  unfold NHits.__call__. cbv zeta.
  rewrite make_initial_df_cols in Hp. rewrite make_initial_df_cols, Hlen, Hm.
  unfold getitem at 1. cbn [lookup cols String.eqb Ascii.eqb Bool.eqb Py.bind].
  unfold getitem at 1. cbn [lookup cols String.eqb Ascii.eqb Bool.eqb Py.bind].
  set (n := length (data_frame ds)).
  set (index := map (fun i => CInt (Z.of_nat i)) (seq 0 n)).
  set (uid := map (fun r => CStr (NHits.unique_id self r))
                  (sort_by r_oby (data_frame ds))).
  destruct (mapM_ok (fun y => In y index)
              (fun group => iloc_last
                              (select (map (fun u => cell_eqb u (CStr group)) uid)
                                      index))
              (unique (map cell_str uid))) as [ends [-> [Hends _]]].
  { intros g Hg. apply in_unique_by in Hg.
    destruct (iloc_last_in
                (select (map (fun u => cell_eqb u (CStr g)) uid) index))
      as [x [Hx Hin]].
    - apply select_some.
      + unfold uid, index, n.
        now rewrite !length_map, length_seq, length_sort_by.
      + apply in_map_iff in Hg. destruct Hg as [u [<- Hu]]. exists u.
        split; [exact Hu|]. unfold uid in Hu. apply in_map_iff in Hu.
        destruct Hu as [r [<- _]]. simpl. apply String.eqb_refl.
    - exists x. split; [exact Hx|]. now apply in_select in Hin. }
  cbn [Py.bind]. fold n index uid in Hp. rewrite Hp. cbn [Py.bind call].
  match goal with
  | |- exists ydf, Py.bind (foldM ?f ?l ?c) _ = Ok ydf =>
      destruct (foldM_ok (NHits.forecast_table (NHits.horizon self) n
                            (map (fun i => nth i index CNaN) (seq 0 n)))
                         f l c) as [t [-> _]]
  end.
  - intros t [gidx group] Hin Ht. cbv beta iota.
    apply in_combine_l in Hin. rewrite Forall_forall in Hends.
    specialize (Hends gidx Hin).
    apply foldM_ok; [|exact Ht].
    intros t1 [pred_col target_col] Hpt Ht1.
    assert (Hpred := in_combine_l _ _ _ _ Hpt).
    assert (Htarget := in_combine_r _ _ _ _ Hpt).
    unfold NHits.write_forecast, getitem.
    destruct (lookup "unique_id" (cols fcst)) as [fu|] eqn:Efu;
      [|exfalso; apply (Hcols "unique_id"); simpl; auto].
    destruct (lookup pred_col (cols fcst)) as [fp|] eqn:Efp;
      [|exfalso; apply (Hcols pred_col); simpl; auto].
    cbn [Py.bind].
    destruct Ht1 as [Hn [Hc [Hidx Hall]]]. rewrite Hidx. cbn [Py.bind].
    destruct (item0_ok
                (where_ (map (fun i => cell_eqb i gidx)
                             (map (fun i => nth i index CNaN) (seq 0 n)))))
      as [idx ->].
    { apply where_some. now apply position_in_table_index. }
    cbn [Py.bind]. eexists. split; [reflexivity|].
    apply nhits_table_at_set; [exact Htarget|]. repeat split; auto.
  - apply nhits_table_before_loop.
  - cbn [Py.bind]. eexists. reflexivity.
Qed.

End NHitsReturns.

(** ** The forecast table of the GluonTS mixer *)

Section GluonTSCall.
Context {B : GluonTS.Backend} {H : GluonTS.Helpers}.

Lemma gluonts_table_at_set (z len : nat) (conf : Q) (index original : list cell)
    (t : Table) (i : nat) (c : string) (f : GluonTS.Forecast) (q : Q)
    (values : list Q) :
  In c GluonTS.array_cols ->
  GluonTS.quantile f q = Returns values ->
  GluonTS.forecast_table z len conf index original t ->
  GluonTS.forecast_table z len conf index original
    (at_set t i c (CList (map CNum values))).
Proof.
  intros Hc Hq [Hn [Hcols [Hidx [Hconf [Horig Hall]]]]].
  assert (Hne : forall k, In k ["index"; "confidence"; "__original_index"] -> k <> c).
  { intros k Hk ->. simpl in Hc, Hk. intuition congruence. }
  split; [now rewrite nrows_at_set|].
  split; [now rewrite columns_at_set|].
  split; [rewrite lookup_at_set_other; auto; apply Hne; simpl; auto|].
  split; [rewrite lookup_at_set_other; auto; apply Hne; simpl; auto|].
  split; [rewrite lookup_at_set_other; auto; apply Hne; simpl; auto|].
  intros c' Hc'. destruct (Hall c' Hc') as [col [Hl [Hlen Hcells]]].
  destruct (string_dec c' c) as [->|Hdiff].
  - exists (set_nth i (CList (map CNum values)) col).
    split; [now apply lookup_at_set_same|].
    split; [now rewrite length_set_nth|].
    apply set_nth_Forall; [|exact Hcells]. right. now exists f, q, values.
  - exists col. split; [now rewrite lookup_at_set_other | auto].
Qed.

Lemma quantile_list_ok (f : GluonTS.Forecast) (q : Q) (c : cell) :
  GluonTS.quantile_list f q = Ok c ->
  exists values, GluonTS.quantile f q = Returns values /\ c = CList (map CNum values).
Proof.
  unfold GluonTS.quantile_list. destruct (GluonTS.quantile f q) as [values|w];
    simpl; [|discriminate].
  intros E. inversion E. now exists values.
Qed.

Lemma gluonts_write_forecast_table (df : Frame) (gby : list string) (conf : Q)
    (z len : nat) (c0 : Q) (index original : list cell) (t t' : Table)
    (gf : string * GluonTS.Forecast) :
  GluonTS.forecast_table z len c0 index original t ->
  GluonTS.write_forecast df gby conf t gf = Ok t' ->
  GluonTS.forecast_table z len c0 index original t'.
Proof.
  intros Ht Hw. destruct gf as [group forecast].
  unfold GluonTS.write_forecast in Hw.
  bind_ok Hw. bind_ok Hw. bind_ok Hw. bind_ok Hw.
  bind_ok Hw. apply quantile_list_ok in E3. destruct E3 as [vp [Hp ->]].
  bind_ok Hw. apply quantile_list_ok in E3. destruct E3 as [vl [Hl ->]].
  bind_ok Hw. apply quantile_list_ok in E3. destruct E3 as [vu [Hu ->]].
  inversion Hw; subst t'.
  eapply gluonts_table_at_set; [simpl; auto | exact Hu |].
  eapply gluonts_table_at_set; [simpl; auto | exact Hl |].
  eapply gluonts_table_at_set; [simpl; auto | exact Hp | exact Ht].
Qed.

(** The table before the loop. *)
Lemma gluonts_table_before_loop (z len : nat) (conf : Q) (index original : list cell) :
  GluonTS.forecast_table z len conf index original
    (setitem
       (setitem_scalar
          (setitem
             (fold_left
                (fun ydf col =>
                   setitem ydf col
                     (map (fun _ => CList (repeat (CInt 0) z)) (seq 0 (nrows ydf))))
                ["prediction"; "lower"; "upper"] (mkTable len []))
             "index" index)
          "confidence" (CNum conf))
       "__original_index" original).
Proof.
  repeat split.
  intros c Hc. exists (map (fun _ => CList (repeat (CInt 0) z)) (seq 0 len)).
  assert (Hz : Forall (GluonTS.forecast_cell z)
                 (map (fun _ => CList (repeat (CInt 0) z)) (seq 0 len))).
  { apply Forall_forall. intros x Hx. apply in_map_iff in Hx.
    destruct Hx as [_ [<- _]]. now left. }
  simpl in Hc. destruct Hc as [<-|[<-|[<-|[]]]];
    (split; [reflexivity | split; [now rewrite length_map, length_seq | exact Hz]]).
Qed.

(** Whatever [__call__] returns is such a table. *)
Lemma gluonts_call_table (self : GluonTS.GluonTSMixer) (ds : Ds)
    (args : PredictionArguments) (ydf : Table) :
  GluonTS.__call__ self ds args = Ok ydf ->
  GluonTS.forecast_table
    (tss_horizon (tss (GluonTS.ts_analysis self))) (ds_len ds)
    (GluonTS.confidence_of args)
    (map (fun r => CInt (r_index r)) (data_frame ds))
    (map (fun r => CInt (r_orig r)) (data_frame ds)) ydf.
Proof.
  unfold GluonTS.__call__. cbv zeta. intros Hc.
  bind_ok Hc. unfold setitem_array in E.
  destruct (_ =? _) in E; [|discriminate]. inversion E; subst a. clear E.
  bind_ok Hc. unfold setitem_array in E.
  destruct (_ =? _) in E; [|discriminate]. inversion E; subst a. clear E.
  bind_ok Hc. bind_ok Hc. bind_ok Hc. bind_ok Hc.
  eapply (foldM_invariant _ _ _ _ _ _ (gluonts_table_before_loop _ _ _ _ _) Hc).
  Unshelve.
  intros t gf t' Ht Hw. eapply gluonts_write_forecast_table; eauto.
Qed.

End GluonTSCall.

(** ** When the GluonTS mixer returns *)

Section GluonTSReturns.
Context {B : GluonTS.Backend} {H : GluonTS.Helpers}.

Lemma setitem_array_ok (t : Table) (c : string) (values : list cell) :
  length values = nrows t -> setitem_array t c values = Ok (setitem t c values).
Proof.
  intros E. unfold setitem_array. rewrite E, Nat.eqb_refl. reflexivity.
Qed.

Lemma fold_zmax_in (l : list Z) (a : Z) :
  fold_left Z.max l a = a \/ In (fold_left Z.max l a) l.
Proof.
  revert a; induction l as [|x l IH]; intros a; simpl; [now left|].
  destruct (IH (Z.max a x)) as [E|E]; [|auto].
  rewrite E. destruct (Z.max_spec a x) as [[_ ->]|[_ ->]]; auto.
Qed.

Lemma py_max_in (l : list Z) :
  l <> [] -> exists x, GluonTS.py_max l = Ok x /\ In x l.
Proof.
  destruct l as [|a l]; [contradiction|]. intros _. simpl.
  eexists. split; [reflexivity|].
  destruct (fold_zmax_in l a) as [-> | Hin]; auto.
Qed.

(** [__call__] returns a table when the mixer is grouped and trained, the
    data set reports the length of its frame, the library calls return, and
    every group has rows in the frame. *)
Lemma gluonts_call_returns (self : GluonTS.GluonTSMixer) (ds : Ds)
    (args : PredictionArguments) (g : string) (rest : list string)
    (made : GluonTS.GluonTSMixer * option GluonTS.Dataset)
    (m : GluonTS.Model) (forecasts : list GluonTS.Forecast) :
  ds_len ds = length (data_frame ds) ->
  group_by (tss (GluonTS.ts_analysis self)) = g :: rest ->
  GluonTS._make_initial_ds self (Some (data_frame ds)) GluonTS.Predict
    (Some (unique (map (fun r => hd "" (r_group r)) (data_frame ds)))) = Ok made ->
  GluonTS.model self = Some m ->
  GluonTS.predict m (snd made) = Returns forecasts ->
  (forall group,
      In group (unique (map (fun r => hd "" (r_group r)) (data_frame ds))) ->
      exists sub, GluonTS.get_group_matches (data_frame ds) [group] (g :: rest)
                  = Returns sub
                  /\ sub <> [] /\ incl sub (data_frame ds)) ->
  (forall f q, In f forecasts -> exists values, GluonTS.quantile f q = Returns values) ->
  exists ydf, GluonTS.__call__ self ds args = Ok ydf.
Proof.
  intros Hlen Hg Hmade Hm Hp Hsub Hq.
  unfold GluonTS.__call__. cbv zeta. rewrite Hg.
  rewrite setitem_array_ok by (simpl; rewrite length_map; auto).
  cbn [Py.bind].
  rewrite setitem_array_ok by (simpl; rewrite length_map; auto).
  cbn [Py.bind]. rewrite Hmade. cbn [Py.bind]. rewrite Hm. cbn [Py.bind].
  rewrite Hp. cbn [Py.bind call].
  match goal with
  | |- exists ydf, foldM ?f ?l ?c = Ok ydf =>
      destruct (foldM_ok
                  (GluonTS.forecast_table
                     (tss_horizon (tss (GluonTS.ts_analysis self))) (ds_len ds)
                     (GluonTS.confidence_of args)
                     (map (fun r => CInt (r_index r)) (data_frame ds))
                     (map (fun r => CInt (r_orig r)) (data_frame ds)))
                  f l c) as [t [-> _]]
  end.
  - intros t [group forecast] Hin Ht.
    assert (Hgroup := in_combine_l _ _ _ _ Hin).
    assert (Hf := in_combine_r _ _ _ _ Hin).
    destruct (Hsub group Hgroup) as [sub [Hs [Hne Hincl]]].
    unfold GluonTS.write_forecast. rewrite Hs. cbn [Py.bind call].
    destruct (py_max_in (map r_orig sub)) as [mx [-> Hmx]].
    { destruct sub; [contradiction | discriminate]. }
    cbn [Py.bind].
    destruct Ht as [Hn [Hc [Hidx [Hconf [Horig Hall]]]]].
    unfold getitem. rewrite Horig. cbn [Py.bind].
    destruct (item0_ok
                (where_ (map (fun o => cell_eqb o (CInt mx))
                             (map (fun r => CInt (r_orig r)) (data_frame ds)))))
      as [idx ->].
    { apply where_some. apply in_map_iff in Hmx. destruct Hmx as [r [<- Hr]].
      apply in_map_iff. exists (CInt (r_orig r)). split; [simpl; apply Z.eqb_refl|].
      apply in_map_iff. exists r. split; [reflexivity | now apply Hincl]. }
    cbn [Py.bind]. unfold GluonTS.quantile_list.
    destruct (Hq forecast (1 # 2) Hf) as [vp Hvp]. rewrite Hvp. cbn [Py.bind call].
    destruct (Hq forecast (GluonTS.one_minus (GluonTS.confidence_of args)) Hf)
      as [vl Hvl]. rewrite Hvl. cbn [Py.bind call].
    destruct (Hq forecast (GluonTS.confidence_of args) Hf) as [vu Hvu].
    rewrite Hvu. cbn [Py.bind call].
    eexists. split; [reflexivity|].
    eapply gluonts_table_at_set; [simpl; auto | exact Hvu |].
    eapply gluonts_table_at_set; [simpl; auto | exact Hvl |].
    eapply gluonts_table_at_set; [simpl; auto | exact Hvp |].
    repeat split; auto.
  - apply gluonts_table_before_loop.
  - eexists. reflexivity.
Qed.

End GluonTSReturns.

(** ** The columns of the forecast table *)

Lemma columns_append_scalar (t : Table) (c : string) (v : cell) :
  ~ In c (columns t) -> columns (setitem_scalar t c v) = columns t ++ [c].
Proof.
  intros Hnot. unfold setitem_scalar, setitem, columns. simpl.
  now apply keys_assign_new.
Qed.

Lemma lookup_append_scalar_other (t : Table) (c c' : string) (v : cell) :
  c <> c' -> lookup c (cols (setitem_scalar t c' v)) = lookup c (cols t).
Proof.
  intros Hne. unfold setitem_scalar, setitem. simpl.
  now apply lookup_assign_other.
Qed.

(** C1, as stated, fails: the table of the GluonTS mixer has a sixth column,
    [__original_index]. *)
Lemma gluonts_table_has_a_sixth_column :
  (m <- Examples.gluon_trained Examples.grouped ;;
   ydf <- @GluonTS.__call__ Examples.toy_gluon Examples.toy_helpers m
            Examples.two_series_ds Examples.no_args ;;
   Ok (columns ydf))
  = Ok ["prediction"; "lower"; "upper"; "index"; "confidence"; "__original_index"].
Proof. vm_compute. reflexivity. Qed.

(** C1, amended: a table that the N-HITS mixer returns has exactly the
    columns prediction, lower, upper, index and confidence; a table that the
    GluonTS mixer returns has these five and [__original_index]; and each
    mixer does return a table when its library calls return and the data are
    as the mixer expects them. *)
Theorem forecast_table_columns
    (NB : NHits.Backend) (GB : GluonTS.Backend) (GH : GluonTS.Helpers) :
  (forall self ds args ydf,
      NHits.__call__ self ds args = Ok ydf ->
      columns ydf = ["prediction"; "lower"; "upper"; "index"; "confidence"])
  /\ (forall self ds args ydf,
        GluonTS.__call__ self ds args = Ok ydf ->
        columns ydf = ["prediction"; "lower"; "upper"; "index"; "confidence";
                       "__original_index"])
  /\ (forall self ds args m fcst,
        NHits.model self = Some m ->
        NHits.predict m (NHits._make_initial_df self (data_frame ds)) = Returns fcst ->
        (forall c, In c ("unique_id" :: NHits.pred_cols self) ->
                   lookup c (cols fcst) <> None) ->
        ds_len ds = length (data_frame ds) ->
        exists ydf, NHits.__call__ self ds args = Ok ydf)
  /\ (forall self ds args g rest made m forecasts,
        ds_len ds = length (data_frame ds) ->
        group_by (tss (GluonTS.ts_analysis self)) = g :: rest ->
        GluonTS._make_initial_ds self (Some (data_frame ds)) GluonTS.Predict
          (Some (unique (map (fun r => hd "" (r_group r)) (data_frame ds))))
        = Ok made ->
        GluonTS.model self = Some m ->
        GluonTS.predict m (snd made) = Returns forecasts ->
        (forall group,
            In group (unique (map (fun r => hd "" (r_group r)) (data_frame ds))) ->
            exists sub, GluonTS.get_group_matches (data_frame ds) [group] (g :: rest)
                        = Returns sub
                        /\ sub <> [] /\ incl sub (data_frame ds)) ->
        (forall f q, In f forecasts ->
                     exists values, GluonTS.quantile f q = Returns values) ->
        exists ydf, GluonTS.__call__ self ds args = Ok ydf).
Proof.
  split; [|split; [|split]].
  - intros self ds args ydf Hc.
    destruct (nhits_call_table self ds args ydf Hc) as [index [t [Ht ->]]].
    destruct Ht as [_ [Hcols _]].
    rewrite columns_append_scalar; rewrite Hcols; [reflexivity|].
    simpl. intuition discriminate.
  - intros self ds args ydf Hc.
    apply gluonts_call_table in Hc. now destruct Hc as [_ [Hcols _]].
  - intros. eapply nhits_call_returns; eauto.
  - intros. eapply gluonts_call_returns; eauto.
Qed.

(** ** The confidence column *)


(** Both mixers at work on the two series: the confidence the arguments
    fix reaches the GluonTS table and not the N-HITS table. *)
Lemma confidence_column_example :
  (m <- Examples.nhits_trained ;;
   ydf <- @NHits.__call__ Examples.toy_nhits m Examples.two_series_ds
            (mkArgs false (Some (1 # 2))) ;;
   Ok (lookup "confidence" (cols ydf)))
  = Ok (Some (repeat (CNum (9 # 10)) 5))
  /\ (m <- Examples.gluon_trained Examples.grouped ;;
      ydf <- @GluonTS.__call__ Examples.toy_gluon Examples.toy_helpers m
               Examples.two_series_ds (mkArgs false (Some (1 # 2))) ;;
      Ok (lookup "confidence" (cols ydf)))
     = Ok (Some (repeat (CNum (1 # 2)) 5)).
Proof. split; vm_compute; reflexivity. Qed.

(** ** The arrays in the rows *)



(** ** The GluonTS mixer without partition column *)

(** C6: a GluonTS mixer that has no partition column never returns a table:
    the group list is [None], and the loop that pairs groups with forecasts
    cannot start; when all the steps before the loop succeed, the call ends
    in a [TypeError]. *)
Theorem gluonts_call_without_groups
    (GB : GluonTS.Backend) (GH : GluonTS.Helpers)
    (self : GluonTS.GluonTSMixer) (ds : Ds) (args : PredictionArguments)
    (Hgroups : group_by (tss (GluonTS.ts_analysis self)) = []) :
  is_ok (GluonTS.__call__ self ds args) = false
  /\ (forall made m forecasts,
        ds_len ds = length (data_frame ds) ->
        GluonTS._make_initial_ds self (Some (data_frame ds)) GluonTS.Predict None
        = Ok made ->
        GluonTS.model self = Some m ->
        GluonTS.predict m (snd made) = Returns forecasts ->
        GluonTS.__call__ self ds args = Raise (Builtin TypeError)).
Proof.
  split.
  - unfold GluonTS.__call__. cbv zeta. rewrite Hgroups.
    repeat match goal with
           | |- is_ok (Py.bind ?r _) = false =>
               destruct r; cbn [Py.bind]; [|reflexivity]
           end.
    reflexivity.
  - intros made m forecasts Hlen Hmade Hm Hp.
    unfold GluonTS.__call__. cbv zeta. rewrite Hgroups.
    rewrite setitem_array_ok by (simpl; rewrite length_map; auto).
    cbn [Py.bind].
    rewrite setitem_array_ok by (simpl; rewrite length_map; auto).
    cbn [Py.bind]. rewrite Hmade. cbn [Py.bind]. rewrite Hm. cbn [Py.bind].
    rewrite Hp. reflexivity.
Qed.

Lemma gluonts_call_without_groups_witness :
  (m <- Examples.gluon_trained Examples.ungrouped ;;
   Ok (is_ok (@GluonTS.__call__ Examples.toy_gluon Examples.toy_helpers m
                Examples.two_series_ds Examples.no_args)))
  = Ok false.
Proof.
  destruct (Examples.gluon_trained Examples.ungrouped) as [m|e] eqn:E;
    [|vm_compute in E; discriminate E].
  cbn [Py.bind]. f_equal.
  apply (gluonts_call_without_groups Examples.toy_gluon Examples.toy_helpers m).
  vm_compute in E. inversion E. reflexivity.
Defined.

(** The same mixer, followed from its construction to the failing call. *)
Lemma gluonts_call_without_groups_example :
  is_ok (Examples.gluon_trained Examples.ungrouped) = true
  /\ (m <- Examples.gluon_trained Examples.ungrouped ;;
      @GluonTS.__call__ Examples.toy_gluon Examples.toy_helpers m
        Examples.two_series_ds Examples.no_args)
     = Raise (Builtin TypeError).
Proof. split; vm_compute; reflexivity. Qed.

(** ** The long frame of the N-HITS mixer *)

Section SortBy.
Context {A : Type} (key : A -> Z).

Lemma insert_by_perm (r : A) (l : list A) :
  Permutation (r :: l) (insert_by key r l).
Proof.
  induction l as [|x l IH]; simpl; [reflexivity|].
  destruct (key r <=? key x)%Z; [reflexivity|].
  rewrite perm_swap. now constructor.
Qed.

Lemma sort_by_perm (l : list A) : Permutation l (sort_by key l).
Proof.
  induction l as [|x l IH]; simpl; [constructor|].
  rewrite <- insert_by_perm. now constructor.
Qed.

Lemma insert_by_sorted (r : A) (l : list A) :
  StronglySorted (key_le key) l -> StronglySorted (key_le key) (insert_by key r l).
Proof.
  induction l as [|x l IH]; intros Hs; simpl.
  - constructor; constructor.
  - inversion Hs as [|? ? Hl Hx]; subst.
    destruct (key r <=? key x)%Z eqn:E.
    + apply Z.leb_le in E. constructor; [exact Hs|].
      constructor; [exact E|].
      eapply Forall_impl; [|exact Hx]. unfold key_le. intros; lia.
    + apply Z.leb_gt in E. constructor; [now apply IH|].
      eapply Permutation_Forall; [apply insert_by_perm|].
      constructor; [unfold key_le; lia | exact Hx].
Qed.

Lemma sort_by_sorted (l : list A) : StronglySorted (key_le key) (sort_by key l).
Proof.
  induction l as [|x l IH]; simpl; [constructor|]. now apply insert_by_sorted.
Qed.

End SortBy.

(** C7, as stated, fails: the frame has a fourth column, [index], the one
    by which [__call__] finds the last row of a group. *)
Lemma long_frame_has_an_index_column :
  columns (@NHits._make_initial_df Examples.toy_nhits
             (@NHits.__init__ Examples.toy_nhits 1 "y" 2 3 Examples.grouped false None)
             Examples.two_series)
  = ["index"; "y"; "ds"; "unique_id"]
  /\ columns (@NHits._make_initial_df Examples.toy_nhits
                (@NHits.__init__ Examples.toy_nhits 1 "y" 2 3 Examples.grouped false None)
                Examples.two_series)
     <> ["y"; "ds"; "unique_id"].
Proof. split; [reflexivity | discriminate]. Qed.

(** C7, amended: the rows of the long frame are the rows of the input in
    ascending order of the original order-by column; its columns are
    [index] (the position of the row, from zero), [y] (the target), [ds]
    (the parsed order-by value, which is the input's index) and [unique_id]
    (the comma-join of the group values of the row for a grouped mixer, the
    constant [__default] otherwise). *)
Theorem long_frame_of_nhits (NB : NHits.Backend)
    (self : NHits.NHitsMixer) (df : Frame) :
  Permutation df (sort_by r_oby df)
  /\ StronglySorted (key_le r_oby) (sort_by r_oby df)
  /\ NHits._make_initial_df self df
     = mkTable (length df)
         [ ("index", map (fun i => CInt (Z.of_nat i)) (seq 0 (length df)));
           ("y", map (fun r => CNum (r_target r)) (sort_by r_oby df));
           ("ds", map (fun r => CInt (r_index r)) (sort_by r_oby df));
           ("unique_id",
            map (fun r => CStr (NHits.unique_id self r)) (sort_by r_oby df)) ]
  /\ columns (NHits._make_initial_df self df) = ["index"; "y"; "ds"; "unique_id"]
  /\ (forall r, NHits.grouped_by self <> ["__default"] ->
                NHits.unique_id self r = String.concat "," (r_group r))
  /\ (forall r, NHits.grouped_by self = ["__default"] ->
                NHits.unique_id self r = "__default").
Proof.
  split; [apply sort_by_perm|]. split; [apply (sort_by_sorted r_oby)|].
  split; [apply make_initial_df_cols|].
  split; [now rewrite make_initial_df_cols|].
  unfold NHits.unique_id, strings_eqb. split; intros r Hg.
  - destruct (list_eq_dec string_dec (NHits.grouped_by self) ["__default"]);
      [contradiction | reflexivity].
  - destruct (list_eq_dec string_dec (NHits.grouped_by self) ["__default"]);
      [reflexivity | contradiction].
Qed.

(** ** Updating a trained mixer *)

Section PartialFit.
Context {NB : NHits.Backend} {GB : GluonTS.Backend} {GH : GluonTS.Helpers}.

(** Preparing the data touches the group list and the cache of the mixer,
    not its model. *)
Lemma deduplicated_frame_keeps_model (self self' : GluonTS.GluonTSMixer)
    df ph g (rows : list GluonTS.KRow) :
  GluonTS.deduplicated_frame self df ph g = Ok (self', rows) ->
  (GluonTS.model self' = GluonTS.model self
   /\ GluonTS.estimator self' = GluonTS.estimator self)
  /\ GluonTS.target self' = GluonTS.target self
  /\ GluonTS.static_features_cat self' = GluonTS.static_features_cat self
  /\ GluonTS.static_features_real self' = GluonTS.static_features_real self.
Proof.
  unfold GluonTS.deduplicated_frame, Py.bind. intros Hd.
  repeat match type of Hd with
         | context [match ?x with _ => _ end] =>
             lazymatch x with
             | context [match _ with _ => _ end] => fail
             | _ => destruct x
             end
         end;
    try discriminate Hd; inversion Hd; subst; repeat split; reflexivity.
Qed.

Lemma make_initial_ds_keeps_model (self self' : GluonTS.GluonTSMixer)
    df ph g (ds : option GluonTS.Dataset) :
  GluonTS._make_initial_ds self df ph g = Ok (self', ds) ->
  GluonTS.model self' = GluonTS.model self
  /\ GluonTS.estimator self' = GluonTS.estimator self.
Proof.
  unfold GluonTS._make_initial_ds. intros Hm. bind_ok Hm.
  destruct a as [self1 rows]. apply deduplicated_frame_keeps_model in E.
  destruct E as [E _].
  destruct rows as [|r rows]; [inversion Hm; subst; exact E|].
  bind_ok Hm. destruct a as [res item]. bind_ok Hm.
  inversion Hm; subst. exact E.
Qed.

Lemma gluonts_partial_fit_continues (self self' : GluonTS.GluonTSMixer)
    (train_data dev_data : Ds) args :
  GluonTS.partial_fit self train_data dev_data args = Ok self' ->
  exists est ds m',
    GluonTS.train_from est (GluonTS.model self) ds = Returns m'
    /\ GluonTS.model self' = Some m'
    /\ GluonTS.estimator self' = Some est.
Proof.
  unfold GluonTS.partial_fit. cbv zeta. intros Hp.
  bind_ok Hp. bind_ok Hp. destruct a0 as [self1 ds].
  apply make_initial_ds_keeps_model in E0. simpl in E0. destruct E0 as [Hm He].
  bind_ok Hp. inversion Hp; subst self'. simpl.
  exists a, ds, a0. rewrite Hm in E0.
  destruct (GluonTS.train_from a (GluonTS.model self) ds) as [m'|w] eqn:Et;
    [|discriminate E0].
  inversion E0; subst. auto.
Qed.

Lemma nhits_fit_model_is_new (self self' : NHits.NHitsMixer) (a b : Ds) :
  NHits.fit self a b = Ok self' ->
  exists m',
    NHits.model self' = Some m'
    /\ ((exists url, NHits.load_from_checkpoint url = Returns m')
        \/ (exists h w targs level freq df val,
               NHits.train h w targs level freq df val = Returns m')).
Proof.
  unfold NHits.fit. cbv zeta. intros Hf. bind_ok Hf. bind_ok Hf.
  destruct (NHits.pretrained self) eqn:Hpre.
  - bind_ok E0. bind_ok E0. inversion E0; subst a1. clear E0.
    unfold call in E2.
    destruct (NHits.load_from_checkpoint _) as [m|w] eqn:El; [|discriminate E2].
    inversion E2; subst a3. simpl in Hf.
    match type of Hf with
    | (if negb ?p then _ else _) = _ => destruct p
    end; simpl in Hf.
    + inversion Hf; subst self'. simpl. exists m. split; [reflexivity|].
      left. eexists. exact El.
    + bind_ok Hf. inversion Hf; subst self'. simpl. exists a1.
      split; [reflexivity|]. right. unfold call in E0.
      match type of E0 with
      | match ?t with _ => _ end = _ => destruct t eqn:Et; [|discriminate E0]
      end.
      inversion E0; subst. repeat eexists. exact Et.
  - inversion E0; subst a1. rewrite Hpre in Hf. simpl in Hf.
    bind_ok Hf. inversion Hf; subst self'. simpl. exists a1.
    split; [reflexivity|]. right. unfold call in E1.
    match type of E1 with
    | match ?t with _ => _ end = _ => destruct t eqn:Et; [|discriminate E1]
    end.
    inversion E1; subst. repeat eexists. exact Et.
Qed.

End PartialFit.

(** C2, as stated, fails: [partial_fit] of the N-HITS mixer fits anew.  Two
    mixers that differ in nothing but their trained model (one was trained
    on five rows, the other three times on seven) hold the same model after
    the update, trained once on the five rows passed in. *)
Lemma nhits_partial_fit_starts_from_scratch :
  (m <- Examples.nhits_trained ;;
   let other := Examples.mkToyNHits 2 90 [7; 7; 7] in
   let m' := @NHits.with_model Examples.toy_nhits m (NHits.model_name m)
               (Some other) (NHits.pretrained m) (NHits.window m) in
   u <- @NHits.partial_fit Examples.toy_nhits m Examples.two_series_ds
          Examples.empty_ds None ;;
   u' <- @NHits.partial_fit Examples.toy_nhits m' Examples.two_series_ds
           Examples.empty_ds None ;;
   Ok (NHits.model m, NHits.model m', NHits.model u, NHits.model u'))
  = Ok (Some (Examples.mkToyNHits 2 90 [5]),
        Some (Examples.mkToyNHits 2 90 [7; 7; 7]),
        Some (Examples.mkToyNHits 2 90 [5]),
        Some (Examples.mkToyNHits 2 90 [5])).
Proof. vm_compute. reflexivity. Qed.

(** C2, amended: [partial_fit] of the GluonTS mixer continues from the model
    the mixer holds: the model it stores is what [train_from] returned for
    that model.  [partial_fit] of the N-HITS mixer calls [fit]: its outcome
    does not depend on the model the mixer holds, and the model it stores
    was loaded from a checkpoint or trained from nothing. *)
Theorem partial_fit_and_the_trained_model
    (NB : NHits.Backend) (GB : GluonTS.Backend) (GH : GluonTS.Helpers) :
  (forall self train_data dev_data args self',
      GluonTS.partial_fit self train_data dev_data args = Ok self' ->
      exists est ds m',
        GluonTS.train_from est (GluonTS.model self) ds = Returns m'
        /\ GluonTS.model self' = Some m'
        /\ GluonTS.estimator self' = Some est)
  /\ (forall self train_data dev_data args m1 m2,
        NHits.partial_fit
          (NHits.with_model self (NHits.model_name self) m1
                            (NHits.pretrained self) (NHits.window self))
          train_data dev_data args
        = NHits.partial_fit
            (NHits.with_model self (NHits.model_name self) m2
                              (NHits.pretrained self) (NHits.window self))
            train_data dev_data args)
  /\ (forall self train_data dev_data args self',
        NHits.partial_fit self train_data dev_data args = Ok self' ->
        exists m',
          NHits.model self' = Some m'
          /\ ((exists url, NHits.load_from_checkpoint url = Returns m')
              \/ (exists h w targs level freq df val,
                     NHits.train h w targs level freq df val = Returns m'))).
Proof.
  split; [|split].
  - intros. eapply gluonts_partial_fit_continues; eauto.
  - intros self train_data dev_data args m1 m2.
    unfold NHits.partial_fit. cbv zeta. f_equal.
    unfold NHits.fit, NHits.set_flags, NHits.with_model. cbv zeta.
    cbn [NHits.pretrained NHits.window NHits.horizon NHits.ts_analysis
         NHits.grouped_by NHits.train_args NHits.conf_level NHits.model_name
         NHits.prepared NHits.hyperparam_search NHits.stop_after NHits.stable
         NHits.supports_proba NHits.target NHits._make_initial_df
         NHits.unique_id].
    match goal with
    | |- Py.bind ?r _ = _ => destruct r as [n_time|e]
    end; [|reflexivity].
    cbn [Py.bind].
    destruct (NHits.pretrained self); cbn [Py.bind negb NHits.pretrained];
      [|reflexivity].
    match goal with
    | |- Py.bind (Py.bind ?r _) _ = _ => destruct r as [key|e]
    end; [|reflexivity].
    cbn [Py.bind].
    match goal with
    | |- Py.bind (Py.bind ?r _) _ = _ => destruct r as [m|e]
    end; reflexivity.
  - intros self train_data dev_data args self' Hp.
    unfold NHits.partial_fit in Hp. cbv zeta in Hp. bind_ok Hp.
    apply nhits_fit_model_is_new in E. inversion Hp; subst self'. exact E.
Qed.

(** The GluonTS mixer on the two series: the update extends the history of
    the model the mixer held. *)
Lemma gluonts_partial_fit_example :
  (m <- Examples.gluon_trained Examples.grouped ;;
   u <- @GluonTS.partial_fit Examples.toy_gluon m Examples.two_series_ds
          Examples.empty_ds None ;;
   Ok (GluonTS.model m, GluonTS.model u))
  = Ok (Some (Examples.mkToyGluon 2 [5]), Some (Examples.mkToyGluon 2 [5; 5])).
Proof. vm_compute. reflexivity. Qed.

(** ** Resampling in the GluonTS mixer *)

Section Resampling.
Context {GB : GluonTS.Backend} {GH : GluonTS.Helpers}.

Lemma lookup_fold_assign_in {A} (v : A) (l : list string) (m : list (string * A))
    (c : string) :
  In c l -> lookup c (fold_left (fun m col => assign col v m) l m) = Some v.
Proof.
  revert m. induction l as [|x l IH]; intros m Hin; simpl; [contradiction|].
  destruct (in_dec string_dec c l) as [Hl|Hl]; [now apply IH|].
  destruct Hin as [->|Hin]; [|contradiction].
  clear IH. revert m. induction l as [|y l IH]; intros m; simpl.
  - apply lookup_assign_same.
  - assert (Hy : c <> y) by (intros ->; apply Hl; now left).
    assert (Hl' : ~ In c l) by (intros Hc; apply Hl; now right).
    specialize (IH Hl').
    (* the later assignment is to another key: it can be done first *)
    assert (Hswap : forall m',
               lookup c (fold_left (fun m col => assign col v m) l m') = lookup c m').
    { clear -Hl'. induction l as [|z l IHl]; intros m'; simpl; [reflexivity|].
      rewrite IHl by (intros Hc; apply Hl'; now right).
      apply lookup_assign_other. intros ->. apply Hl'. now left. }
    rewrite Hswap. rewrite lookup_assign_other by exact Hy.
    apply lookup_assign_same.
Qed.

Lemma lookup_fold_assign_out {A} (v : A) (l : list string) (m : list (string * A))
    (c : string) :
  ~ In c l -> lookup c (fold_left (fun m col => assign col v m) l m) = lookup c m.
Proof.
  revert m. induction l as [|x l IH]; intros m Hnot; simpl; [reflexivity|].
  rewrite IH by (intros Hc; apply Hnot; now right).
  apply lookup_assign_other. intros ->. apply Hnot. now left.
Qed.

(** The aggregation of each column, for column names that differ. *)
Lemma agg_map_lookup (self : GluonTS.GluonTSMixer) :
  NoDup (GluonTS.target self
         :: GluonTS.static_features_cat self ++ GluonTS.static_features_real self) ->
  lookup (GluonTS.target self) (GluonTS.agg_map self) = Some "sum"
  /\ (forall c, In c (GluonTS.static_features_cat self) ->
                lookup c (GluonTS.agg_map self) = Some "first")
  /\ (forall c, In c (GluonTS.static_features_real self) ->
                lookup c (GluonTS.agg_map self) = Some "mean").
Proof.
  intros Hnd. inversion Hnd as [|? ? Htarget Hrest]; subst.
  unfold GluonTS.agg_map. cbv zeta. split; [|split].
  - rewrite !lookup_fold_assign_out
      by (intros Hc; apply Htarget; apply in_or_app; auto).
    simpl. now rewrite String.eqb_refl.
  - intros c Hc. rewrite lookup_fold_assign_out.
    + now apply lookup_fold_assign_in.
    + intros Hr. clear -Hrest Hc Hr.
      induction (GluonTS.static_features_cat self) as [|x l IH];
        [contradiction|].
      simpl in Hrest. inversion Hrest as [|? ? Hx Hl]; subst.
      destruct Hc as [->|Hc]; [|now apply IH].
      apply Hx. apply in_or_app. now right.
  - intros c Hc. now apply lookup_fold_assign_in.
Qed.

End Resampling.

(** C8, as stated, fails: the aggregations are kept in a dictionary, so a
    column listed both as a static categorical and as a static real feature
    is aggregated by its mean, not by its first value. *)
Lemma agg_map_keeps_the_last_assignment :
  (m <- @GluonTS.__init__ Examples.toy_gluon 1 "y" 2 3 Examples.grouped 10 3 ""
          0%Z (Some ["f"]) (Some ["f"]) ;;
   Ok (GluonTS.static_features_cat m, lookup "f" (GluonTS.agg_map m)))
  = Ok (["f"], Some "mean").
Proof. reflexivity. Qed.

(** C8, amended: when the deduplicated frame is not empty, [_make_initial_ds]
    resamples it at the default sample frequency of the analysis with an
    aggregation that maps the target to [sum], every static categorical
    feature to [first] and every static real feature to [mean] (the column
    names being distinct); a grouped mixer resamples per group of its
    group-by column, a mixer without groups resamples the whole frame and
    adds the constant column [__default_group]; the frame, with its index as
    the timestamp column, becomes the data set. *)
Theorem make_initial_ds_resamples (GB : GluonTS.Backend) (GH : GluonTS.Helpers)
    (self self' : GluonTS.GluonTSMixer) (df : option Frame)
    (ph : GluonTS.phase) (groups : option (list string)) (rows : list GluonTS.KRow)
    (Hrows : GluonTS.deduplicated_frame self df ph groups = Ok (self', rows))
    (Hsome : rows <> [])
    (Hnames : NoDup (GluonTS.target self
                     :: GluonTS.static_features_cat self
                        ++ GluonTS.static_features_real self)) :
  lookup (GluonTS.target self) (GluonTS.agg_map self) = Some "sum"
  /\ (forall c, In c (GluonTS.static_features_cat self) ->
                lookup c (GluonTS.agg_map self) = Some "first")
  /\ (forall c, In c (GluonTS.static_features_real self) ->
                lookup c (GluonTS.agg_map self) = Some "mean")
  /\ GluonTS._make_initial_ds self df ph groups
     = match group_by (tss (GluonTS.ts_analysis self)) with
       | g :: others =>
           r <- call (GluonTS.groupby_resample_agg g
                        (sample_freq (GluonTS.ts_analysis self))
                        (GluonTS.agg_map self) rows) ;;
           ds <- call (GluonTS.from_long_dataframe (GluonTS.with_timestamp r)
                         (GluonTS.target self) (GluonTS.Columns (g :: others))
                         (sample_freq (GluonTS.ts_analysis self))
                         "__gluon_timestamp"
                         (GluonTS.none_if_empty (GluonTS.static_features_real self))
                         (GluonTS.none_if_empty (GluonTS.static_features_cat self))) ;;
           Ok (self', Some ds)
       | [] =>
           r <- call (GluonTS.resample_agg
                        (sample_freq (GluonTS.ts_analysis self))
                        (GluonTS.agg_map self) rows) ;;
           ds <- call (GluonTS.from_long_dataframe
                         (GluonTS.with_timestamp (GluonTS.with_default_group r))
                         (GluonTS.target self) (GluonTS.Column "__default_group")
                         (sample_freq (GluonTS.ts_analysis self))
                         "__gluon_timestamp"
                         (GluonTS.none_if_empty (GluonTS.static_features_real self))
                         (GluonTS.none_if_empty (GluonTS.static_features_cat self))) ;;
           Ok (self', Some ds)
       end.
Proof.
  destruct (agg_map_lookup self Hnames) as [Ht [Hc Hr]].
  repeat split; auto.
  unfold GluonTS._make_initial_ds. cbv zeta. rewrite Hrows. cbn [Py.bind].
  apply deduplicated_frame_keeps_model in Hrows.
  destruct Hrows as [_ [-> [-> ->]]].
  destruct rows as [|row rows]; [contradiction|].
  destruct (group_by (tss (GluonTS.ts_analysis self))) as [|g others].
  - destruct (GluonTS.resample_agg _ _ _); reflexivity.
  - destruct (GluonTS.groupby_resample_agg _ _ _ _); reflexivity.
Qed.

Lemma make_initial_ds_resamples_witness :
  (m <- Examples.gluon_trained Examples.grouped ;;
   made <- @GluonTS._make_initial_ds Examples.toy_gluon m
             (Some Examples.two_series) GluonTS.Predict (Some ["a"; "b"]) ;;
   Ok (snd made))
  = Ok (Some (Examples.mkToyDataset ["a"; "b"] 5 "D")).
Proof.
  destruct (Examples.gluon_trained Examples.grouped) as [m|e] eqn:E;
    [|vm_compute in E; discriminate E].
  cbn [Py.bind].
  destruct (@GluonTS.deduplicated_frame Examples.toy_gluon m
              (Some Examples.two_series) GluonTS.Predict (Some ["a"; "b"]))
    as [[self' rows]|e] eqn:Ed.
  - destruct (make_initial_ds_resamples Examples.toy_gluon Examples.toy_helpers
                m self' (Some Examples.two_series) GluonTS.Predict
                (Some ["a"; "b"]) rows Ed) as [_ [_ [_ Heq]]].
    + vm_compute in E. inversion E; subst m. vm_compute in Ed.
      inversion Ed. discriminate.
    + vm_compute in E. inversion E. simpl. repeat constructor. simpl. tauto.
    + rewrite Heq. vm_compute in E. inversion E; subst m.
      vm_compute in Ed. inversion Ed; subst self' rows. vm_compute. reflexivity.
  - vm_compute in E. inversion E; subst m. vm_compute in Ed. discriminate Ed.
Defined.

(** ** The rows that receive a forecast *)

Section RowsWritten.

Lemma select_cons {A} (b : bool) (mask : list bool) (v : A) (values : list A) :
  select (b :: mask) (v :: values)
  = (if b then [v] else []) ++ select mask values.
Proof. unfold select. simpl. now destruct b. Qed.

Lemma select_nil_all_false {A} (mask : list bool) (values : list A) :
  length mask = length values -> select mask values = [] ->
  forall j, j < length mask -> nth j mask false = false.
Proof.
  revert values. induction mask as [|b mask IH]; intros [|v values] Hlen Hsel j Hj;
    simpl in *; try lia.
  rewrite select_cons in Hsel. destruct b; [discriminate|].
  destruct j as [|j]; [reflexivity|]. apply (IH values); auto; lia.
Qed.

Lemma iloc_last_app {A} (l1 l2 : list A) :
  l2 <> [] -> iloc_last (l1 ++ l2) = iloc_last l2.
Proof.
  intros Hne. unfold iloc_last. rewrite rev_app_distr.
  destruct (rev l2) as [|x r] eqn:E; [|reflexivity].
  apply (f_equal (@rev A)) in E. rewrite rev_involutive in E. contradiction.
Qed.

(** The last selected value sits at the last position the mask selects. *)
Lemma iloc_last_select {A} (mask : list bool) (values : list A) (x d : A) :
  length mask = length values ->
  iloc_last (select mask values) = Ok x ->
  exists k, k < length mask
            /\ nth k mask false = true
            /\ nth k values d = x
            /\ forall j, k < j -> j < length mask -> nth j mask false = false.
Proof.
  revert values. induction mask as [|b mask IH]; intros [|v values] Hlen Hx;
    simpl in Hlen; try (cbv in Hx; discriminate Hx); try discriminate Hlen.
  rewrite select_cons in Hx.
  destruct (select mask values) as [|y ys] eqn:Hsel.
  - rewrite app_nil_r in Hx. destruct b; [|discriminate Hx].
    inversion Hx; subst. exists 0. simpl. repeat split; auto; try lia.
    intros [|j] Hj Hj'; [lia|].
    apply (select_nil_all_false mask values); auto; lia.
  - rewrite iloc_last_app in Hx by discriminate.
    rewrite <- Hsel in Hx. destruct (IH values) as [k [Hk [Hm [Hv Hlast]]]]; auto.
    exists (S k). simpl. repeat split; auto; try lia.
    intros [|j] Hj Hj'; [lia|]. apply Hlast; lia.
Qed.

(** The first position a mask selects. *)
Lemma item0_where (mask : list bool) (idx : nat) :
  item0 (where_ mask) = Ok idx -> idx < length mask /\ nth idx mask false = true.
Proof.
  unfold where_.
  assert (Hgen : forall start,
             item0 (map fst (filter snd (combine (seq start (length mask)) mask)))
             = Ok idx ->
             start <= idx /\ idx < start + length mask
             /\ nth (idx - start) mask false = true).
  { induction mask as [|b mask IH]; intros start Hi; simpl in Hi; [discriminate|].
    destruct b; simpl in Hi.
    - inversion Hi; subst. rewrite Nat.sub_diag. simpl. repeat split; lia.
    - destruct (IH (S start) Hi) as [H1 [H2 H3]]. simpl.
      repeat split; try lia.
      replace (idx - start) with (S (idx - S start)) by lia. exact H3. }
  intros Hi. destruct (Hgen 0 Hi) as [_ [H2 H3]].
  rewrite Nat.sub_0_r in H3. split; [lia | exact H3].
Qed.

End RowsWritten.

Section NHitsRows.
Context {B : NHits.Backend}.

Lemma mapM_Forall {A C} (P : C -> Prop) (f : A -> result C) (l : list A)
    (ys : list C) :
  mapM f l = Ok ys -> (forall x y, In x l -> f x = Ok y -> P y) -> Forall P ys.
Proof.
  revert ys. induction l as [|x l IH]; intros ys Hm Hf; simpl in Hm.
  - inversion Hm. constructor.
  - destruct (f x) as [y|e] eqn:Ex; [|discriminate].
    destruct (mapM f l) as [ys'|e] eqn:El; [|discriminate].
    inversion Hm; subst. constructor.
    + apply (Hf x); auto. now left.
    + apply IH; auto. intros x' y' Hin. apply Hf. now right.
Qed.

Lemma nth_positions (n k : nat) :
  k < n ->
  nth k (map (fun i => CInt (Z.of_nat i)) (seq 0 n)) CNaN = CInt (Z.of_nat k).
Proof.
  intros Hk.
  rewrite (nth_indep _ CNaN (CInt (Z.of_nat 0))) by (rewrite length_map, length_seq; lia).
  rewrite (map_nth (fun i => CInt (Z.of_nat i))). now rewrite seq_nth by lia.
Qed.

(** The ends that [__call__] collects are the positions of the last rows of
    the series. *)
Lemma nhits_group_ends (ids : list string) (g : string) (e : cell) :
  iloc_last
    (select (map (fun u => cell_eqb u (CStr g)) (map CStr ids))
            (map (fun i => CInt (Z.of_nat i)) (seq 0 (length ids))))
  = Ok e ->
  exists k, e = CInt (Z.of_nat k) /\ NHits.group_end ids k.
Proof.
  intros He. apply (iloc_last_select _ _ _ CNaN) in He;
    [|now rewrite !length_map, length_seq].
  destruct He as [k [Hk [Hm [Hv Hlast]]]].
  rewrite !length_map in Hk. exists k.
  rewrite nth_positions in Hv by exact Hk. split; [now symmetry|].
  assert (Hmask : forall j, j < length ids ->
            nth j (map (fun u => cell_eqb u (CStr g)) (map CStr ids)) false
            = (nth j ids "" =? g)%string).
  { intros j Hj. rewrite map_map.
    rewrite (nth_indep _ false ((fun x => cell_eqb (CStr x) (CStr g)) ""))
      by (rewrite length_map; exact Hj).
    now rewrite (map_nth (fun x => cell_eqb (CStr x) (CStr g))). }
  rewrite Hmask in Hm by exact Hk. apply String.eqb_eq in Hm.
  split; [exact Hk|]. intros j Hkj Hj Heq.
  specialize (Hlast j Hkj). rewrite !length_map in Hlast.
  rewrite Hmask in Hlast by exact Hj. specialize (Hlast Hj).
  rewrite Heq, Hm, String.eqb_refl in Hlast. discriminate.
Qed.

Lemma nhits_write_keeps_zeros (self : NHits.NHitsMixer) (fcst : Table)
    (gidx : cell) (group : string) (n : nat) (ends : list cell)
    (t t' : Table) (pt : string * string) :
  In gidx ends ->
  (exists k, gidx = CInt (Z.of_nat k)) ->
  In (snd pt) NHits.target_cols ->
  NHits.forecast_table (NHits.horizon self) n
    (map (fun i => nth i (map (fun i => CInt (Z.of_nat i)) (seq 0 n)) CNaN)
         (seq 0 n)) t ->
  NHits.zeros_outside (NHits.horizon self) n ends t ->
  NHits.write_forecast self fcst gidx group t pt = Ok t' ->
  NHits.zeros_outside (NHits.horizon self) n ends t'.
Proof.
  intros Hin [k ->] Hc Ht Hz Hw. destruct pt as [pred_col target_col].
  unfold NHits.write_forecast in Hw.
  bind_ok Hw. bind_ok Hw. bind_ok Hw. bind_ok Hw.
  inversion Hw; subst t'. clear Hw.
  destruct Ht as [_ [_ [Hidx _]]]. unfold getitem in E1. rewrite Hidx in E1.
  inversion E1; subst a1. clear E1.
  apply item0_where in E2. destruct E2 as [Hlt Htrue].
  rewrite !length_map, length_seq in Hlt.
  rewrite (nth_indep _ false
             ((fun i => cell_eqb i (CInt (Z.of_nat k))) CNaN)) in Htrue
    by (rewrite !length_map, length_seq; exact Hlt).
  rewrite (map_nth (fun i => cell_eqb i (CInt (Z.of_nat k)))) in Htrue.
  rewrite (nth_indep _ CNaN
             ((fun i => nth i (map (fun i => CInt (Z.of_nat i)) (seq 0 n)) CNaN) 0))
    in Htrue by (rewrite length_map, length_seq; exact Hlt).
  rewrite (map_nth (fun i => nth i (map (fun i => CInt (Z.of_nat i)) (seq 0 n)) CNaN))
    in Htrue.
  rewrite seq_nth in Htrue by exact Hlt. simpl in Htrue.
  rewrite nth_positions in Htrue by exact Hlt. simpl in Htrue.
  apply Z.eqb_eq in Htrue. apply Nat2Z.inj in Htrue. subst a2.
  intros c col i Hcin Hl Hi Hnot.
  destruct (string_dec c target_col) as [->|Hdiff].
  - simpl in Hc. unfold at_set in Hl.
    destruct (lookup target_col (cols t)) as [old|] eqn:Hold.
    + simpl in Hl. rewrite lookup_assign_same in Hl. inversion Hl; subst col.
      rewrite nth_set_nth_other by (intros ->; contradiction).
      now apply (Hz target_col).
    + rewrite Hold in Hl. discriminate Hl.
  - rewrite lookup_at_set_other in Hl by exact Hdiff. now apply (Hz c).
Qed.

(** The rows that are not the last of their series keep their zeros. *)
Lemma nhits_zeros_outside_group_ends (self : NHits.NHitsMixer) (ds : Ds)
    (args : PredictionArguments) (ydf : Table) :
  NHits.__call__ self ds args = Ok ydf ->
  ds_len ds = length (data_frame ds) ->
  forall c col i,
    In c ["prediction"; "lower"; "upper"] ->
    lookup c (cols ydf) = Some col ->
    i < ds_len ds ->
    ~ NHits.group_end
        (map (NHits.unique_id self) (sort_by r_oby (data_frame ds))) i ->
    nth i col CNaN = NHits.zeros (NHits.horizon self).
Proof.
  intros Hcall Hlen.
  assert (Hrows : nrows ydf = ds_len ds).
  { destruct (nhits_call_table self ds args ydf Hcall) as [index [t [Ht ->]]].
    now destruct Ht. }
  unfold NHits.__call__ in Hcall. rewrite make_initial_df_cols, Hlen in Hcall.
  unfold getitem at 1 in Hcall.
  cbn [lookup cols String.eqb Ascii.eqb Bool.eqb Py.bind] in Hcall.
  unfold getitem at 1 in Hcall.
  cbn [lookup cols String.eqb Ascii.eqb Bool.eqb Py.bind] in Hcall.
  set (ids := map (NHits.unique_id self) (sort_by r_oby (data_frame ds))).
  assert (Hn : length (data_frame ds) = length ids)
    by (unfold ids; now rewrite length_map, length_sort_by).
  rewrite Hlen.
  replace (map (fun r => CStr (NHits.unique_id self r))
               (sort_by r_oby (data_frame ds)))
    with (map CStr ids) in Hcall by (unfold ids; now rewrite map_map).
  rewrite Hn in Hcall |- *.
  bind_ok Hcall. bind_ok Hcall. bind_ok Hcall. bind_ok Hcall.
  inversion Hcall; subst ydf. clear Hcall.
  assert (Hends : Forall (fun e => exists k, e = CInt (Z.of_nat k)
                                             /\ NHits.group_end ids k) a).
  { eapply mapM_Forall; [exact E|]. intros g e _ He.
    now apply nhits_group_ends in He. }
  assert (Hinv : NHits.forecast_table (NHits.horizon self) (length ids)
                   (map (fun i => nth i (map (fun i => CInt (Z.of_nat i))
                                             (seq 0 (length ids))) CNaN)
                        (seq 0 (length ids))) a2
                 /\ NHits.zeros_outside (NHits.horizon self) (length ids) a a2).
  { eapply (foldM_invariant_in
              (fun t => NHits.forecast_table (NHits.horizon self) (length ids) _ t
                        /\ NHits.zeros_outside (NHits.horizon self) (length ids) a t));
      [| |exact E2].
    - intros t [gidx group] t' Hin [Ht Hz] Hstep. cbv beta iota in Hstep.
      apply in_combine_l in Hin.
      assert (Hk : exists k, gidx = CInt (Z.of_nat k)).
      { rewrite Forall_forall in Hends. destruct (Hends gidx Hin) as [k [-> _]].
        now exists k. }
      eapply (foldM_invariant_in
                (fun t => NHits.forecast_table (NHits.horizon self) (length ids) _ t
                          /\ NHits.zeros_outside (NHits.horizon self) (length ids) a t));
        [| split; [exact Ht | exact Hz] | exact Hstep].
      intros t1 pt t2 Hpt [Ht1 Hz1] Hw. split.
      + eapply nhits_write_forecast_table; eauto using in_combine_target_cols.
      + eapply nhits_write_keeps_zeros; eauto using in_combine_target_cols.
    - split; [apply nhits_table_before_loop|].
      intros c col i Hc Hl Hi _.
      assert (Hcol : col = map (fun _ => NHits.zeros (NHits.horizon self))
                               (seq 0 (length ids))).
      { simpl in Hc. destruct Hc as [<-|[<-|[<-|[]]]];
          simpl in Hl; inversion Hl; reflexivity. }
      subst col.
      rewrite (nth_indep _ CNaN ((fun _ => NHits.zeros (NHits.horizon self)) 0))
        by (rewrite length_map, length_seq; exact Hi).
      now rewrite (map_nth (fun _ => NHits.zeros (NHits.horizon self))). }
  destruct Hinv as [_ Hz].
  intros c col i Hc Hl Hi Hnot.
  rewrite lookup_append_scalar_other in Hl
    by (intros ->; simpl in Hc; intuition discriminate).
  apply (Hz c col i); auto.
  - simpl in *. intuition.
  - intros Hin. rewrite Forall_forall in Hends.
    destruct (Hends _ Hin) as [k [Hk Hend]]. inversion Hk as [Hk'].
    apply Nat2Z.inj in Hk'. subst k. contradiction.
Qed.

(** X11: in a table that the N-HITS mixer returns for a data set that reports
    the length of its frame, a forecast is found only in the rows that are,
    in the frame sorted by the order-by column, the last of their series;
    every other row keeps its zero-filled arrays. *)
Lemma nhits_forecasts_only_at_group_ends (self : NHits.NHitsMixer) (ds : Ds)
    (args : PredictionArguments) (ydf : Table) :
  NHits.__call__ self ds args = Ok ydf ->
  ds_len ds = length (data_frame ds) ->
  nrows ydf = ds_len ds
  /\ forall c col i,
      In c ["prediction"; "lower"; "upper"] ->
      lookup c (cols ydf) = Some col ->
      i < ds_len ds ->
      ~ NHits.group_end
          (map (NHits.unique_id self) (sort_by r_oby (data_frame ds))) i ->
      nth i col CNaN = NHits.zeros (NHits.horizon self).
Proof.
  intros Hcall Hlen. split.
  - destruct (nhits_call_table self ds args ydf Hcall) as [index [t [Ht ->]]].
    now destruct Ht.
  - now apply nhits_zeros_outside_group_ends with (args := args).
Qed.

End NHitsRows.

Section GluonTSRows.
Context {B : GluonTS.Backend} {H : GluonTS.Helpers}.

Lemma gluonts_write_keeps_zeros (df : Frame) (gby : list string) (conf : Q)
    (z : nat) (c0 : Q) (index : list cell) (t t' : Table)
    (gf : string * GluonTS.Forecast) :
  In (fst gf) (unique (map (fun r => hd "" (r_group r)) df)) ->
  GluonTS.forecast_table z (length df) c0 index
    (map (fun r => CInt (r_orig r)) df) t ->
  GluonTS.zeros_outside z (length df) df gby t ->
  GluonTS.write_forecast df gby conf t gf = Ok t' ->
  GluonTS.zeros_outside z (length df) df gby t'.
Proof.
  intros Hgroup Ht Hz Hw. destruct gf as [group forecast]. simpl in Hgroup.
  unfold GluonTS.write_forecast in Hw.
  bind_ok Hw. bind_ok Hw. bind_ok Hw. bind_ok Hw.
  bind_ok Hw. bind_ok Hw. bind_ok Hw. inversion Hw; subst t'. clear Hw.
  destruct Ht as [_ [_ [_ [_ [Horig _]]]]].
  unfold getitem in E1. rewrite Horig in E1. inversion E1; subst a1. clear E1.
  apply item0_where in E2. destruct E2 as [Hlt Htrue].
  rewrite !length_map in Hlt. rewrite map_map in Htrue.
  rewrite (nth_indep _ false
             ((fun r => cell_eqb (CInt (r_orig r)) (CInt a0))
                (mkRow 0 0 0 [] 0 [] []))) in Htrue
    by (rewrite length_map; exact Hlt).
  rewrite (map_nth (fun r => cell_eqb (CInt (r_orig r)) (CInt a0))) in Htrue.
  simpl in Htrue. apply Z.eqb_eq in Htrue.
  assert (Hmax : GluonTS.group_maximum df gby a2).
  { exists group, a, a0. repeat split; auto.
    - unfold call in E. destruct (GluonTS.get_group_matches df [group] gby);
        [inversion E; reflexivity | discriminate E].
    - rewrite (nth_indep _ 0%Z (r_orig (mkRow 0 0 0 [] 0 [] [])))
        by (rewrite length_map; exact Hlt).
      now rewrite (map_nth r_orig). }
  intros c col i Hc Hl Hi Hnot.
  assert (Hia : a2 <> i) by (intros ->; contradiction).
  assert (Hstep : forall t0 c' v col',
             lookup c (cols (at_set t0 a2 c' v)) = Some col' ->
             exists col0, lookup c (cols t0) = Some col0
                          /\ nth i col' CNaN = nth i col0 CNaN).
  { intros t0 c' v col' Hl'. destruct (string_dec c c') as [->|Hdiff].
    - unfold at_set in Hl'. destruct (lookup c' (cols t0)) as [old|] eqn:Hold.
      + simpl in Hl'. rewrite lookup_assign_same in Hl'. inversion Hl'; subst col'.
        exists old. split; [reflexivity|]. now apply nth_set_nth_other.
      + rewrite Hold in Hl'. discriminate Hl'.
    - rewrite lookup_at_set_other in Hl' by exact Hdiff. now exists col'. }
  destruct (Hstep _ _ _ _ Hl) as [col1 [Hl1 ->]].
  destruct (Hstep _ _ _ _ Hl1) as [col2 [Hl2 ->]].
  destruct (Hstep _ _ _ _ Hl2) as [col3 [Hl3 ->]].
  now apply (Hz c).
Qed.

(** The rows that hold no largest original index of a group keep their
    zeros. *)
Lemma gluonts_zeros_outside_group_maxima (self : GluonTS.GluonTSMixer)
    (ds : Ds) (args : PredictionArguments) (ydf : Table) :
  GluonTS.__call__ self ds args = Ok ydf ->
  ds_len ds = length (data_frame ds)
  /\ GluonTS.zeros_outside
       (tss_horizon (tss (GluonTS.ts_analysis self))) (ds_len ds)
       (data_frame ds) (group_by (tss (GluonTS.ts_analysis self))) ydf.
Proof.
  intros Hcall.
  unfold GluonTS.__call__ in Hcall. cbv zeta in Hcall.
  bind_ok Hcall. unfold setitem_array in E.
  destruct (_ =? _) eqn:Hlen in E; [|discriminate]. inversion E; subst a. clear E.
  apply Nat.eqb_eq in Hlen. rewrite length_map in Hlen. simpl in Hlen.
  split; [now symmetry|].
  bind_ok Hcall. unfold setitem_array in E.
  destruct (_ =? _) in E; [|discriminate]. inversion E; subst a. clear E.
  bind_ok Hcall. bind_ok Hcall. bind_ok Hcall. bind_ok Hcall.
  rewrite <- Hlen in *.
  destruct (group_by (tss (GluonTS.ts_analysis self))) as [|g rest] eqn:Hg;
    [discriminate E2|].
  inversion E2; subst a2. clear E2.
  eapply (foldM_invariant_in
            (fun t => GluonTS.forecast_table _ (length (data_frame ds)) _ _ _ t
                      /\ GluonTS.zeros_outside _ (length (data_frame ds))
                           (data_frame ds) (g :: rest) t));
    [| |exact Hcall].
  - intros t gf t' Hin [Ht Hz] Hw. split.
    + eapply gluonts_write_forecast_table; eauto.
    + eapply gluonts_write_keeps_zeros; eauto.
      destruct gf as [group forecast]. now apply in_combine_l in Hin.
  - split; [apply gluonts_table_before_loop|].
    intros c col i Hc Hl Hi _.
    assert (Hcol : col = map (fun _ => CList (repeat (CInt 0)
                                (tss_horizon (tss (GluonTS.ts_analysis self)))))
                             (seq 0 (length (data_frame ds)))).
    { simpl in Hc. destruct Hc as [<-|[<-|[<-|[]]]];
        simpl in Hl; inversion Hl; reflexivity. }
    subst col.
    rewrite (nth_indep _ CNaN
               ((fun _ => CList (repeat (CInt 0)
                                   (tss_horizon (tss (GluonTS.ts_analysis self))))) 0))
      by (rewrite length_map, length_seq; exact Hi).
    now rewrite (map_nth (fun _ => CList (repeat (CInt 0)
                                   (tss_horizon (tss (GluonTS.ts_analysis self)))))).
Qed.

(** X13: in a table that the GluonTS mixer returns, a forecast is found only
    in a row that holds the largest original index of a group; every other row
    keeps its zero-filled arrays. *)
Lemma gluonts_forecasts_only_at_group_maxima (self : GluonTS.GluonTSMixer)
    (ds : Ds) (args : PredictionArguments) (ydf : Table) :
  GluonTS.__call__ self ds args = Ok ydf ->
  nrows ydf = ds_len ds
  /\ ds_len ds = length (data_frame ds)
  /\ GluonTS.zeros_outside
       (tss_horizon (tss (GluonTS.ts_analysis self))) (ds_len ds)
       (data_frame ds) (group_by (tss (GluonTS.ts_analysis self))) ydf.
Proof.
  intros Hcall. split.
  - apply gluonts_call_table in Hcall. now destruct Hcall.
  - exact (gluonts_zeros_outside_group_maxima self ds args ydf Hcall).
Qed.

End GluonTSRows.

(** The N-HITS mixer numbers the rows of its table by their position in the
    sorted frame.  For the two series stored one after the other, whose last
    time steps are rows 2 and 4 of the data set, the forecasts are in rows 3
    and 4 of the table. *)
Lemma nhits_rows_follow_the_sorted_frame :
  (m <- Examples.nhits_trained ;;
   ydf <- @NHits.__call__ Examples.toy_nhits m Examples.interleaved_ds
            Examples.no_args ;;
   Ok (lookup "prediction" (cols ydf)))
  = Ok (Some [ NHits.zeros 2; NHits.zeros 2; NHits.zeros 2;
               CList [CNum 2; CNum 2]; CList [CNum 2; CNum 2] ])
  /\ map (fun r => (r_group r, r_oby r)) Examples.interleaved
     = [ (["a"], 1%Z); (["a"], 2%Z); (["a"], 5%Z); (["b"], 3%Z); (["b"], 4%Z) ].
Proof. split; vm_compute; reflexivity. Qed.

(** * Further properties *)

(** ** Early stopping *)

Section EarlyStopping.
Import EarlyStop.

Lemma rising_run_snoc (history : list Q) (x : Q) :
  rising_run (history ++ [x])
  = match rev history with
    | b :: _ => if greater x b then S (rising_run history) else 0
    | [] => 0
    end.
Proof.
  unfold rising_run. rewrite rev_app_distr. simpl.
  destruct (rev history) as [|b r]; reflexivity.
Qed.

Lemma nth_last_two (history : list Q) (x : Q) :
  nth (length (history ++ [x]) - 1) (history ++ [x]) 0%Q = x
  /\ (history <> [] ->
      nth (length (history ++ [x]) - 2) (history ++ [x]) 0%Q
      = hd 0%Q (rev history)).
Proof.
  rewrite length_app. simpl. split.
  - rewrite app_nth2 by lia.
    replace (length history + 1 - 1 - length history) with 0 by lia. reflexivity.
  - intros Hne. destruct (rev history) as [|b r] eqn:Hrev.
    + apply (f_equal (@rev Q)) in Hrev. rewrite rev_involutive in Hrev.
      contradiction.
    + apply (f_equal (@rev Q)) in Hrev. rewrite rev_involutive in Hrev.
      simpl in Hrev. subst history. rewrite length_app. simpl.
      rewrite app_nth1 by (rewrite length_app; simpl; lia).
      rewrite app_nth2 by lia.
      replace (length (rev r) + 1 + 1 - 2 - length (rev r)) with 0 by lia.
      reflexivity.
Qed.

(** One epoch: the loss joins the history, and the counter goes on counting
    the rising epochs at the end of the history. *)
Lemma on_validation_epoch_end_counts (self : EarlyStop) (loss : Q) :
  counter self = rising_run (validation_loss_history self) ->
  let (self', go_on) := on_validation_epoch_end self loss in
  validation_loss_history self' = validation_loss_history self ++ [loss]
  /\ patience self' = patience self
  /\ counter self' = rising_run (validation_loss_history self ++ [loss])
  /\ go_on = negb (patience self
                   <=? rising_run (validation_loss_history self ++ [loss])).
Proof.
  intros Hc. unfold on_validation_epoch_end. cbv zeta.
  set (h := validation_loss_history self) in *.
  assert (Hcount :
            (if 1 <? length (h ++ [loss])
             then if greater (nth (length (h ++ [loss]) - 1) (h ++ [loss]) 0%Q)
                             (nth (length (h ++ [loss]) - 2) (h ++ [loss]) 0%Q)
                  then counter self + 1 else 0
             else counter self)
            = rising_run (h ++ [loss])).
  { destruct (nth_last_two h loss) as [Hlast Hprev].
    rewrite Hlast, rising_run_snoc.
    destruct h as [|a h'] eqn:Hh.
    - simpl. exact Hc.
    - rewrite Hprev by discriminate.
      replace (1 <? length ((a :: h') ++ [loss])) with true
        by (symmetry; apply Nat.ltb_lt; rewrite length_app; simpl; lia).
      destruct (rev (a :: h')) as [|b r] eqn:Hrev.
      + apply (f_equal (@rev Q)) in Hrev. rewrite rev_involutive in Hrev.
        discriminate Hrev.
      + simpl. rewrite Hc, Nat.add_1_r. reflexivity. }
  simpl. rewrite Hcount. repeat split; auto.
Qed.

Lemma epochs_count (losses : list Q) (self : EarlyStop) :
  counter self = rising_run (validation_loss_history self) ->
  validation_loss_history (fst (epochs self losses))
  = validation_loss_history self ++ losses
  /\ patience (fst (epochs self losses)) = patience self
  /\ counter (fst (epochs self losses))
     = rising_run (validation_loss_history self ++ losses)
  /\ length (snd (epochs self losses)) = length losses
  /\ forall k, k < length losses ->
       nth k (snd (epochs self losses)) true
       = negb (patience self
               <=? rising_run (validation_loss_history self
                               ++ firstn (S k) losses)).
Proof.
  revert self. induction losses as [|loss rest IH]; intros self Hc.
  - simpl. rewrite app_nil_r. repeat split; auto. intros k Hk. inversion Hk.
  - pose proof (on_validation_epoch_end_counts self loss Hc) as Hstep.
    cbn [epochs].
    destruct (on_validation_epoch_end self loss) as [self1 go_on].
    destruct Hstep as [Hh [Hp [Hcount Hgo]]].
    assert (Hc1 : counter self1 = rising_run (validation_loss_history self1))
      by (now rewrite Hh).
    specialize (IH self1 Hc1).
    destruct (epochs self1 rest) as [self2 answers].
    cbn [fst snd length] in IH |- *.
    destruct IH as [Hh2 [Hp2 [Hc2 [Hlen Hanswers]]]].
    rewrite Hh in Hh2, Hc2, Hanswers. rewrite <- app_assoc in Hh2, Hc2.
    simpl in Hh2, Hc2. rewrite Hp in Hp2, Hanswers.
    split; [exact Hh2|]. split; [exact Hp2|]. split; [exact Hc2|].
    split; [now rewrite Hlen|].
    intros [|k] Hk.
    + simpl. exact Hgo.
    + simpl in Hk. simpl nth. rewrite Hanswers by lia.
      rewrite <- app_assoc. reflexivity.
Qed.

Lemma rising_run_rev_bound (l : list Q) : rising_run_rev l <= length l - 1.
Proof.
  induction l as [|a [|b l] IH]; simpl; try lia.
  destruct (greater a b); simpl in *; lia.
Qed.

Lemma rising_run_bound (history : list Q) :
  rising_run history <= length history - 1.
Proof.
  unfold rising_run. rewrite <- length_rev. apply rising_run_rev_bound.
Qed.

End EarlyStopping.

(** X1: the early-stopping callback, started with any patience and called
    once per epoch, keeps the losses in its history, has a patience of at
    least one, and its counter is the number of epochs at the end of the
    history whose loss was greater than that of the epoch before; the
    answer of each epoch is to go on exactly when that number, for the
    history up to the epoch, is below the patience. *)
Theorem early_stop_counts_rising_epochs (patience : nat) (losses : list Q) :
  EarlyStop.validation_loss_history
    (fst (EarlyStop.epochs (EarlyStop.__init__ patience) losses))
  = losses
  /\ EarlyStop.patience (fst (EarlyStop.epochs (EarlyStop.__init__ patience) losses))
     = Nat.max 1 patience
  /\ EarlyStop.counter (fst (EarlyStop.epochs (EarlyStop.__init__ patience) losses))
     = EarlyStop.rising_run losses
  /\ length (snd (EarlyStop.epochs (EarlyStop.__init__ patience) losses))
     = length losses
  /\ forall k, k < length losses ->
       nth k (snd (EarlyStop.epochs (EarlyStop.__init__ patience) losses)) true
       = negb (Nat.max 1 patience
               <=? EarlyStop.rising_run (firstn (S k) losses)).
Proof.
  destruct (epochs_count losses (EarlyStop.__init__ patience) eq_refl)
    as [Hh [Hp [Hc [Hlen Hanswers]]]].
  simpl in Hh, Hp, Hc, Hanswers. repeat split; auto.
Qed.

(** X2: training is never stopped during the first [max(1, patience)]
    epochs, whatever the losses. *)
Theorem early_stop_waits_for_its_patience (patience : nat) (losses : list Q)
    (k : nat) :
  k < length losses -> k < Nat.max 1 patience ->
  nth k (snd (EarlyStop.epochs (EarlyStop.__init__ patience) losses)) true = true.
Proof.
  intros Hk Hp.
  destruct (epochs_count losses (EarlyStop.__init__ patience) eq_refl)
    as [_ [_ [_ [_ Hanswers]]]].
  rewrite Hanswers by exact Hk.
  change (EarlyStop.patience (EarlyStop.__init__ patience))
    with (Nat.max 1 patience).
  change (EarlyStop.validation_loss_history (EarlyStop.__init__ patience)
          ++ firstn (S k) losses)
    with (firstn (S k) losses).
  apply Bool.negb_true_iff. apply Nat.leb_gt.
  pose proof (rising_run_bound (firstn (S k) losses)) as Hb.
  rewrite length_firstn in Hb. lia.
Qed.

Lemma early_stop_waits_for_its_patience_witness :
  nth 2 (snd (EarlyStop.epochs (EarlyStop.__init__ 3) [1%Q; 2%Q; 3%Q; 4%Q]))
    true = true.
Proof.
  apply (early_stop_waits_for_its_patience 3 [1%Q; 2%Q; 3%Q; 4%Q] 2);
    simpl; lia.
Defined.

(** ** The chunks of a batch *)

Section Chunks.
Import Transformer.

Lemma select_map {A C} (p : C -> bool) (f : A -> C) (l : list A) :
  select (map (fun x => p (f x)) l) (map f l)
  = map f (filter (fun x => p (f x)) l).
Proof.
  unfold select. induction l as [|x l IH]; simpl; [reflexivity|].
  destruct (p (f x)); simpl; now rewrite IH.
Qed.

Lemma clamp_nonzero (start step l : Z) :
  (0 < step)%Z ->
  negb (clamp 0 step ((l - 1) - start) =? 0)%Z = (start + 1 <? l)%Z.
Proof.
  intros Hstep. unfold clamp.
  destruct (Z.ltb_spec (start + 1) l); apply eq_true_iff_eq;
    rewrite Bool.negb_true_iff, Z.eqb_neq; split; intros; lia.
Qed.

Lemma clamp_of_kept (start step l : Z) :
  (start + 1 < l)%Z -> (0 < step)%Z ->
  clamp 0 step ((l - 1) - start) = Z.min (l - 1 - start) step.
Proof. unfold clamp. lia. Qed.

End Chunks.

(** X3: with a positive step, the lengths that [get_chunk] returns are those
    of the sequences that reach beyond [start + 1], in their order: what is
    left of each sequence after [start] and its last element, cut at [step];
    so every returned length is between one and [step], and the sequences
    with nothing left are dropped. *)
Theorem get_chunk_lengths (T : Transformer.Torch) (source : Transformer.Tensor)
    (source_lengths : list Z) (start step : Z)
    (data target : Transformer.Tensor) (lengths : list Z) :
  (0 < step)%Z ->
  Transformer.get_chunk source source_lengths start step
  = Ok (data, target, lengths) ->
  lengths = map (fun l => Z.min (l - 1 - start) step)
                (filter (fun l => (start + 1 <? l)%Z) source_lengths)
  /\ Forall (fun l => (1 <= l <= step)%Z) lengths.
Proof.
  intros Hstep Hchunk. unfold Transformer.get_chunk in Hchunk.
  cbv zeta in Hchunk.
  bind_ok Hchunk. bind_ok Hchunk. bind_ok Hchunk. bind_ok Hchunk.
  inversion Hchunk as [[Hd Ht Hl]]. clear Hchunk.
  rewrite map_map.
  rewrite (select_map (fun l => negb (l =? 0)%Z)
             (fun l => Transformer.clamp 0 step ((l - 1) - start))).
  rewrite (filter_ext _ (fun l => (start + 1 <? l)%Z))
    by (intros l; now apply clamp_nonzero).
  assert (Heq : map (fun l => Transformer.clamp 0 step (l - 1 - start))
                    (filter (fun l => (start + 1 <? l)%Z) source_lengths)
                = map (fun l => Z.min (l - 1 - start) step)
                    (filter (fun l => (start + 1 <? l)%Z) source_lengths)).
  { apply map_ext_in. intros l Hin. apply filter_In in Hin.
    destruct Hin as [_ Hin]. apply Z.ltb_lt in Hin.
    now apply clamp_of_kept. }
  rewrite Heq. split; [reflexivity|].
  apply Forall_forall. intros x Hx. apply in_map_iff in Hx.
  destruct Hx as [l [<- Hin]]. apply filter_In in Hin.
  destruct Hin as [_ Hin]. apply Z.ltb_lt in Hin. lia.
Qed.

Lemma get_chunk_lengths_witness :
  @Transformer.get_chunk Examples.toy_torch [[1; 2; 3; 4; 5]%Z] [5%Z] 1 2
  = Ok ([[1; 2]%Z], [[3; 4; 5]%Z], [2%Z])
  /\ Forall (fun l => (1 <= l <= 2)%Z) [2%Z].
Proof.
  split; [reflexivity|].
  apply (get_chunk_lengths Examples.toy_torch [[1; 2; 3; 4; 5]%Z] [5%Z] 1 2
           [[1; 2]%Z] [[3; 4; 5]%Z] [2%Z]); [lia | reflexivity].
Defined.

(** ** The attention mask and its cache *)

Section AttentionMask.
Import Transformer.

Lemma combine_seq_repeat {A} (x : A) (n s : nat) :
  combine (seq s n) (repeat x n) = map (fun i => (i, x)) (seq s n).
Proof.
  revert s. induction n as [|n IH]; intros s; simpl; [reflexivity|].
  now rewrite IH.
Qed.

Lemma imap_repeat {A C} (f : nat -> A -> C) (x : A) (n : nat) :
  imap f (repeat x n) = map (fun i => f i x) (seq 0 n).
Proof.
  unfold imap. rewrite repeat_length, combine_seq_repeat, map_map.
  reflexivity.
Qed.

Lemma upper_triangle (sz : nat) :
  eq_scalar (triu (ones sz sz)) 1
  = map (fun i => map (fun j => i <=? j) (seq 0 sz)) (seq 0 sz).
Proof.
  unfold eq_scalar, triu, ones. rewrite imap_repeat, map_map.
  apply map_ext. intros i. rewrite imap_repeat, map_map.
  apply map_ext. intros j. now destruct (i <=? j).
Qed.

Lemma nth_map_seq {A} (f : nat -> A) (d : A) (n j : nat) :
  j < n -> nth j (map f (seq 0 n)) d = f j.
Proof.
  intros Hj. rewrite (nth_indep _ d (f 0)) by now rewrite length_map, length_seq.
  rewrite (map_nth f (seq 0 n) 0 j). now rewrite seq_nth.
Qed.

Lemma lower_triangle (sz : nat) :
  transpose (eq_scalar (triu (ones sz sz)) 1)
  = map (fun i => map (fun j => j <=? i) (seq 0 sz)) (seq 0 sz).
Proof.
  rewrite upper_triangle. unfold transpose.
  assert (Hwidth : length (hd [] (map (fun i => map (fun j => i <=? j) (seq 0 sz))
                                     (seq 0 sz))) = sz).
  { destruct sz as [|sz]; [reflexivity|].
    cbn [seq map hd length]. now rewrite length_map, length_seq. }
  rewrite Hwidth. apply map_ext_in. intros i Hi. apply in_seq in Hi.
  rewrite map_map. apply map_ext. intros j.
  apply nth_map_seq. lia.
Qed.

Lemma logarithm_of_mask (mask : list (list bool)) :
  masked_fill (masked_fill (to_float mask) (is_false mask) NegInf)
              (is_true mask) (Weight 0)
  = map (map (fun b : bool => if b then Weight 0 else NegInf)) mask.
Proof.
  unfold masked_fill, to_float, is_false, is_true.
  induction mask as [|row mask IH]; [reflexivity|].
  cbn [map combine fst snd]. f_equal; [|exact IH].
  clear IH. induction row as [|b row IH]; [reflexivity|].
  cbn [map combine fst snd]. f_equal; [|exact IH].
  now destruct b.
Qed.

Lemma length_generated_mask (sz : nat) :
  length (_generate_square_subsequent_mask sz) = sz.
Proof.
  unfold _generate_square_subsequent_mask. cbv zeta.
  rewrite logarithm_of_mask, lower_triangle.
  now rewrite !length_map, length_seq.
Qed.

End AttentionMask.

(** X4: the attention mask of size [sz] has [sz] rows of [sz] entries, and
    position [i] may attend to position [j] exactly when [j] is not after
    [i]: the entry is [0.0] there and minus infinity everywhere else. *)
Theorem causal_mask (sz : nat) :
  Transformer._generate_square_subsequent_mask sz
  = map (fun i =>
           map (fun j => if j <=? i then Transformer.Weight 0
                         else Transformer.NegInf)
               (seq 0 sz))
        (seq 0 sz).
Proof.
  unfold Transformer._generate_square_subsequent_mask. cbv zeta.
  rewrite logarithm_of_mask, lower_triangle, map_map.
  apply map_ext. intros i. now rewrite map_map.
Qed.

(** X5: the encoder reuses the mask it keeps exactly when the size of that
    mask is the size of the batch; the device of the call is not compared.
    So an encoder that holds no mask, or a mask that [forward] made for
    another size or for the device of the call, answers as a new encoder
    does, and after the call it holds the mask of the size of the batch,
    moved to the device of the call; and an encoder that holds a mask of the
    size of the batch still holds that mask after the call, whatever the
    device of the call. *)
Theorem forward_mask_cache (T : Transformer.Torch)
    (self : Transformer.TransformerEncoder) (src : Transformer.Tensor)
    (lengths : list nat) (device : Transformer.Device) :
  ((Transformer.src_mask self = None
    \/ exists n d mask,
         Transformer.src_mask self = Some mask
         /\ Transformer.attn_to (Transformer._generate_square_subsequent_mask n) d
            = Returns mask
         /\ Transformer.attn_size0 mask = n
         /\ (n = Transformer.size0 src -> d = device)) ->
   Transformer.forward self src lengths device
   = Transformer.forward (Transformer.mkEncoder None) src lengths device
   /\ forall self' output,
        Transformer.forward self src lengths device = Ok (self', output) ->
        exists mask',
          Transformer.src_mask self' = Some mask'
          /\ Transformer.attn_to
               (Transformer._generate_square_subsequent_mask
                  (Transformer.size0 src)) device
             = Returns mask')
  /\ (forall mask self' output,
        Transformer.src_mask self = Some mask ->
        Transformer.attn_size0 mask = Transformer.size0 src ->
        Transformer.forward self src lengths device = Ok (self', output) ->
        Transformer.src_mask self' = Some mask).
Proof.
  split.
  - intros Hmask.
    assert (Heq : Transformer.forward self src lengths device
                  = Transformer.forward (Transformer.mkEncoder None) src lengths
                      device).
    { unfold Transformer.forward. cbv zeta. cbn [Transformer.src_mask].
      destruct Hmask as [-> | [n [d [mask [-> [Hto [Hsize Hdevice]]]]]]];
        [reflexivity|].
      rewrite Hsize.
      destruct (Nat.eqb_spec n (Transformer.size0 src)) as [Hn|Hn];
        cbn [negb]; [|reflexivity].
      rewrite <- (Hdevice Hn), <- Hn, Hto. reflexivity. }
    split; [exact Heq|].
    intros self' output Hok. rewrite Heq in Hok.
    unfold Transformer.forward in Hok. cbv zeta in Hok.
    cbn [Transformer.src_mask] in Hok.
    bind_ok Hok. bind_ok Hok. bind_ok Hok. bind_ok Hok. bind_ok Hok.
    bind_ok Hok. inversion Hok; subst self'. clear Hok.
    exists a. split; [reflexivity|].
    unfold call in E. destruct (Transformer.attn_to _ device) as [made|w];
      [|discriminate E].
    inversion E. reflexivity.
  - intros mask self' output Hmask Hsize Hok.
    unfold Transformer.forward in Hok. cbv zeta in Hok.
    rewrite Hmask, Hsize, Nat.eqb_refl in Hok. cbn [negb Py.bind] in Hok.
    bind_ok Hok. bind_ok Hok. bind_ok Hok. bind_ok Hok. bind_ok Hok.
    inversion Hok. reflexivity.
Qed.

Lemma forward_mask_cache_witness :
  @Transformer.forward Examples.toy_torch
    (@Transformer.mkEncoder Examples.toy_torch
       (Some ("cpu", Transformer._generate_square_subsequent_mask 2)))
    [[1%Z]; [2%Z]; [3%Z]] [1; 1; 1] "gpu"
  = @Transformer.forward Examples.toy_torch (Transformer.mkEncoder None)
      [[1%Z]; [2%Z]; [3%Z]] [1; 1; 1] "gpu".
Proof.
  apply (proj1 (forward_mask_cache Examples.toy_torch
                  (@Transformer.mkEncoder Examples.toy_torch
                     (Some ("cpu", Transformer._generate_square_subsequent_mask 2)))
                  [[1%Z]; [2%Z]; [3%Z]] [1; 1; 1] "gpu")).
  right. exists 2, "cpu", ("cpu", Transformer._generate_square_subsequent_mask 2).
  split; [reflexivity|]. split; [reflexivity|]. split; [reflexivity|].
  intros Hsize. discriminate Hsize.
Defined.

(** A mask of the size of the batch that was made for another device is
    handed to the layers as it is: here they refuse it, where a new encoder
    is answered. *)
Lemma forward_keeps_the_device_of_its_mask :
  @Transformer.forward Examples.toy_torch
    (@Transformer.mkEncoder Examples.toy_torch
       (Some ("cpu", Transformer._generate_square_subsequent_mask 3)))
    [[1%Z]; [2%Z]; [3%Z]] [1; 1; 1] "gpu"
  = Raise (Vendor "torch")
  /\ is_ok (@Transformer.forward Examples.toy_torch (Transformer.mkEncoder None)
              [[1%Z]; [2%Z]; [3%Z]] [1; 1; 1] "gpu") = true.
Proof. split; vm_compute; reflexivity. Qed.

(** ** The positional encoding *)

Section PositionalEncoding.
Import Transformer.

Lemma half_even (k : nat) : (2 * k) / 2 = k.
Proof.
  pose proof (Nat.div_mod_eq (2 * k) 2).
  pose proof (Nat.mod_upper_bound (2 * k) 2). lia.
Qed.

Lemma half_odd (k : nat) : (2 * k + 1) / 2 = k.
Proof.
  pose proof (Nat.div_mod_eq (2 * k + 1) 2).
  pose proof (Nat.mod_upper_bound (2 * k + 1) 2). lia.
Qed.

Lemma length_every_second (d : nat) :
  length (every_second 0 d) = (d + 1) / 2
  /\ length (every_second 1 d) = d / 2.
Proof.
  unfold every_second. induction d as [|d [IH0 IH1]]; [split; reflexivity|].
  rewrite seq_S, !filter_app, !length_app, IH0, IH1.
  cbn [filter Nat.add]. rewrite Nat.sub_0_r.
  cbn [Nat.leb andb].
  destruct d as [|d]; [split; reflexivity|].
  cbn [Nat.leb andb Nat.sub]. rewrite Nat.sub_0_r.
  rewrite Nat.even_succ, <- Nat.negb_even.
  destruct (Nat.even d) eqn:He; cbn [negb length].
  - apply Nat.even_spec in He. destruct He as [k ->]. split.
    + replace (S (S (2 * k) + 1)) with (2 * (k + 1) + 1) by lia.
      replace (S (2 * k) + 1) with (2 * (k + 1)) by lia.
      rewrite half_even, half_odd. lia.
    + replace (S (S (2 * k))) with (2 * (k + 1)) by lia.
      replace (S (2 * k)) with (2 * k + 1) by lia.
      rewrite half_even, half_odd. lia.
  - assert (Ho : Nat.odd d = true) by (unfold Nat.odd; now rewrite He).
    apply Nat.odd_spec in Ho. destruct Ho as [k ->]. split.
    + replace (S (S (2 * k + 1) + 1)) with (2 * (k + 2)) by lia.
      replace (S (2 * k + 1) + 1) with (2 * (k + 1) + 1) by lia.
      rewrite !half_even, half_odd. lia.
    + replace (S (S (2 * k + 1))) with (2 * (k + 1) + 1) by lia.
      replace (S (2 * k + 1)) with (2 * (k + 1)) by lia.
      rewrite half_even, half_odd. lia.
Qed.

End PositionalEncoding.

(** X6: for every width [d_model], even or odd, the two blocks that
    [PositionalEncoding.__init__] assigns have the widths of the column
    slices they are assigned to: the sines fill the columns [0::2], and the
    cosines, cut to [d_model // 2] columns for an odd width, fill the columns
    [1::2]. *)
Theorem positional_encoding_widths (d_model : nat) :
  length (Transformer.every_second 0 d_model)
  = length (Transformer.arange_by_two d_model)
  /\ length (Transformer.every_second 1 d_model)
     = Transformer.cosine_width d_model.
Proof.
  destruct (length_every_second d_model) as [H0 H1]. rewrite H0, H1.
  unfold Transformer.cosine_width, Transformer.arange_by_two.
  rewrite length_firstn, !length_map, !length_seq.
  split; [reflexivity|].
  destruct (Nat.eqb_spec (d_model mod 2) 0) as [He|He].
  - pose proof (Nat.div_mod_eq d_model 2) as Hd.
    pose proof (Nat.div_mod_eq (d_model + 1) 2) as Hd1.
    pose proof (Nat.mod_upper_bound (d_model + 1) 2).
    lia.
  - pose proof (Nat.div_mod_eq d_model 2) as Hd.
    pose proof (Nat.div_mod_eq (d_model + 1) 2) as Hd1.
    pose proof (Nat.mod_upper_bound (d_model + 1) 2).
    pose proof (Nat.mod_upper_bound d_model 2).
    lia.
Qed.

(** ** Fitting and calling the N-HITS mixer *)

Section NHitsFit.
Context {B : NHits.Backend}.

Lemma unique_by_nonempty {A} (eqb : A -> A -> bool) (l : list A) :
  l <> [] -> unique_by eqb l <> [].
Proof. destruct l as [|x l]; [contradiction | discriminate]. Qed.

Lemma value_counts_min_ok (df : Frame) :
  df <> [] -> exists n, NHits.value_counts_min df = Ok n.
Proof.
  intros Hne. unfold NHits.value_counts_min. cbv zeta.
  destruct (unique_by strings_eqb (map r_group df)) as [|k ks] eqn:E.
  - exfalso. apply (unique_by_nonempty strings_eqb (map r_group df)); [|exact E].
    destruct df; [contradiction | discriminate].
  - cbn [map]. eexists. reflexivity.
Qed.

(** The number of time steps that [fit] works with is found for every frame
    that has a row. *)
Lemma nhits_n_time_ok (gby : list string) (df : Frame) :
  df <> [] ->
  exists n,
    match gby with
    | _ :: _ => NHits.value_counts_min df
    | [] => Ok (length (unique_by Z.eqb (map r_oby df)))
    end = Ok n.
Proof.
  intros Hne. destruct gby; [eexists; reflexivity|].
  now apply value_counts_min_ok.
Qed.

(** The last position of every series is found, whatever the frame. *)
Lemma nhits_group_ends_ok (self : NHits.NHitsMixer) (df : Frame) :
  let index := map (fun i => CInt (Z.of_nat i)) (seq 0 (length df)) in
  let uid := map (fun r => CStr (NHits.unique_id self r)) (sort_by r_oby df) in
  exists ends,
    mapM (fun group =>
            iloc_last (select (map (fun u => cell_eqb u (CStr group)) uid) index))
         (unique (map cell_str uid))
    = Ok ends.
Proof.
  intros index uid.
  destruct (mapM_ok (fun y => In y index)
              (fun group => iloc_last
                              (select (map (fun u => cell_eqb u (CStr group)) uid)
                                      index))
              (unique (map cell_str uid))) as [ends [Hends _]];
    [|now exists ends].
  intros g Hg. apply in_unique_by in Hg.
  destruct (iloc_last_in
              (select (map (fun u => cell_eqb u (CStr g)) uid) index))
    as [x [Hx Hin]].
  - apply select_some.
    + unfold uid, index.
      now rewrite !length_map, length_seq, length_sort_by.
    + apply in_map_iff in Hg. destruct Hg as [u [<- Hu]]. exists u.
      split; [exact Hu|]. unfold uid in Hu. apply in_map_iff in Hu.
      destruct Hu as [r [<- _]]. simpl. apply String.eqb_refl.
  - exists x. split; [exact Hx|]. now apply in_select in Hin.
Qed.

(** What [fit] hands to the library when it trains a model itself. *)
Lemma nhits_fit_training_call (self self' : NHits.NHitsMixer)
    (train_data dev_data : Ds) :
  NHits.fit self train_data dev_data = Ok self' ->
  NHits.pretrained self' = false ->
  exists n_time m,
    NHits.model self' = Some m
    /\ NHits.window self'
       = (if n_time <? NHits.window self + NHits.horizon self
          then Nat.max 1 (n_time - NHits.horizon self - 1)
          else NHits.window self)
    /\ NHits.train (NHits.horizon self) (NHits.window self')
         (NHits.train_args self) (NHits.conf_level self)
         (sample_freq (NHits.ts_analysis self))
         (NHits._make_initial_df self
            (data_frame train_data ++ data_frame dev_data))
         (Nat.max (NHits.tenth n_time) (NHits.horizon self))
       = Returns m
    /\ NHits.horizon self' = NHits.horizon self
    /\ NHits.prepared self' = NHits.prepared self.
Proof.
  unfold NHits.fit. cbv zeta. cbn [concat_ds data_frame].
  intros Hf Hpre. bind_ok Hf. bind_ok Hf.
  assert (Hsame : NHits.horizon a0 = NHits.horizon self
                  /\ NHits.window a0 = NHits.window self
                  /\ NHits.train_args a0 = NHits.train_args self
                  /\ NHits.conf_level a0 = NHits.conf_level self
                  /\ NHits.ts_analysis a0 = NHits.ts_analysis self
                  /\ NHits.prepared a0 = NHits.prepared self).
  { destruct (NHits.pretrained self).
    - bind_ok E0. bind_ok E0. inversion E0; subst a0. simpl. auto 10.
    - inversion E0; subst a0. auto 10. }
  destruct Hsame as [Hh [Hw [Hargs [Hlevel [Hta Hprep]]]]].
  destruct (NHits.pretrained a0) eqn:Hp0; cbn [negb] in Hf.
  - inversion Hf; subst self'. congruence.
  - bind_ok Hf. inversion Hf; subst self'. clear Hf.
    cbn [NHits.with_model NHits.model NHits.window NHits.horizon NHits.prepared].
    unfold call in E1.
    match type of E1 with
    | match ?t with _ => _ end = _ => destruct t eqn:Et; [|discriminate E1]
    end.
    inversion E1; subst a2. clear E1.
    rewrite Hh, Hw, Hargs, Hlevel, Hta in Et. rewrite ?Hh, ?Hw, ?Hprep.
    exists a. eexists. split; [reflexivity|].
    split; [reflexivity|]. split; [exact Et|]. split; reflexivity.
Qed.

End NHitsFit.

(** X7: a call of an N-HITS mixer that holds no model, as every mixer does
    before [fit], ends in an [AttributeError] for every data set: the table
    is prepared, and [self.model.predict] is then asked of [None]. *)
Theorem nhits_call_before_fit (NB : NHits.Backend) (self : NHits.NHitsMixer)
    (ds : Ds) (args : PredictionArguments) :
  NHits.model self = None ->
  NHits.__call__ self ds args = Raise (Builtin AttributeError).
Proof.
  intros Hm. unfold NHits.__call__. cbv zeta.
  rewrite make_initial_df_cols.
  unfold getitem at 1. cbn [lookup cols String.eqb Ascii.eqb Bool.eqb Py.bind].
  unfold getitem at 1. cbn [lookup cols String.eqb Ascii.eqb Bool.eqb Py.bind].
  destruct (nhits_group_ends_ok self (data_frame ds)) as [ends Hends].
  cbv zeta in Hends. rewrite Hends. cbn [Py.bind]. rewrite Hm. reflexivity.
Qed.

Lemma nhits_call_before_fit_witness :
  @NHits.__call__ Examples.toy_nhits
    (@NHits.__init__ Examples.toy_nhits 1 "y" 2 3 Examples.grouped false None)
    Examples.two_series_ds Examples.no_args
  = Raise (Builtin AttributeError).
Proof.
  apply (nhits_call_before_fit Examples.toy_nhits). reflexivity.
Defined.

(** X8: whenever [fit] of the N-HITS mixer ends with a mixer that is not
    marked as pretrained, the model it holds was trained by the library on
    the long frame of the training and validation data, with the horizon of
    the mixer, at least [horizon] time steps for validation, and the window
    the mixer holds afterwards; a window of at least one stays at least one
    and is never made longer. *)
Theorem nhits_fit_from_scratch (NB : NHits.Backend)
    (self self' : NHits.NHitsMixer) (train_data dev_data : Ds) :
  NHits.fit self train_data dev_data = Ok self' ->
  NHits.pretrained self' = false ->
  exists m val_size,
    NHits.model self' = Some m
    /\ NHits.train (NHits.horizon self) (NHits.window self')
         (NHits.train_args self) (NHits.conf_level self)
         (sample_freq (NHits.ts_analysis self))
         (NHits._make_initial_df self
            (data_frame train_data ++ data_frame dev_data))
         val_size
       = Returns m
    /\ NHits.horizon self <= val_size
    /\ (1 <= NHits.window self ->
        1 <= NHits.window self' <= NHits.window self)
    /\ NHits.horizon self' = NHits.horizon self
    /\ NHits.prepared self' = NHits.prepared self.
Proof.
  intros Hf Hpre.
  destruct (nhits_fit_training_call self self' train_data dev_data Hf Hpre)
    as [n_time [m [Hm [Hw [Ht [Hh Hp]]]]]].
  exists m, (Nat.max (NHits.tenth n_time) (NHits.horizon self)).
  split; [exact Hm|]. split; [exact Ht|].
  split; [apply Nat.le_max_r|].
  split; [|split; [exact Hh | exact Hp]].
  intros Hwin. rewrite Hw.
  destruct (Nat.ltb_spec n_time (NHits.window self + NHits.horizon self)); lia.
Qed.

Lemma nhits_fit_from_scratch_witness :
  exists self',
    @NHits.fit Examples.toy_nhits
      (@NHits.__init__ Examples.toy_nhits 1 "y" 2 3 Examples.grouped false None)
      Examples.two_series_ds Examples.empty_ds
    = Ok self'
    /\ 1 <= NHits.window self' <= 3.
Proof.
  destruct (@NHits.fit Examples.toy_nhits
              (@NHits.__init__ Examples.toy_nhits 1 "y" 2 3 Examples.grouped
                 false None)
              Examples.two_series_ds Examples.empty_ds) as [self'|e] eqn:E;
    [|vm_compute in E; discriminate E].
  exists self'. split; [reflexivity|].
  destruct (nhits_fit_from_scratch Examples.toy_nhits _ self' _ _ E)
    as [m [val [_ [_ [_ [Hw _]]]]]].
  - vm_compute in E. inversion E. reflexivity.
  - apply Hw. simpl. lia.
Defined.

(** X9: [fit] of the N-HITS mixer ends with a mixer marked as pretrained
    only if it was marked so before, the checkpoint named after the sample
    frequency was loaded and is the model the mixer holds, the window is
    shorter than the input length of the checkpoint and the horizon is not
    longer than its output length; nothing is trained then, and the window
    stays as it was. *)
Theorem nhits_fit_keeps_the_checkpoint (NB : NHits.Backend)
    (self self' : NHits.NHitsMixer) (train_data dev_data : Ds) :
  NHits.fit self train_data dev_data = Ok self' ->
  NHits.pretrained self' = true ->
  NHits.pretrained self = true
  /\ exists key name m,
       lookup (sample_freq (NHits.ts_analysis self)) NHits.freq_to_model
       = Some key
       /\ In (key, name) NHits.model_names
       /\ NHits.model_name self' = Some name
       /\ NHits.load_from_checkpoint (NHits.base_url ++ name) = Returns m
       /\ NHits.model self' = Some m
       /\ NHits.window self < NHits.n_time_in m
       /\ NHits.horizon self <= NHits.n_time_out m
       /\ NHits.window self' = NHits.window self.
Proof.
  unfold NHits.fit. cbv zeta. intros Hf Hpre. bind_ok Hf. bind_ok Hf.
  destruct (NHits.pretrained self) eqn:Hp.
  - split; [reflexivity|].
    bind_ok E0. bind_ok E0. inversion E0; subst a0. clear E0.
    destruct (lookup (sample_freq (NHits.ts_analysis self)) NHits.freq_to_model)
      as [key|] eqn:Ekey; [|discriminate E1].
    inversion E1; subst a1. clear E1.
    unfold call in E2.
    destruct (NHits.load_from_checkpoint _) as [m|w] eqn:El; [|discriminate E2].
    inversion E2; subst a2. clear E2.
    cbn [NHits.with_model NHits.pretrained] in Hf.
    destruct (NHits.window self <? NHits.n_time_in m) eqn:Hwin;
      destruct (NHits.n_time_out m <? NHits.horizon self) eqn:Hout;
      cbn [negb] in Hf;
      try (bind_ok Hf; inversion Hf; subst self'; discriminate Hpre).
    inversion Hf; subst self'. clear Hf Hpre.
    apply Nat.ltb_lt in Hwin. apply Nat.ltb_ge in Hout.
    exists key. eexists. exists m.
    split; [reflexivity|].
    split; [|split; [reflexivity|split; [exact El|auto]]].
    assert (Hkeys : In key ["yearly"; "monthly"; "daily"; "hourly"]).
    { clear - Ekey. unfold NHits.freq_to_model in Ekey. cbn [lookup] in Ekey.
      repeat match type of Ekey with
             | (if ?c then _ else _) = _ =>
                 destruct c; [inversion Ekey; simpl; auto|]
             end.
      discriminate Ekey. }
    simpl in Hkeys.
    destruct Hkeys as [<-|[<-|[<-|[<-|[]]]]]; simpl; auto.
  - inversion E0; subst a0. rewrite Hp in Hf. cbn [negb] in Hf.
    bind_ok Hf. inversion Hf; subst self'. simpl in Hpre. congruence.
Qed.

Lemma nhits_fit_keeps_the_checkpoint_witness :
  exists self',
    @NHits.fit Examples.toy_nhits
      (@NHits.__init__ Examples.toy_nhits 1 "y" 2 3 Examples.grouped true None)
      Examples.two_series_ds Examples.empty_ds
    = Ok self'
    /\ NHits.model_name self' = Some "nhits_m4_daily.ckpt".
Proof.
  destruct (@NHits.fit Examples.toy_nhits
              (@NHits.__init__ Examples.toy_nhits 1 "y" 2 3 Examples.grouped
                 true None)
              Examples.two_series_ds Examples.empty_ds) as [self'|e] eqn:E;
    [|vm_compute in E; discriminate E].
  exists self'. split; [reflexivity|].
  destruct (nhits_fit_keeps_the_checkpoint Examples.toy_nhits _ self' _ _ E)
    as [_ [key [name [m [Hkey [Hin [Hname _]]]]]]].
  - vm_compute in E. inversion E. reflexivity.
  - vm_compute in Hkey. inversion Hkey; subst key. rewrite Hname. f_equal.
    simpl in Hin.
    repeat (destruct Hin as [Hin|Hin]; [inversion Hin; try reflexivity|]).
    contradiction.
Defined.

(** X10: a mixer marked as pretrained whose data has a sample frequency
    other than Y, Q, M, W, D, H, T and S cannot be fitted: on every frame
    with at least one row, [fit] ends in a [KeyError]. *)
Theorem nhits_fit_unknown_frequency (NB : NHits.Backend)
    (self : NHits.NHitsMixer) (train_data dev_data : Ds) :
  NHits.pretrained self = true ->
  ~ In (sample_freq (NHits.ts_analysis self))
       ["Y"; "Q"; "M"; "W"; "D"; "H"; "T"; "S"] ->
  data_frame train_data ++ data_frame dev_data <> [] ->
  NHits.fit self train_data dev_data = Raise (Builtin KeyError).
Proof.
  intros Hp Hfreq Hne. unfold NHits.fit. cbv zeta. cbn [concat_ds data_frame].
  destruct (nhits_n_time_ok (group_by (tss (NHits.ts_analysis self))) _ Hne)
    as [n ->].
  cbn [Py.bind]. rewrite Hp.
  assert (Hnone : lookup (sample_freq (NHits.ts_analysis self))
                         NHits.freq_to_model = None).
  { unfold NHits.freq_to_model. cbn [lookup].
    repeat match goal with
           | |- (if (?k =? ?f)%string then _ else _) = None =>
               destruct (String.eqb_spec k f) as [Heq|_];
               [exfalso; apply Hfreq; rewrite <- Heq; simpl; auto 10|]
           end.
    reflexivity. }
  rewrite Hnone. reflexivity.
Qed.

Lemma nhits_fit_unknown_frequency_witness :
  @NHits.fit Examples.toy_nhits
    (@NHits.__init__ Examples.toy_nhits 1 "y" 2 3
       (mkTsAnalysis (mkTss "t" ["g"] 2) "B") true None)
    Examples.two_series_ds Examples.empty_ds
  = Raise (Builtin KeyError).
Proof.
  apply (nhits_fit_unknown_frequency Examples.toy_nhits).
  - reflexivity.
  - simpl. intuition discriminate.
  - discriminate.
Defined.

(** ** Where the N-HITS mixer writes the forecast of a series *)

Section NHitsForecastRows.
Context {B : NHits.Backend}.

Lemma foldM_app {A C} (f : C -> A -> result C) (l1 l2 : list A) (c c' : C) :
  foldM f (l1 ++ l2) c = Ok c' ->
  exists c1, foldM f l1 c = Ok c1 /\ foldM f l2 c1 = Ok c'.
Proof.
  revert c. induction l1 as [|x l1 IH]; intros c Hf; simpl in *.
  - now exists c.
  - destruct (f c x) as [c1|e]; [|discriminate]. now apply IH.
Qed.

Lemma mapM_combine {A C} (f : A -> result C) (l : list A) (ys : list C) :
  mapM f l = Ok ys ->
  length ys = length l
  /\ forall x y, In (y, x) (combine ys l) -> f x = Ok y.
Proof.
  revert ys. induction l as [|x l IH]; intros ys Hm; simpl in Hm.
  - inversion Hm. split; [reflexivity|]. intros x y [].
  - destruct (f x) as [y|e] eqn:Ex; [|discriminate].
    destruct (mapM f l) as [ys'|e] eqn:El; [|discriminate].
    inversion Hm; subst. destruct (IH ys' eq_refl) as [Hlen Hall].
    split; [simpl; now rewrite Hlen|].
    intros x' y' [Heq|Hin]; [inversion Heq; now subst | now apply Hall].
Qed.

Lemma in_combine_of_right {A C} (ys : list C) (l : list A) (x : A) :
  length ys = length l -> In x l -> exists y, In (y, x) (combine ys l).
Proof.
  revert ys. induction l as [|a l IH]; intros [|y ys] Hlen Hin; simpl in *;
    try contradiction; try discriminate.
  destruct Hin as [->|Hin].
  - exists y. now left.
  - destruct (IH ys) as [y' Hy']; [lia | exact Hin |]. exists y'. now right.
Qed.

Lemma map_snd_combine {A C} (ys : list C) (l : list A) :
  length ys = length l -> map snd (combine ys l) = l.
Proof.
  revert ys. induction l as [|a l IH]; intros [|y ys] Hlen; simpl in *;
    try discriminate; try reflexivity.
  f_equal. apply IH. lia.
Qed.

Lemma unique_complete (x : string) (l : list string) :
  In x l -> In x (unique l).
Proof.
  unfold unique. induction l as [|a l IH]; simpl; [auto|].
  intros [->|Hin]; [now left|].
  destruct (String.eqb_spec a x) as [->|Hne]; [now left|].
  right. apply filter_In. split; [now apply IH|].
  apply Bool.negb_true_iff. now apply String.eqb_neq.
Qed.

Lemma NoDup_unique (l : list string) : NoDup (unique l).
Proof.
  unfold unique. induction l as [|a l IH]; simpl; constructor.
  - intros Hin. apply filter_In in Hin. destruct Hin as [_ Hin].
    rewrite String.eqb_refl in Hin. discriminate.
  - now apply NoDup_filter.
Qed.

(** The end that [__call__] collects for a group is the position of the last
    row of that group. *)
Lemma nhits_group_end_of (ids : list string) (g : string) (e : cell) :
  iloc_last
    (select (map (fun u => cell_eqb u (CStr g)) (map CStr ids))
            (map (fun i => CInt (Z.of_nat i)) (seq 0 (length ids))))
  = Ok e ->
  exists k, e = CInt (Z.of_nat k) /\ k < length ids /\ nth k ids "" = g.
Proof.
  intros He. apply (iloc_last_select _ _ _ CNaN) in He;
    [|now rewrite !length_map, length_seq].
  destruct He as [k [Hk [Hm [Hv _]]]].
  rewrite !length_map in Hk. exists k.
  rewrite nth_positions in Hv by exact Hk. split; [now symmetry|].
  split; [exact Hk|].
  rewrite map_map in Hm.
  rewrite (nth_indep _ false ((fun x => cell_eqb (CStr x) (CStr g)) "")) in Hm
    by (rewrite length_map; exact Hk).
  rewrite (map_nth (fun x => cell_eqb (CStr x) (CStr g))) in Hm.
  now apply String.eqb_eq in Hm.
Qed.

(** One round of the inner loop writes the forecast of the group into the
    row whose position the group's end names. *)
Lemma nhits_write_at (self : NHits.NHitsMixer) (fcst : Table) (k n : nat)
    (group : string) (t t' : Table) (pred_col target_col : string) :
  NHits.forecast_table (NHits.horizon self) n
    (map (fun i => nth i (map (fun i => CInt (Z.of_nat i)) (seq 0 n)) CNaN)
         (seq 0 n)) t ->
  NHits.write_forecast self fcst (CInt (Z.of_nat k)) group t
    (pred_col, target_col) = Ok t' ->
  exists v,
    NHits.group_forecast self fcst group pred_col = Some v
    /\ k < n
    /\ t' = at_set t k target_col v.
Proof.
  intros Ht Hw. unfold NHits.write_forecast in Hw.
  bind_ok Hw. bind_ok Hw. bind_ok Hw. bind_ok Hw.
  inversion Hw; subst t'. clear Hw.
  destruct Ht as [_ [_ [Hidx _]]]. unfold getitem in E1. rewrite Hidx in E1.
  inversion E1; subst a1. clear E1.
  apply item0_where in E2. destruct E2 as [Hlt Htrue].
  rewrite !length_map, length_seq in Hlt.
  rewrite (nth_indep _ false
             ((fun i => cell_eqb i (CInt (Z.of_nat k))) CNaN)) in Htrue
    by (rewrite !length_map, length_seq; exact Hlt).
  rewrite (map_nth (fun i => cell_eqb i (CInt (Z.of_nat k)))) in Htrue.
  rewrite (nth_indep _ CNaN
             ((fun i => nth i (map (fun i => CInt (Z.of_nat i)) (seq 0 n)) CNaN) 0))
    in Htrue by (rewrite length_map, length_seq; exact Hlt).
  rewrite (map_nth (fun i => nth i (map (fun i => CInt (Z.of_nat i)) (seq 0 n)) CNaN))
    in Htrue.
  rewrite seq_nth in Htrue by exact Hlt. simpl in Htrue.
  rewrite nth_positions in Htrue by exact Hlt. simpl in Htrue.
  apply Z.eqb_eq in Htrue. apply Nat2Z.inj in Htrue. subst a2.
  unfold getitem in E, E0. unfold NHits.group_forecast.
  destruct (lookup "unique_id" (cols fcst)) as [fu|]; [|discriminate E].
  destruct (lookup pred_col (cols fcst)) as [fp|]; [|discriminate E0].
  inversion E; inversion E0; subst.
  eexists. split; [reflexivity|]. split; [exact Hlt | reflexivity].
Qed.

Lemma holds_at_set_same (h n : nat) (index : list cell) (t : Table)
    (k : nat) (c : string) (v : cell) :
  NHits.forecast_table h n index t -> In c NHits.target_cols -> k < n ->
  holds (at_set t k c v) k c v.
Proof.
  intros [_ [_ [_ Hall]]] Hc Hk.
  destruct (Hall c Hc) as [col [Hl [Hlen _]]].
  exists (set_nth k v col). split; [now apply lookup_at_set_same|].
  apply nth_set_nth_same. lia.
Qed.

Lemma holds_at_set_other (t : Table) (k k' : nat) (c c' : string) (v v' : cell) :
  k' <> k \/ c' <> c ->
  holds t k c v -> holds (at_set t k' c' v') k c v.
Proof.
  intros Hdiff [col [Hl Hv]].
  destruct (string_dec c c') as [<-|Hne].
  - exists (set_nth k' v' col). split; [now apply lookup_at_set_same|].
    rewrite nth_set_nth_other; [exact Hv|]. destruct Hdiff; congruence.
  - exists col. split; [|exact Hv]. now rewrite lookup_at_set_other.
Qed.

(** The rounds of another group leave the row alone. *)
Lemma nhits_other_group_keeps (self : NHits.NHitsMixer) (fcst : Table)
    (k k' n : nat) (group : string) (c : string) (v : cell) (t t' : Table) :
  k' <> k ->
  NHits.forecast_table (NHits.horizon self) n
    (map (fun i => nth i (map (fun i => CInt (Z.of_nat i)) (seq 0 n)) CNaN)
         (seq 0 n)) t ->
  holds t k c v ->
  foldM (NHits.write_forecast self fcst (CInt (Z.of_nat k')) group)
        (combine (NHits.pred_cols self) NHits.target_cols) t = Ok t' ->
  NHits.forecast_table (NHits.horizon self) n
    (map (fun i => nth i (map (fun i => CInt (Z.of_nat i)) (seq 0 n)) CNaN)
         (seq 0 n)) t'
  /\ holds t' k c v.
Proof.
  intros Hk Ht Hv Hf.
  eapply (foldM_invariant_in
            (fun t => NHits.forecast_table (NHits.horizon self) n _ t
                      /\ holds t k c v));
    [| split; [exact Ht | exact Hv] | exact Hf].
  intros t1 [p tc] t2 Hin [Ht1 Hv1] Hw. split.
  - eapply nhits_write_forecast_table; eauto using in_combine_target_cols.
  - destruct (nhits_write_at _ _ _ _ _ _ _ _ _ Ht1 Hw) as [v' [_ [_ ->]]].
    apply holds_at_set_other; auto.
Qed.

(** The rounds of the group itself fill the three cells of its row. *)
Lemma nhits_own_group_writes (self : NHits.NHitsMixer) (fcst : Table)
    (k n : nat) (group : string) (t t' : Table) :
  NHits.forecast_table (NHits.horizon self) n
    (map (fun i => nth i (map (fun i => CInt (Z.of_nat i)) (seq 0 n)) CNaN)
         (seq 0 n)) t ->
  foldM (NHits.write_forecast self fcst (CInt (Z.of_nat k)) group)
        (combine (NHits.pred_cols self) NHits.target_cols) t = Ok t' ->
  NHits.forecast_table (NHits.horizon self) n
    (map (fun i => nth i (map (fun i => CInt (Z.of_nat i)) (seq 0 n)) CNaN)
         (seq 0 n)) t'
  /\ forall pred_col target_col,
       In (pred_col, target_col) (combine (NHits.pred_cols self) NHits.target_cols) ->
       exists v, NHits.group_forecast self fcst group pred_col = Some v
                 /\ holds t' k target_col v.
Proof.
  intros Ht Hf. unfold NHits.pred_cols, NHits.target_cols in *.
  cbn [combine foldM] in Hf.
  destruct (NHits.write_forecast self fcst _ group t _) as [t1|] eqn:E1;
    [|discriminate Hf].
  destruct (NHits.write_forecast self fcst _ group t1 _) as [t2|] eqn:E2;
    [|discriminate Hf].
  destruct (NHits.write_forecast self fcst _ group t2 _) as [t3|] eqn:E3;
    [|discriminate Hf].
  inversion Hf; subst t3. clear Hf.
  assert (Ht1 := nhits_write_forecast_table self fcst _ group n _ t t1
                   (_, "lower") (or_introl eq_refl) Ht E1).
  assert (Ht2 := nhits_write_forecast_table self fcst _ group n _ t1 t2
                   (_, "prediction") (or_intror (or_introl eq_refl)) Ht1 E2).
  assert (Ht3 := nhits_write_forecast_table self fcst _ group n _ t2 t'
                   (_, "upper") (or_intror (or_intror (or_introl eq_refl)))
                   Ht2 E3).
  split; [exact Ht3|].
  destruct (nhits_write_at _ _ _ _ _ _ _ _ _ Ht E1) as [v1 [Hv1 [Hk ->]]].
  destruct (nhits_write_at _ _ _ _ _ _ _ _ _ Ht1 E2) as [v2 [Hv2 [_ ->]]].
  destruct (nhits_write_at _ _ _ _ _ _ _ _ _ Ht2 E3) as [v3 [Hv3 [_ ->]]].
  intros pred_col target_col Hin. cbn [combine In] in Hin.
  destruct Hin as [Hin|[Hin|[Hin|[]]]]; inversion Hin; subst pred_col target_col.
  - exists v1. split; [exact Hv1|].
    apply holds_at_set_other; [right; discriminate|].
    apply holds_at_set_other; [right; discriminate|].
    eapply holds_at_set_same; [exact Ht | simpl; auto | exact Hk].
  - exists v2. split; [exact Hv2|].
    apply holds_at_set_other; [right; discriminate|].
    eapply holds_at_set_same; [exact Ht1 | simpl; auto | exact Hk].
  - exists v3. split; [exact Hv3|].
    eapply holds_at_set_same; [exact Ht2 | simpl; auto | exact Hk].
Qed.

(** The end collected for a group is the last row of the group, and only
    that row. *)
Lemma nhits_end_is_last_row (ids : list string) (g : string) (e : cell) (i : nat) :
  iloc_last
    (select (map (fun u => cell_eqb u (CStr g)) (map CStr ids))
            (map (fun i => CInt (Z.of_nat i)) (seq 0 (length ids))))
  = Ok e ->
  NHits.group_end ids i ->
  (nth i ids "" = g -> e = CInt (Z.of_nat i))
  /\ (nth i ids "" <> g -> exists k, e = CInt (Z.of_nat k) /\ k <> i).
Proof.
  intros He [Hi Hlast].
  destruct (nhits_group_end_of ids g e He) as [k [Hk [Hlt Hg]]].
  destruct (nhits_group_ends ids g e He) as [k' [Hk' [_ Hlast']]].
  rewrite Hk in Hk'. inversion Hk' as [Hkk]. apply Nat2Z.inj in Hkk. subst k'.
  split.
  - intros Hig. rewrite Hk. do 2 f_equal.
    destruct (Nat.lt_trichotomy k i) as [Hlt'|[Heq|Hgt]]; [|exact Heq|].
    + exfalso. apply (Hlast' i Hlt' Hi). congruence.
    + exfalso. apply (Hlast k Hgt Hlt). congruence.
  - intros Hne. exists k. split; [exact Hk|]. intros ->. contradiction.
Qed.

End NHitsForecastRows.

(** The cell of a row that ends a series, column by column. *)
Lemma nhits_cells_at_group_ends (NB : NHits.Backend)
    (self : NHits.NHitsMixer) (ds : Ds) (args : PredictionArguments)
    (m : NHits.Model) (fcst ydf : Table) :
  NHits.model self = Some m ->
  NHits.predict m (NHits._make_initial_df self (data_frame ds)) = Returns fcst ->
  ds_len ds = length (data_frame ds) ->
  NHits.__call__ self ds args = Ok ydf ->
  forall i pred_col target_col,
    NHits.group_end
      (map (NHits.unique_id self) (sort_by r_oby (data_frame ds))) i ->
    In (pred_col, target_col) (combine (NHits.pred_cols self) NHits.target_cols) ->
    exists v col,
      NHits.group_forecast self fcst
        (nth i (map (NHits.unique_id self) (sort_by r_oby (data_frame ds))) "")
        pred_col
      = Some v
      /\ lookup target_col (cols ydf) = Some col
      /\ nth i col CNaN = v.
Proof.
  intros Hm Hp Hlen Hcall i pred_col target_col Hend Hin.
  unfold NHits.__call__ in Hcall. rewrite make_initial_df_cols, Hlen in Hcall.
  rewrite make_initial_df_cols in Hp.
  unfold getitem at 1 in Hcall.
  cbn [lookup cols String.eqb Ascii.eqb Bool.eqb Py.bind] in Hcall.
  unfold getitem at 1 in Hcall.
  cbn [lookup cols String.eqb Ascii.eqb Bool.eqb Py.bind] in Hcall.
  set (ids := map (NHits.unique_id self) (sort_by r_oby (data_frame ds))) in *.
  assert (Hn : length (data_frame ds) = length ids)
    by (unfold ids; now rewrite length_map, length_sort_by).
  replace (map (fun r => CStr (NHits.unique_id self r))
               (sort_by r_oby (data_frame ds)))
    with (map CStr ids) in Hcall, Hp by (unfold ids; now rewrite map_map).
  rewrite Hn in Hcall, Hp.
  assert (Hgroups : map cell_str (map CStr ids) = ids)
    by (rewrite map_map; apply map_id).
  rewrite Hgroups in Hcall.
  bind_ok Hcall. bind_ok Hcall. bind_ok Hcall. bind_ok Hcall.
  rewrite Hm in E0. inversion E0; subst a0. clear E0.
  rewrite Hp in E1. inversion E1; subst a1. clear E1.
  inversion Hcall; subst ydf. clear Hcall.
  destruct (mapM_combine _ _ _ E) as [Hlen_ends Hpairs].
  set (g := nth i ids "").
  assert (Hg : In g (unique ids))
    by (apply unique_complete; apply nth_In; now destruct Hend).
  destruct (in_combine_of_right a (unique ids) g Hlen_ends Hg) as [e He].
  assert (Hei : e = CInt (Z.of_nat i)).
  { destruct (nhits_end_is_last_row ids g e i (Hpairs g e He) Hend) as [Hsame _].
    now apply Hsame. }
  subst e.
  assert (Hnodup : NoDup (map snd (combine a (unique ids)))).
  { rewrite map_snd_combine by exact Hlen_ends. apply NoDup_unique. }
  destruct (in_split _ _ He) as [l1 [l2 Hsplit]].
  assert (Hl2 : forall e' g', In (e', g') l2 ->
                  exists k, e' = CInt (Z.of_nat k) /\ k <> i).
  { intros e' g' Hin'.
    assert (Hpair : In (e', g') (combine a (unique ids)))
      by (rewrite Hsplit; apply in_or_app; right; now right).
    destruct (nhits_end_is_last_row ids g' e' i (Hpairs g' e' Hpair) Hend)
      as [_ Hother].
    apply Hother. fold g. intros Heq. subst g'.
    rewrite Hsplit, map_app in Hnodup. cbn [map snd] in Hnodup.
    apply NoDup_remove_2 in Hnodup. apply Hnodup. apply in_or_app. right.
    now apply (in_map snd) in Hin'. }
  rewrite Hsplit in E2. apply foldM_app in E2. destruct E2 as [c1 [E1 E2]].
  set (index := map (fun i => nth i (map (fun i => CInt (Z.of_nat i))
                                         (seq 0 (length ids))) CNaN)
                    (seq 0 (length ids))) in *.
  assert (Hc1 : NHits.forecast_table (NHits.horizon self) (length ids) index c1).
  { eapply (foldM_invariant_in _ _ _ _ _ _ (nhits_table_before_loop self _ _) E1).
    Unshelve.
    intros t [gidx group] t' _ Ht Hstep. cbv beta iota in Hstep.
    eapply (foldM_invariant_in _ _ _ _ _ _ Ht Hstep).
    Unshelve.
    intros t1 pt t2 Hin1 Ht1 Hw.
    eapply nhits_write_forecast_table; eauto using in_combine_target_cols. }
  cbn [foldM] in E2.
  destruct (foldM (NHits.write_forecast self fcst (CInt (Z.of_nat i)) g)
                  (combine (NHits.pred_cols self) NHits.target_cols) c1)
    as [c2|] eqn:Eown; [|discriminate E2].
  destruct (nhits_own_group_writes self fcst i (length ids) g c1 c2 Hc1 Eown)
    as [Hc2 Hwritten].
  destruct (Hwritten pred_col target_col Hin) as [v [Hv Hholds]].
  exists v.
  assert (Hfinal : NHits.forecast_table (NHits.horizon self) (length ids) index a2
                   /\ holds a2 i target_col v).
  { eapply (foldM_invariant_in
              (fun t => NHits.forecast_table (NHits.horizon self) (length ids) index t
                        /\ holds t i target_col v));
      [| split; [exact Hc2 | exact Hholds] | exact E2].
    intros t [e' g'] t' Hin' [Ht Hh] Hstep. cbv beta iota in Hstep.
    destruct (Hl2 e' g' Hin') as [k [-> Hk]].
    eapply nhits_other_group_keeps; eauto. }
  destruct Hfinal as [_ [col [Hl Hnth]]].
  exists col. split; [exact Hv|]. split; [|exact Hnth].
  rewrite lookup_append_scalar_other; [exact Hl|].
  apply in_combine_r in Hin. simpl in Hin. intros ->. intuition discriminate.
Qed.


(** X12: in the table that the N-HITS mixer returns, the row that is the
    last of a series in the frame sorted by the order-by column holds the
    forecast of that series: [lower], [prediction] and [upper] hold the first
    [horizon] values that the library returned for the series in the low
    quantile, the median and the high quantile. *)
Theorem nhits_forecast_at_group_ends (NB : NHits.Backend)
    (self : NHits.NHitsMixer) (ds : Ds) (args : PredictionArguments)
    (m : NHits.Model) (fcst ydf : Table) :
  NHits.model self = Some m ->
  NHits.predict m (NHits._make_initial_df self (data_frame ds)) = Returns fcst ->
  ds_len ds = length (data_frame ds) ->
  NHits.__call__ self ds args = Ok ydf ->
  forall i pred_col target_col,
    NHits.group_end
      (map (NHits.unique_id self) (sort_by r_oby (data_frame ds))) i ->
    In (pred_col, target_col) (combine (NHits.pred_cols self) NHits.target_cols) ->
    exists v,
      NHits.group_forecast self fcst
        (nth i (map (NHits.unique_id self) (sort_by r_oby (data_frame ds))) "")
        pred_col
      = Some v
      /\ holds ydf i target_col v.
Proof.
  intros Hm Hp Hlen Hcall i pred_col target_col Hend Hin.
  destruct (nhits_cells_at_group_ends NB self ds args m fcst ydf Hm Hp Hlen Hcall
              i pred_col target_col Hend Hin) as [v [col [Hv [Hl Hnth]]]].
  exists v. split; [exact Hv|]. exists col. split; [exact Hl | exact Hnth].
Qed.

Lemma nhits_forecast_at_group_ends_witness :
  exists self ydf,
    Examples.nhits_trained = Ok self
    /\ @NHits.__call__ Examples.toy_nhits self Examples.interleaved_ds
         Examples.no_args = Ok ydf
    /\ holds ydf 4 "prediction" (CList [CNum 2; CNum 2]).
Proof.
  destruct Examples.nhits_trained as [self|e] eqn:Eself;
    [|vm_compute in Eself; discriminate Eself].
  destruct (@NHits.__call__ Examples.toy_nhits self Examples.interleaved_ds
              Examples.no_args) as [ydf|e] eqn:Ecall;
    [|vm_compute in Eself; inversion Eself; subst self;
      vm_compute in Ecall; discriminate Ecall].
  exists self, ydf. split; [reflexivity|]. split; [exact Ecall|].
  pose proof (fun m fcst Hm Hp Hlen =>
                nhits_forecast_at_group_ends Examples.toy_nhits self
                  Examples.interleaved_ds Examples.no_args m fcst ydf
                  Hm Hp Hlen Ecall 4 "NHITS-median" "prediction") as Hthm.
  vm_compute in Eself. inversion Eself; subst self. clear Eself.
  edestruct Hthm as [v [Hv Hholds]].
  - reflexivity.
  - vm_compute. reflexivity.
  - reflexivity.
  - split; [vm_compute; lia|].
    intros j Hj Hj'. vm_compute in Hj'. lia.
  - right. left. reflexivity.
  - assert (Heq : v = CList [CNum 2; CNum 2])
      by (vm_compute in Hv; inversion Hv; reflexivity).
    rewrite <- Heq. exact Hholds.
Defined.

(** ** The rows without a forecast, on the example data

    Row 0 of the interleaved frame is not the last of its series, and the
    table of the grouped GluonTS mixer has the five rows of the data set. *)

Lemma nhits_forecasts_only_at_group_ends_witness :
  exists self ydf col,
    Examples.nhits_trained = Ok self
    /\ @NHits.__call__ Examples.toy_nhits self Examples.interleaved_ds
         Examples.no_args = Ok ydf
    /\ lookup "prediction" (cols ydf) = Some col
    /\ nth 0 col CNaN = NHits.zeros 2.
Proof.
  destruct Examples.nhits_trained as [self|e] eqn:Eself;
    [|vm_compute in Eself; discriminate Eself].
  destruct (@NHits.__call__ Examples.toy_nhits self Examples.interleaved_ds
              Examples.no_args) as [ydf|e] eqn:Ecall;
    [|vm_compute in Eself; inversion Eself; subst self;
      vm_compute in Ecall; discriminate Ecall].
  destruct (lookup "prediction" (cols ydf)) as [col|] eqn:Ecol;
    [|vm_compute in Eself; inversion Eself; subst self;
      vm_compute in Ecall; inversion Ecall; subst ydf; discriminate Ecol].
  exists self, ydf, col.
  split; [reflexivity|]. split; [exact Ecall|]. split; [exact Ecol|].
  destruct (nhits_forecasts_only_at_group_ends self Examples.interleaved_ds
              Examples.no_args ydf Ecall eq_refl) as [_ Hzeros].
  vm_compute in Eself. inversion Eself; subst self. clear Eself.
  apply (Hzeros "prediction" col 0).
  - simpl. auto.
  - exact Ecol.
  - simpl. lia.
  - intros [_ Hlast]. apply (Hlast 1); [lia | vm_compute; lia | reflexivity].
Defined.

Lemma gluonts_forecasts_only_at_group_maxima_witness :
  exists self ydf,
    Examples.gluon_trained Examples.grouped = Ok self
    /\ @GluonTS.__call__ Examples.toy_gluon Examples.toy_helpers self
         Examples.two_series_ds Examples.no_args = Ok ydf
    /\ nrows ydf = 5.
Proof.
  destruct (Examples.gluon_trained Examples.grouped) as [self|e] eqn:Eself;
    [|vm_compute in Eself; discriminate Eself].
  destruct (@GluonTS.__call__ Examples.toy_gluon Examples.toy_helpers self
              Examples.two_series_ds Examples.no_args) as [ydf|e] eqn:Ecall;
    [|vm_compute in Eself; inversion Eself; subst self;
      vm_compute in Ecall; discriminate Ecall].
  exists self, ydf. split; [reflexivity|]. split; [exact Ecall|].
  destruct (gluonts_forecasts_only_at_group_maxima self Examples.two_series_ds
              Examples.no_args ydf Ecall) as [Hrows _].
  exact Hrows.
Defined.

(** ** What preparing the data does to the GluonTS mixer *)

Section GluonTSPrepare.
Context {GB : GluonTS.Backend} {GH : GluonTS.Helpers}.

(** Preparing the data changes the group list and the cache, and nothing
    else: the group list grows by groups that were passed in, and only when
    fitting; the cache is replaced by a sorted frame when fitting and stays
    as it is when predicting. *)
Lemma deduplicated_frame_effect (self self' : GluonTS.GluonTSMixer)
    (df : option Frame) (ph : GluonTS.phase) (g : option (list string))
    (rows : list GluonTS.KRow) :
  GluonTS.deduplicated_frame self df ph g = Ok (self', rows) ->
  exists more cache,
    self' = GluonTS.update self (GluonTS.prepared self) (GluonTS.n_epochs self)
              (GluonTS.groups self ++ more) (GluonTS.estimator self)
              (GluonTS.model self) cache (GluonTS.patience self)
    /\ (ph = GluonTS.Predict -> more = [])
    /\ (forall x, In x more -> exists given, g = Some given /\ In x given)
    /\ match ph with
       | GluonTS.Predict => cache = GluonTS.train_cache self
       | GluonTS.Train =>
           exists df0, df = Some df0
                       /\ cache = Some (sort_by GluonTS.k_index (GluonTS.keep_cols df0))
       | GluonTS.Adjust =>
           exists df0, df = Some df0
                       /\ cache = Some (sort_by GluonTS.k_index
                                          (GluonTS.drop_duplicates
                                             (GluonTS.concat_opt
                                                (GluonTS.train_cache self)
                                                (GluonTS.keep_cols df0))))
       end.
Proof.
  destruct self. unfold GluonTS.deduplicated_frame, Py.bind.
  cbn [GluonTS.ts_analysis GluonTS.groups GluonTS.grouped_by GluonTS.train_cache
       GluonTS.prepared GluonTS.n_epochs GluonTS.estimator GluonTS.model
       GluonTS.patience].
  intros Hd.
  repeat match type of Hd with
         | context [match ?x with _ => _ end] =>
             lazymatch x with
             | context [match _ with _ => _ end] => fail
             | _ => destruct x eqn:?
             end
         end;
    try discriminate Hd; inversion Hd; subst; clear Hd;
    simpl in *; subst;
    first
      [ exists []; eexists; rewrite app_nil_r;
        split; [reflexivity|];
        split; [reflexivity|];
        split; [intros x []|];
        first [ reflexivity | eexists; split; reflexivity ]
      | eexists; eexists;
        split; [reflexivity|];
        split; [discriminate|];
        split; [intros x Hx; apply in_unique_by in Hx; eexists; split;
                [reflexivity | exact Hx]|];
        first [ reflexivity | eexists; split; reflexivity ]
      | eexists; eexists;
        split; [reflexivity|];
        split; [discriminate|];
        split; [intros x Hx; simpl in Hx; contradiction|];
        first [ reflexivity | eexists; split; reflexivity ] ].
Qed.

Lemma make_initial_ds_effect (self self' : GluonTS.GluonTSMixer)
    (df : option Frame) (ph : GluonTS.phase) (g : option (list string))
    (ds : option GluonTS.Dataset) :
  GluonTS._make_initial_ds self df ph g = Ok (self', ds) ->
  exists more cache,
    self' = GluonTS.update self (GluonTS.prepared self) (GluonTS.n_epochs self)
              (GluonTS.groups self ++ more) (GluonTS.estimator self)
              (GluonTS.model self) cache (GluonTS.patience self)
    /\ (ph = GluonTS.Predict -> more = [])
    /\ (forall x, In x more -> exists given, g = Some given /\ In x given)
    /\ match ph with
       | GluonTS.Predict => cache = GluonTS.train_cache self
       | GluonTS.Train =>
           exists df0, df = Some df0
                       /\ cache = Some (sort_by GluonTS.k_index (GluonTS.keep_cols df0))
       | GluonTS.Adjust =>
           exists df0, df = Some df0
                       /\ cache = Some (sort_by GluonTS.k_index
                                          (GluonTS.drop_duplicates
                                             (GluonTS.concat_opt
                                                (GluonTS.train_cache self)
                                                (GluonTS.keep_cols df0))))
       end.
Proof.
  unfold GluonTS._make_initial_ds. intros Hm. bind_ok Hm.
  destruct a as [self1 rows]. apply deduplicated_frame_effect in E.
  destruct rows as [|r rows]; [inversion Hm; subst; exact E|].
  bind_ok Hm. destruct a as [res item]. bind_ok Hm.
  inversion Hm; subst. exact E.
Qed.

(** Preparing an empty frame for training gives no data set. *)
Lemma make_initial_ds_of_nothing (self : GluonTS.GluonTSMixer)
    (g : option (list string)) :
  exists self', GluonTS._make_initial_ds self (Some []) GluonTS.Train g
                = Ok (self', None).
Proof.
  unfold GluonTS._make_initial_ds, GluonTS.deduplicated_frame. cbv zeta.
  destruct g as [given|]; destruct (group_by (tss (GluonTS.ts_analysis self)));
    cbn [andb];
    try destruct (negb (strings_eqb (GluonTS.grouped_by self) ["__default"]));
    cbn [GluonTS.keep_cols map Py.bind GluonTS.drop_duplicates unique_by];
    eexists; reflexivity.
Qed.

End GluonTSPrepare.

(** X14: preparing the data for a prediction leaves the GluonTS mixer as it
    is: neither the list of seen groups nor the cache of training rows is
    touched. *)
Theorem gluonts_predict_leaves_the_mixer (GB : GluonTS.Backend)
    (self self' : GluonTS.GluonTSMixer) (df : option Frame)
    (groups : option (list string)) (ds : option GluonTS.Dataset) :
  GluonTS._make_initial_ds self df GluonTS.Predict groups = Ok (self', ds) ->
  self' = self.
Proof.
  intros Hm. apply make_initial_ds_effect in Hm.
  destruct Hm as [more [cache [-> [Hmore [_ ->]]]]].
  rewrite (Hmore eq_refl), app_nil_r. now destruct self.
Qed.

Lemma gluonts_predict_leaves_the_mixer_witness :
  exists self ds,
    Examples.gluon_trained Examples.grouped = Ok self
    /\ @GluonTS._make_initial_ds Examples.toy_gluon self
         (Some Examples.interleaved) GluonTS.Predict (Some ["a"])
       = Ok (self, ds).
Proof.
  destruct (Examples.gluon_trained Examples.grouped) as [self|e] eqn:Eself;
    [|vm_compute in Eself; discriminate Eself].
  destruct (@GluonTS._make_initial_ds Examples.toy_gluon self
              (Some Examples.interleaved) GluonTS.Predict (Some ["a"]))
    as [[self' ds]|e] eqn:Emade;
    [|vm_compute in Eself; inversion Eself; subst self;
      vm_compute in Emade; discriminate Emade].
  exists self, ds. split; [reflexivity|].
  rewrite Emade. do 2 f_equal.
  exact (gluonts_predict_leaves_the_mixer Examples.toy_gluon
           self self' _ _ ds Emade).
Defined.

(** X15: whenever [fit] of the GluonTS mixer returns, the mixer is marked as
    prepared; its cache holds the rows of the training data followed by the
    validation data, sorted by their index; the groups it has seen are those
    it had seen before followed by groups of the data; and the model it holds
    was trained by an estimator with the horizon of the mixer as prediction
    length, the lags [1 .. window], batches of 32, the epochs of the mixer,
    at least one batch per epoch and an early stopping of at least one
    epoch of patience. *)
Theorem gluonts_fit_postconditions (GB : GluonTS.Backend)
    (self self' : GluonTS.GluonTSMixer) (train_data dev_data : Ds) :
  GluonTS.fit self train_data dev_data = Ok self' ->
  GluonTS.prepared self' = true
  /\ (exists cache,
        GluonTS.train_cache self' = Some cache
        /\ Permutation
             (GluonTS.keep_cols (data_frame train_data ++ data_frame dev_data))
             cache
        /\ StronglySorted (key_le GluonTS.k_index) cache)
  /\ (exists more,
        GluonTS.groups self' = GluonTS.groups self ++ more
        /\ forall x, In x more ->
             In x (map (fun r => hd "" (r_group r))
                       (data_frame train_data ++ data_frame dev_data)))
  /\ exists est ds m batches,
       GluonTS.estimator self' = Some est
       /\ GluonTS.model self' = Some m
       /\ GluonTS.train est ds = Returns m
       /\ GluonTS.prediction_length est = GluonTS.horizon self
       /\ GluonTS.lags_seq est = seq 1 (GluonTS.window self)
       /\ GluonTS.batch_size est = 32
       /\ GluonTS.epochs (GluonTS.trainer est) = GluonTS.n_epochs self
       /\ GluonTS.num_batches_per_epoch (GluonTS.trainer est) = Some batches
       /\ 1 <= batches
       /\ 1 <= GluonTS.early_stop_patience (GluonTS.trainer est).
Proof.
  unfold GluonTS.fit. cbv zeta. cbn [concat_ds data_frame].
  intros Hf. bind_ok Hf. destruct a as [self1 train_ds].
  bind_ok Hf. destruct train_ds as [d|]; [|discriminate E0].
  inversion E0; subst a. clear E0.
  bind_ok Hf. inversion Hf; subst self'. clear Hf.
  apply make_initial_ds_effect in E.
  destruct E as [more [cache [-> [_ [Hmore [df0 [Hdf ->]]]]]]].
  inversion Hdf; subst df0. clear Hdf.
  cbn [GluonTS.update GluonTS.prepared GluonTS.train_cache GluonTS.groups
       GluonTS.estimator GluonTS.model GluonTS.horizon GluonTS.window
       GluonTS.n_epochs GluonTS.patience GluonTS.distribution
       GluonTS.static_features_cat GluonTS.static_features_real] in *.
  split; [reflexivity|].
  split.
  { eexists. split; [reflexivity|].
    split; [apply sort_by_perm | apply sort_by_sorted]. }
  split.
  { exists more. split; [reflexivity|].
    intros x Hx. destruct (Hmore x Hx) as [given [Hgiven Hin]].
    unfold GluonTS.seen_groups in Hgiven.
    destruct (negb (strings_eqb (GluonTS.grouped_by self) ["__default"]));
      [|discriminate Hgiven].
    inversion Hgiven; subst given. now apply in_unique_by in Hin. }
  unfold call in E0.
  match type of E0 with
  | match ?t with _ => _ end = _ => destruct t eqn:Et; [|discriminate E0]
  end.
  inversion E0; subst a. clear E0.
  eexists. exists d. eexists. eexists.
  split; [reflexivity|]. split; [reflexivity|]. split; [exact Et|].
  cbn [GluonTS.prediction_length GluonTS.lags_seq GluonTS.batch_size
       GluonTS.trainer GluonTS.epochs GluonTS.num_batches_per_epoch
       GluonTS.early_stop_patience].
  split; [reflexivity|].
  split; [now rewrite <- seq_shift; apply map_ext; intros; lia|].
  split; [reflexivity|]. split; [reflexivity|]. split; [reflexivity|].
  split.
  - match goal with
    | |- 1 <= match ?x with 0 => _ | S _ => _ end => destruct x; lia
    end.
  - unfold GluonTS.early_stop. apply Nat.le_max_l.
Qed.

Lemma gluonts_fit_postconditions_witness :
  exists self,
    Examples.gluon_trained Examples.grouped = Ok self
    /\ GluonTS.prepared self = true.
Proof.
  destruct (Examples.gluon_trained Examples.grouped) as [self|e] eqn:Eself;
    [|vm_compute in Eself; discriminate Eself].
  exists self. split; [reflexivity|].
  unfold Examples.gluon_trained in Eself.
  destruct (@GluonTS.__init__ Examples.toy_gluon 1 "y" 2 3 Examples.grouped
              10 3 "" 0%Z None None) as [m|e]; [|discriminate Eself].
  cbn [Py.bind] in Eself.
  exact (proj1 (gluonts_fit_postconditions Examples.toy_gluon
                  m self _ _ Eself)).
Defined.

(** X16: fitting the GluonTS mixer on no rows at all ends in an
    [AttributeError]: no data set is made of an empty frame, and the
    frequency is then asked of [None]. *)
Theorem gluonts_fit_on_no_rows (GB : GluonTS.Backend)
    (self : GluonTS.GluonTSMixer) (train_data dev_data : Ds) :
  data_frame train_data = [] -> data_frame dev_data = [] ->
  GluonTS.fit self train_data dev_data = Raise (Builtin AttributeError).
Proof.
  intros Ht Hd. unfold GluonTS.fit. cbv zeta. cbn [concat_ds data_frame].
  rewrite Ht, Hd. cbn [app].
  destruct (make_initial_ds_of_nothing self (GluonTS.seen_groups self []))
    as [self' Hmade].
  set (made := GluonTS._make_initial_ds _ _ _ _).
  assert (Hr : made = Ok (self', None)) by exact Hmade.
  rewrite Hr. reflexivity.
Qed.

Lemma gluonts_fit_on_no_rows_witness :
  (m <- @GluonTS.__init__ Examples.toy_gluon 1 "y" 2 3 Examples.grouped
          10 3 "" 0%Z None None ;;
   @GluonTS.fit Examples.toy_gluon m Examples.empty_ds Examples.empty_ds)
  = Raise (Builtin AttributeError).
Proof.
  destruct (@GluonTS.__init__ Examples.toy_gluon 1 "y" 2 3 Examples.grouped
              10 3 "" 0%Z None None) as [m|e] eqn:E;
    [|vm_compute in E; discriminate E].
  cbn [Py.bind].
  apply (gluonts_fit_on_no_rows Examples.toy_gluon m);
    reflexivity.
Defined.

(** X18: whenever [partial_fit] of the GluonTS mixer returns, the epochs and
    the patience of the mixer are those of [args] where [args] gives a
    number other than zero, and the old ones otherwise; the estimator keeps
    its frequency, prediction length, lags, batch size, distribution and
    feature flags, and has a new trainer with these epochs, an early
    stopping of at least one epoch of patience, the default number of
    batches and no training history; the cache holds the old cache followed
    by the rows passed in, without duplicates and sorted by index; the
    groups seen grow by groups of the data; [prepared] stays as it was. *)
Theorem gluonts_partial_fit_postconditions (GB : GluonTS.Backend)
    (self self' : GluonTS.GluonTSMixer) (train_data dev_data : Ds)
    (args : option (list (string * nat))) :
  GluonTS.partial_fit self train_data dev_data args = Ok self' ->
  let given := match args with Some a => a | None => [] end in
  let rows := GluonTS.keep_cols (data_frame train_data ++ data_frame dev_data) in
  GluonTS.n_epochs self'
  = match lookup "n_epochs" given with
    | Some (S n) => S n
    | _ => GluonTS.n_epochs self
    end
  /\ GluonTS.patience self'
     = match lookup "patience" given with
       | Some (S n) => S n
       | _ => GluonTS.patience self
       end
  /\ GluonTS.prepared self' = GluonTS.prepared self
  /\ (exists old est,
        GluonTS.estimator self = Some old
        /\ GluonTS.estimator self' = Some est
        /\ GluonTS.freq est = GluonTS.freq old
        /\ GluonTS.prediction_length est = GluonTS.prediction_length old
        /\ GluonTS.distr_output est = GluonTS.distr_output old
        /\ GluonTS.lags_seq est = GluonTS.lags_seq old
        /\ GluonTS.batch_size est = GluonTS.batch_size old
        /\ GluonTS.use_feat_static_cat est = GluonTS.use_feat_static_cat old
        /\ GluonTS.use_feat_static_real est = GluonTS.use_feat_static_real old
        /\ GluonTS.trainer est
           = GluonTS.mkTrainer (GluonTS.n_epochs self') None
               (Nat.max 1 (GluonTS.patience self')) false)
  /\ GluonTS.train_cache self'
     = Some (sort_by GluonTS.k_index
               (GluonTS.drop_duplicates
                  (GluonTS.concat_opt (GluonTS.train_cache self) rows)))
  /\ exists more,
       GluonTS.groups self' = GluonTS.groups self ++ more
       /\ forall x, In x more ->
            In x (map (fun r => hd "" (r_group r))
                      (data_frame train_data ++ data_frame dev_data)).
Proof.
  unfold GluonTS.partial_fit. cbv zeta. cbn [concat_ds data_frame].
  intros Hp. bind_ok Hp.
  destruct (GluonTS.estimator self) as [old|] eqn:Eold; [|discriminate E].
  inversion E; subst a. clear E.
  bind_ok Hp. destruct a as [self1 ds].
  bind_ok Hp. inversion Hp; subst self'. clear Hp E0.
  apply make_initial_ds_effect in E.
  destruct E as [more [cache [-> [_ [Hmore [df0 [Hdf ->]]]]]]].
  inversion Hdf; subst df0. clear Hdf.
  cbn [GluonTS.update GluonTS.prepared GluonTS.train_cache GluonTS.groups
       GluonTS.estimator GluonTS.model GluonTS.n_epochs GluonTS.patience
       GluonTS.grouped_by] in *.
  assert (Hargs : forall k old_value,
            (if truthy_nat (lookup k (match args with Some a => a | None => [] end))
             then match lookup k (match args with Some a => a | None => [] end) with
                  | Some n => n
                  | None => old_value
                  end
             else old_value)
            = match lookup k (match args with Some a => a | None => [] end) with
              | Some (S n) => S n
              | _ => old_value
              end).
  { intros k old_value.
    destruct (lookup k (match args with Some a => a | None => [] end))
      as [[|n]|]; reflexivity. }
  rewrite !Hargs.
  split; [reflexivity|]. split; [reflexivity|]. split; [reflexivity|].
  split.
  { exists old. eexists. split; [reflexivity|]. split; [reflexivity|].
    cbn [GluonTS.freq GluonTS.prediction_length GluonTS.distr_output
         GluonTS.lags_seq GluonTS.batch_size GluonTS.use_feat_static_cat
         GluonTS.use_feat_static_real GluonTS.trainer].
    unfold GluonTS.early_stop. repeat split; reflexivity. }
  split; [reflexivity|].
  exists more. split; [reflexivity|].
  intros x Hx. destruct (Hmore x Hx) as [given [Hgiven Hin]].
  unfold GluonTS.seen_groups in Hgiven.
  cbn [GluonTS.update GluonTS.grouped_by] in Hgiven.
  destruct (negb (strings_eqb (GluonTS.grouped_by self) ["__default"]));
    [|discriminate Hgiven].
  inversion Hgiven; subst given. now apply in_unique_by in Hin.
Qed.

Lemma gluonts_partial_fit_postconditions_witness :
  exists self self',
    Examples.gluon_trained Examples.grouped = Ok self
    /\ @GluonTS.partial_fit Examples.toy_gluon self
         Examples.interleaved_ds Examples.empty_ds
         (Some [("n_epochs", 0); ("patience", 7)])
       = Ok self'
    /\ GluonTS.n_epochs self' = 10
    /\ GluonTS.patience self' = 7.
Proof.
  destruct (Examples.gluon_trained Examples.grouped) as [self|e] eqn:Eself;
    [|vm_compute in Eself; discriminate Eself].
  destruct (@GluonTS.partial_fit Examples.toy_gluon self
              Examples.interleaved_ds Examples.empty_ds
              (Some [("n_epochs", 0); ("patience", 7)])) as [self'|e] eqn:Ep;
    [|vm_compute in Eself; inversion Eself; subst self;
      vm_compute in Ep; discriminate Ep].
  exists self, self'. split; [reflexivity|]. split; [exact Ep|].
  destruct (gluonts_partial_fit_postconditions Examples.toy_gluon
              self self' _ _ _ Ep)
    as [Hn [Hpat _]].
  vm_compute in Eself. inversion Eself; subst self. clear Eself.
  split; [exact Hn | exact Hpat].
Defined.

(** ** Where the GluonTS mixer writes the forecast of a group *)

Section GluonTSForecastRows.
Context {GB : GluonTS.Backend} {GH : GluonTS.Helpers}.

Lemma holds_at_set_here (t : Table) (k : nat) (c : string) (v : cell)
    (col : list cell) :
  lookup c (cols t) = Some col -> k < length col ->
  holds (at_set t k c v) k c v.
Proof.
  intros Hl Hk. exists (set_nth k v col).
  split; [now apply lookup_at_set_same | now apply nth_set_nth_same].
Qed.

Lemma NoDup_fst_combine {A C} (l : list A) (l' : list C) :
  NoDup l -> NoDup (map fst (combine l l')).
Proof.
  intros Hl. revert l'. induction Hl as [|a l Ha Hl IH]; intros [|b l'];
    simpl; try constructor.
  - intros Hin. apply in_map_iff in Hin. destruct Hin as [[a' b'] [Heq Hin]].
    simpl in Heq. subst a'. apply in_combine_l in Hin. contradiction.
  - apply IH.
Qed.

(** One round of the loop: the row is the first one that holds the largest
    original index of the rows matched for the group, and the three cells
    written are the three quantiles of the forecast. *)
Lemma gluonts_write_at (df : Frame) (gby : list string) (conf : Q)
    (z : nat) (c0 : Q) (index : list cell) (t t' : Table)
    (g : string) (f : GluonTS.Forecast) :
  GluonTS.forecast_table z (length df) c0 index
    (map (fun r => CInt (r_orig r)) df) t ->
  GluonTS.write_forecast df gby conf t (g, f) = Ok t' ->
  exists sub mx idx p l u,
    GluonTS.get_group_matches df [g] gby = Returns sub
    /\ GluonTS.py_max (map r_orig sub) = Ok mx
    /\ item0 (where_ (map (fun r => (r_orig r =? mx)%Z) df)) = Ok idx
    /\ idx < length df
    /\ nth idx (map r_orig df) 0%Z = mx
    /\ GluonTS.quantile f (1 # 2) = Returns p
    /\ GluonTS.quantile f (GluonTS.one_minus conf) = Returns l
    /\ GluonTS.quantile f conf = Returns u
    /\ t' = at_set
              (at_set (at_set t idx "prediction" (CList (map CNum p)))
                      idx "lower" (CList (map CNum l)))
              idx "upper" (CList (map CNum u)).
Proof.
  intros Ht Hw. unfold GluonTS.write_forecast in Hw.
  bind_ok Hw. bind_ok Hw. bind_ok Hw. bind_ok Hw.
  bind_ok Hw. apply quantile_list_ok in E3. destruct E3 as [vp [Hp ->]].
  bind_ok Hw. apply quantile_list_ok in E3. destruct E3 as [vl [Hl ->]].
  bind_ok Hw. apply quantile_list_ok in E3. destruct E3 as [vu [Hu ->]].
  inversion Hw; subst t'. clear Hw.
  unfold call in E.
  destruct (GluonTS.get_group_matches df [g] gby) as [sub|w] eqn:Esub;
    [|discriminate E].
  inversion E; subst a. clear E.
  destruct Ht as [_ [_ [_ [_ [Horig _]]]]].
  unfold getitem in E1. rewrite Horig in E1. inversion E1; subst a1. clear E1.
  rewrite map_map in E2.
  change (map (fun x => cell_eqb (CInt (r_orig x)) (CInt a0)) df)
    with (map (fun r => (r_orig r =? a0)%Z) df) in E2.
  pose proof (item0_where _ _ E2) as [Hlt Htrue].
  rewrite length_map in Hlt.
  exists sub, a0, a2, vp, vl, vu.
  split; [reflexivity|]. split; [exact E0|]. split; [exact E2|].
  split; [exact Hlt|].
  split.
  { rewrite (nth_indep _ false ((fun r => (r_orig r =? a0)%Z)
                                  (mkRow 0 0 0 [] 0 [] []))) in Htrue
      by (rewrite length_map; exact Hlt).
    rewrite (map_nth (fun r => (r_orig r =? a0)%Z)) in Htrue.
    apply Z.eqb_eq in Htrue.
    rewrite (nth_indep _ 0%Z (r_orig (mkRow 0 0 0 [] 0 [] [])))
      by (rewrite length_map; exact Hlt).
    now rewrite (map_nth r_orig). }
  auto.
Qed.

(** A round for a group with another maximum leaves the row alone. *)
Lemma gluonts_other_round_keeps (t : Table) (idx idx' : nat)
    (c : string) (v vp vl vu : cell) :
  idx' <> idx ->
  holds t idx c v ->
  holds (at_set (at_set (at_set t idx' "prediction" vp) idx' "lower" vl)
                idx' "upper" vu) idx c v.
Proof.
  intros Hne Hh. repeat (apply holds_at_set_other; [now left|]). exact Hh.
Qed.

End GluonTSForecastRows.

(** The row of a group and its three cells. *)
Lemma gluonts_cells_at_group_maximum
    (GB : GluonTS.Backend) (GH : GluonTS.Helpers)
    (self : GluonTS.GluonTSMixer) (ds : Ds) (args : PredictionArguments)
    (ydf : Table) (m : GluonTS.Model)
    (made : GluonTS.GluonTSMixer * option GluonTS.Dataset)
    (forecasts : list GluonTS.Forecast)
    (g : string) (f : GluonTS.Forecast) (sub : Frame) (mx : Z) :
  let df := data_frame ds in
  let gby := group_by (tss (GluonTS.ts_analysis self)) in
  let groups := unique (map (fun r => hd "" (r_group r)) df) in
  let conf := GluonTS.confidence_of args in
  GluonTS.__call__ self ds args = Ok ydf ->
  GluonTS.model self = Some m ->
  GluonTS._make_initial_ds self (Some df) GluonTS.Predict (Some groups)
  = Ok made ->
  GluonTS.predict m (snd made) = Returns forecasts ->
  In (g, f) (combine groups forecasts) ->
  GluonTS.get_group_matches df [g] gby = Returns sub ->
  GluonTS.py_max (map r_orig sub) = Ok mx ->
  (forall g' sub',
      In g' groups -> g' <> g ->
      GluonTS.get_group_matches df [g'] gby = Returns sub' ->
      GluonTS.py_max (map r_orig sub') <> Ok mx) ->
  exists idx p l u,
    item0 (where_ (map (fun r => (r_orig r =? mx)%Z) df)) = Ok idx
    /\ GluonTS.quantile f (1 # 2) = Returns p
    /\ GluonTS.quantile f (GluonTS.one_minus conf) = Returns l
    /\ GluonTS.quantile f conf = Returns u
    /\ (holds ydf idx "prediction" (CList (map CNum p))
        /\ holds ydf idx "lower" (CList (map CNum l))
        /\ holds ydf idx "upper" (CList (map CNum u)))
    /\ idx < ds_len ds
    /\ nth idx (map r_orig df) 0%Z = mx.
Proof.
  cbv zeta.
  destruct (group_by (tss (GluonTS.ts_analysis self))) as [|g0 gby] eqn:Hgby.
  { intros Hcall. exfalso. unfold GluonTS.__call__ in Hcall. cbv zeta in Hcall.
    rewrite Hgby in Hcall.
    bind_ok Hcall. bind_ok Hcall. bind_ok Hcall. bind_ok Hcall.
    bind_ok Hcall. bind_ok Hcall. discriminate E4. }
  intros Hcall Hm Hmade Hp Hin Hsub Hmx Hothers.
  unfold GluonTS.__call__ in Hcall. cbv zeta in Hcall. rewrite Hgby in Hcall.
  bind_ok Hcall. unfold setitem_array in E.
  destruct (_ =? _) eqn:Hlen in E; [|discriminate]. inversion E; subst a. clear E.
  apply Nat.eqb_eq in Hlen. rewrite length_map in Hlen. simpl in Hlen.
  bind_ok Hcall. unfold setitem_array in E.
  destruct (_ =? _) in E; [|discriminate]. inversion E; subst a. clear E.
  bind_ok Hcall. rewrite Hmade in E. inversion E; subst a. clear E.
  bind_ok Hcall. rewrite Hm in E. inversion E; subst a. clear E.
  bind_ok Hcall. rewrite Hp in E. inversion E; subst a. clear E.
  bind_ok Hcall. inversion E; subst a. clear E.
  set (df := data_frame ds) in *.
  set (groups := unique (map (fun r => hd "" (r_group r)) df)) in *.
  set (conf := GluonTS.confidence_of args) in *.
  set (z := tss_horizon (tss (GluonTS.ts_analysis self))) in *.
  assert (Hnodup : NoDup (map fst (combine groups forecasts)))
    by (apply NoDup_fst_combine; apply NoDup_unique).
  destruct (in_split _ _ Hin) as [l1 [l2 Hsplit]].
  rewrite Hsplit in Hcall. apply foldM_app in Hcall.
  destruct Hcall as [c1 [E1 E2]].
  assert (Hc1 : GluonTS.forecast_table z (length df) conf
                  (map (fun r => CInt (r_index r)) df)
                  (map (fun r => CInt (r_orig r)) df) c1).
  { eapply (foldM_invariant _ _ _ _ _ _ _ E1). Unshelve.
    - intros t gf t' Ht Hw. eapply gluonts_write_forecast_table; eauto.
    - rewrite Hlen. apply gluonts_table_before_loop. }
  cbn [foldM] in E2.
  destruct (GluonTS.write_forecast df (g0 :: gby) conf c1 (g, f))
    as [c2|] eqn:Eown; [|discriminate E2].
  assert (Hc2 := gluonts_write_forecast_table _ _ _ _ _ _ _ _ _ _ _ Hc1 Eown).
  destruct (gluonts_write_at _ _ _ _ _ _ _ _ _ _ Hc1 Eown)
    as [sub0 [mx0 [idx [p [l [u [Hs0 [Hm0 [Hidx [Hlt [Hnth [Hqp [Hql [Hqu Hc2eq]]]]]]]]]]]]]].
  rewrite Hsub in Hs0. inversion Hs0; subst sub0. clear Hs0.
  rewrite Hmx in Hm0. inversion Hm0; subst mx0. clear Hm0.
  exists idx, p, l, u.
  split; [exact Hidx|]. split; [exact Hqp|]. split; [exact Hql|].
  split; [exact Hqu|].
  assert (Hwritten : holds c2 idx "prediction" (CList (map CNum p))
                     /\ holds c2 idx "lower" (CList (map CNum l))
                     /\ holds c2 idx "upper" (CList (map CNum u))).
  { destruct Hc1 as [_ [_ [_ [_ [_ Hall]]]]].
    destruct (Hall "prediction") as [cp [Hlp [Hlenp _]]]; [simpl; auto|].
    destruct (Hall "lower") as [cl [Hll [Hlenl _]]]; [simpl; auto|].
    destruct (Hall "upper") as [cu [Hlu [Hlenu _]]]; [simpl; auto|].
    rewrite Hc2eq. split; [|split].
    - apply holds_at_set_other; [right; discriminate|].
      apply holds_at_set_other; [right; discriminate|].
      eapply holds_at_set_here; [exact Hlp | lia].
    - apply holds_at_set_other; [right; discriminate|].
      eapply holds_at_set_here;
        [rewrite lookup_at_set_other by discriminate; exact Hll | lia].
    - eapply holds_at_set_here;
        [rewrite !lookup_at_set_other by discriminate; exact Hlu | lia]. }
  assert (Hfinal : GluonTS.forecast_table z (length df) conf
                     (map (fun r => CInt (r_index r)) df)
                     (map (fun r => CInt (r_orig r)) df) ydf
                   /\ (holds ydf idx "prediction" (CList (map CNum p))
                       /\ holds ydf idx "lower" (CList (map CNum l))
                       /\ holds ydf idx "upper" (CList (map CNum u)))).
  { eapply (foldM_invariant_in
              (fun t => GluonTS.forecast_table z (length df) conf
                          (map (fun r => CInt (r_index r)) df)
                          (map (fun r => CInt (r_orig r)) df) t
                        /\ (holds t idx "prediction" (CList (map CNum p))
                            /\ holds t idx "lower" (CList (map CNum l))
                            /\ holds t idx "upper" (CList (map CNum u)))));
      [| split; [exact Hc2 | exact Hwritten] | exact E2].
    intros t [g' f'] t' Hin' [Ht [Hhp [Hhl Hhu]]] Hw.
    split; [eapply gluonts_write_forecast_table; eauto|].
    destruct (gluonts_write_at _ _ _ _ _ _ _ _ _ _ Ht Hw)
      as [sub' [mx' [idx' [p' [l' [u' [Hs' [Hm' [_ [_ [Hnth' [_ [_ [_ ->]]]]]]]]]]]]]].
    assert (Hg' : g' <> g).
    { intros ->. rewrite Hsplit, map_app in Hnodup. cbn [map fst] in Hnodup.
      apply NoDup_remove_2 in Hnodup. apply Hnodup. apply in_or_app. right.
      now apply (in_map fst) in Hin'. }
    assert (Hin_groups : In g' groups).
    { apply (in_combine_l groups forecasts g' f'). rewrite Hsplit.
      apply in_or_app. right. now right. }
    assert (Hidx' : idx' <> idx).
    { intros ->. apply (Hothers g' sub' Hin_groups Hg' Hs').
      rewrite Hm'. f_equal. congruence. }
    repeat split; now apply gluonts_other_round_keeps. }
  split; [exact (proj2 Hfinal)|].
  split; [rewrite <- Hlen; exact Hlt | reflexivity].
Qed.

(** X19: in the table that the GluonTS mixer returns, the forecast of a
    group is found in the first row that holds the largest original index of
    the rows matched for the group: [prediction] holds the median of the
    forecast, [lower] its quantile at [1 - conf] and [upper] its quantile at
    [conf], where [conf] is the fixed confidence of the arguments or 0.9;
    this holds for every group whose largest original index is not also
    that of another group. *)
Theorem gluonts_forecast_at_group_maximum
    (GB : GluonTS.Backend) (GH : GluonTS.Helpers)
    (self : GluonTS.GluonTSMixer) (ds : Ds) (args : PredictionArguments)
    (ydf : Table) (m : GluonTS.Model)
    (made : GluonTS.GluonTSMixer * option GluonTS.Dataset)
    (forecasts : list GluonTS.Forecast)
    (g : string) (f : GluonTS.Forecast) (sub : Frame) (mx : Z) :
  let df := data_frame ds in
  let gby := group_by (tss (GluonTS.ts_analysis self)) in
  let groups := unique (map (fun r => hd "" (r_group r)) df) in
  let conf := GluonTS.confidence_of args in
  GluonTS.__call__ self ds args = Ok ydf ->
  GluonTS.model self = Some m ->
  GluonTS._make_initial_ds self (Some df) GluonTS.Predict (Some groups)
  = Ok made ->
  GluonTS.predict m (snd made) = Returns forecasts ->
  In (g, f) (combine groups forecasts) ->
  GluonTS.get_group_matches df [g] gby = Returns sub ->
  GluonTS.py_max (map r_orig sub) = Ok mx ->
  (forall g' sub',
      In g' groups -> g' <> g ->
      GluonTS.get_group_matches df [g'] gby = Returns sub' ->
      GluonTS.py_max (map r_orig sub') <> Ok mx) ->
  exists idx p l u,
    item0 (where_ (map (fun r => (r_orig r =? mx)%Z) df)) = Ok idx
    /\ GluonTS.quantile f (1 # 2) = Returns p
    /\ GluonTS.quantile f (GluonTS.one_minus conf) = Returns l
    /\ GluonTS.quantile f conf = Returns u
    /\ holds ydf idx "prediction" (CList (map CNum p))
    /\ holds ydf idx "lower" (CList (map CNum l))
    /\ holds ydf idx "upper" (CList (map CNum u)).
Proof.
  cbv zeta. intros Hcall Hm Hmade Hp Hin Hsub Hmx Hothers.
  destruct (gluonts_cells_at_group_maximum GB GH self ds args ydf m made
              forecasts g f sub mx Hcall Hm Hmade Hp Hin Hsub Hmx Hothers)
    as [idx [p [l [u [Hidx [Hqp [Hql [Hqu [[Hp' [Hl' Hu']] _]]]]]]]]].
  exists idx, p, l, u. repeat split; assumption.
Qed.

Lemma gluonts_forecast_at_group_maximum_witness :
  exists self ydf,
    Examples.gluon_trained Examples.grouped = Ok self
    /\ @GluonTS.__call__ Examples.toy_gluon Examples.toy_helpers self
         Examples.two_series_ds Examples.no_args = Ok ydf
    /\ holds ydf 2 "upper" (CList [CNum (9 # 10); CNum (9 # 10)]).
Proof.
  destruct (Examples.gluon_trained Examples.grouped) as [self|e] eqn:Eself;
    [|vm_compute in Eself; discriminate Eself].
  destruct (@GluonTS.__call__ Examples.toy_gluon Examples.toy_helpers self
              Examples.two_series_ds Examples.no_args) as [ydf|e] eqn:Ecall;
    [|vm_compute in Eself; inversion Eself; subst self;
      vm_compute in Ecall; discriminate Ecall].
  exists self, ydf. split; [reflexivity|]. split; [exact Ecall|].
  pose proof (fun m made forecasts f sub =>
                gluonts_forecast_at_group_maximum Examples.toy_gluon
                  Examples.toy_helpers self Examples.two_series_ds
                  Examples.no_args ydf m made forecasts "a" f sub 2%Z Ecall)
    as Hthm.
  cbv zeta in Hthm.
  vm_compute in Eself. inversion Eself; subst self. clear Eself.
  edestruct Hthm as [idx [p [l [u [Hidx [_ [_ [Hu [_ [_ Hupper]]]]]]]]]].
  - reflexivity.
  - vm_compute. reflexivity.
  - vm_compute. reflexivity.
  - left. reflexivity.
  - vm_compute. reflexivity.
  - vm_compute. reflexivity.
  - intros g' sub' Hin' Hne Hs'. vm_compute in Hin'.
    destruct Hin' as [<-|[<-|[]]]; [now contradiction Hne|].
    vm_compute in Hs'. inversion Hs'; subst sub'. vm_compute. discriminate.
  - vm_compute in Hidx. inversion Hidx; subst idx.
    vm_compute in Hu. inversion Hu; subst u. exact Hupper.
Defined.

(** ** The arrays in the rows, row by row *)


(** ** The constructor of the GluonTS mixer *)

Section GluonTSInit.

Lemma string_append_assoc (a b c : string) :
  ((a ++ b) ++ c = a ++ (b ++ c))%string.
Proof. induction a as [|x a IH]; simpl; [reflexivity | now rewrite IH]. Qed.

Lemma split_dot_nonempty (s : string) : GluonTS.split_dot s <> [].
Proof.
  destruct s as [|c s]; simpl; [discriminate|].
  destruct (Ascii.eqb c "."); [discriminate|].
  destruct (GluonTS.split_dot s); discriminate.
Qed.

Lemma concat_cons_char (c : Ascii.ascii) (h : string) (t : list string) :
  String.concat "." (String c h :: t) = String c (String.concat "." (h :: t)).
Proof. destruct t; reflexivity. Qed.

(** Joining the parts of a name with dots gives the name back. *)
Lemma concat_split_dot (s : string) :
  String.concat "." (GluonTS.split_dot s) = s.
Proof.
  induction s as [|c s IH]; [reflexivity|]. cbn [GluonTS.split_dot].
  destruct (Ascii.eqb_spec c ".") as [->|Hc].
  - destruct (GluonTS.split_dot s) as [|h t] eqn:E;
      [now apply split_dot_nonempty in E|].
    change (String.concat "." ("" :: h :: t))
      with ("" ++ "." ++ String.concat "." (h :: t))%string.
    rewrite IH. reflexivity.
  - destruct (GluonTS.split_dot s) as [|h t] eqn:E;
      [now apply split_dot_nonempty in E|].
    rewrite concat_cons_char, IH. reflexivity.
Qed.

(** The module path and the attribute name, put together again. *)
Lemma join_init_last (base : string) (parts : list string) :
  parts <> [] ->
  (String.concat "." (base :: removelast parts) ++ "." ++ last parts ""
   = base ++ "." ++ String.concat "." parts)%string.
Proof.
  revert base. induction parts as [|x [|y t] IH]; intros base Hne;
    [contradiction | reflexivity |].
  change (removelast (x :: y :: t)) with (x :: removelast (y :: t)).
  change (last (x :: y :: t) "") with (last (y :: t) "").
  change (String.concat "." (base :: x :: removelast (y :: t)))
    with (base ++ "." ++ String.concat "." (x :: removelast (y :: t)))%string.
  rewrite !string_append_assoc. rewrite IH by discriminate. reflexivity.
Qed.

(** No part of a name that was split at its dots has a dot. *)
Lemma split_dot_no_dot (s : string) :
  Forall (fun part => ~ In "."%char (list_ascii_of_string part))
         (GluonTS.split_dot s).
Proof.
  induction s as [|c s IH]; cbn [GluonTS.split_dot].
  - constructor; [intros [] | constructor].
  - destruct (Ascii.eqb_spec c ".") as [->|Hc].
    + constructor; [intros [] | exact IH].
    + destruct (GluonTS.split_dot s) as [|h t]; [|inversion IH; subst].
      * constructor; [|constructor]. simpl. intuition congruence.
      * constructor; [|assumption]. simpl. intuition congruence.
Qed.

Lemma last_of_split_dot_no_dot (s : string) :
  ~ In "."%char (list_ascii_of_string (last (GluonTS.split_dot s) "")).
Proof.
  pose proof (split_dot_no_dot s) as Hall. rewrite Forall_forall in Hall.
  apply Hall.
  rewrite (app_removelast_last "" (split_dot_nonempty s)) at 2.
  apply in_or_app. right. now left.
Qed.

(** The mixer as it comes from the constructor. *)
Lemma gluonts_init_state {GB : GluonTS.Backend}
    (stop_after : Q) (target : string) (horizon window : nat)
    (ts_analysis : TsAnalysis) (n_epochs early_stop_patience : nat)
    (distribution_output : string) (seed : Z)
    (static_features_cat static_features_real : option (list string))
    (self : GluonTS.GluonTSMixer) :
  GluonTS.__init__ stop_after target horizon window ts_analysis n_epochs
    early_stop_patience distribution_output seed static_features_cat
    static_features_real = Ok self ->
  length (group_by (tss ts_analysis)) <= 1
  /\ length (GluonTS.grouped_by self) = 1
  /\ GluonTS.prepared self = false
  /\ GluonTS.groups self = []
  /\ GluonTS.estimator self = None
  /\ GluonTS.model self = None
  /\ GluonTS.train_cache self = None.
Proof.
  unfold GluonTS.__init__. cbv zeta. intros Hinit.
  bind_ok Hinit. bind_ok Hinit.
  match type of Hinit with
  | (if ?c then _ else _) = _ => destruct c eqn:Hlen; [discriminate Hinit|]
  end.
  apply Nat.ltb_ge in Hlen. inversion Hinit; subst self. clear Hinit.
  cbn [GluonTS.grouped_by GluonTS.prepared GluonTS.groups GluonTS.estimator
       GluonTS.model GluonTS.train_cache].
  split; [destruct (group_by (tss ts_analysis)); simpl in *; lia|].
  split; [destruct (group_by (tss ts_analysis)); simpl in *; lia|].
  repeat split; reflexivity.
Qed.

End GluonTSInit.

(** X20: whenever the constructor of the GluonTS mixer returns, the settings
    name at most one partition column and the mixer has exactly one entry
    in [grouped_by]; it is not prepared and holds no group, estimator, model
    or cache; the module that was imported and the attribute that was looked
    up in it are the two parts of [gluonts.mx.distribution.] followed by the
    name given for the distribution, split at its last dot: the attribute is
    the last of the parts of the given name and has no dot; and the
    distribution of the mixer is what calling that attribute returned, or
    [StudentTOutput] when the module has no such attribute. *)
Theorem gluonts_init_postconditions (GB : GluonTS.Backend)
    (stop_after : Q) (target : string) (horizon window : nat)
    (ts_analysis : TsAnalysis) (n_epochs early_stop_patience : nat)
    (distribution_output : string) (seed : Z)
    (static_features_cat static_features_real : option (list string))
    (self : GluonTS.GluonTSMixer) :
  GluonTS.__init__ stop_after target horizon window ts_analysis n_epochs
    early_stop_patience distribution_output seed static_features_cat
    static_features_real = Ok self ->
  length (group_by (tss ts_analysis)) <= 1
  /\ length (GluonTS.grouped_by self) = 1
  /\ GluonTS.prepared self = false
  /\ GluonTS.groups self = []
  /\ GluonTS.estimator self = None
  /\ GluonTS.model self = None
  /\ GluonTS.train_cache self = None
  /\ exists name attr module,
       (name ++ "." ++ attr
        = "gluonts.mx.distribution." ++ distribution_output)%string
       /\ attr = last (GluonTS.split_dot distribution_output) ""
       /\ ~ In "."%char (list_ascii_of_string attr)
       /\ GluonTS.import_module name = Returns module
       /\ match GluonTS.getattr_call module attr with
          | Some made => made = Returns (GluonTS.distribution self)
          | None => GluonTS.distribution self = GluonTS.StudentTOutput
          end.
Proof.
  intros Hinit.
  destruct (gluonts_init_state _ _ _ _ _ _ _ _ _ _ _ self Hinit)
    as [Hgby [Hone [Hprep [Hgroups [Hest [Hmodel Hcache]]]]]].
  repeat (split; [assumption|]).
  unfold GluonTS.__init__ in Hinit. cbv zeta in Hinit.
  bind_ok Hinit. bind_ok Hinit.
  match type of Hinit with
  | (if ?c then _ else _) = _ => destruct c; [discriminate Hinit|]
  end.
  inversion Hinit; subst self. clear Hinit.
  cbn [GluonTS.distribution].
  unfold call in E.
  destruct (GluonTS.import_module _) as [module|w] eqn:Eimport; [|discriminate E].
  inversion E; subst a. clear E.
  eexists. eexists. exists module.
  split; [|split; [reflexivity|split; [|split; [exact Eimport|]]]].
  - rewrite join_init_last by apply split_dot_nonempty.
    rewrite concat_split_dot. reflexivity.
  - apply last_of_split_dot_no_dot.
  - destruct (GluonTS.getattr_call module _) as [made|].
    + unfold call in E0. destruct made as [d|w]; [|discriminate E0].
      inversion E0. reflexivity.
    + inversion E0. reflexivity.
Qed.

Lemma gluonts_init_postconditions_witness :
  exists self,
    @GluonTS.__init__ Examples.toy_gluon 1 "y" 2 3 Examples.grouped 10 3
      "neg_binomial.NegativeBinomialOutput" 0%Z None None = Ok self
    /\ length (GluonTS.grouped_by self) = 1
    /\ GluonTS.model self = None.
Proof.
  destruct (@GluonTS.__init__ Examples.toy_gluon 1 "y" 2 3 Examples.grouped 10 3
              "neg_binomial.NegativeBinomialOutput" 0%Z None None)
    as [self|e] eqn:E; [|vm_compute in E; discriminate E].
  exists self. split; [reflexivity|].
  destruct (gluonts_init_postconditions Examples.toy_gluon _ _ _ _ _ _ _ _ _
              _ _ self E) as [_ [Hone [_ [_ [_ [Hmodel _]]]]]].
  split; [exact Hone | exact Hmodel].
Defined.

(** ** The confidence level of the N-HITS mixer *)

Section ConfLevel.

Lemma lookup_pop_same (k : string) (default : Z) (d : list (string * Z)) :
  lookup k (snd (NHits.pop k default d)) = None.
Proof.
  unfold NHits.pop. cbn [snd]. induction d as [|[k' v] d IH]; [reflexivity|].
  cbn [filter fst]. destruct (String.eqb_spec k' k) as [->|Hne]; cbn [negb].
  - exact IH.
  - cbn [lookup]. destruct (String.eqb_spec k' k); [contradiction | exact IH].
Qed.

Lemma lookup_pop_other (k k' : string) (default : Z) (d : list (string * Z)) :
  k' <> k -> lookup k' (snd (NHits.pop k default d)) = lookup k' d.
Proof.
  intros Hne. unfold NHits.pop. cbn [snd].
  induction d as [|[k0 v] d IH]; [reflexivity|].
  cbn [filter fst lookup]. destruct (String.eqb_spec k0 k) as [->|Hk]; cbn [negb].
  - destruct (String.eqb_spec k k'); [congruence | exact IH].
  - cbn [lookup]. destruct (String.eqb_spec k0 k'); [reflexivity | exact IH].
Qed.

End ConfLevel.

(** X21: the [conf_level] among the trainer arguments of the N-HITS mixer
    reaches the loss and nothing else.  When a mixer is fitted as it comes
    from the constructor and trains its model itself, the level handed to
    the library is the [conf_level] of the trainer arguments, or 90 when
    they have none, and the arguments handed on are the trainer arguments
    without [conf_level]. *)
Theorem nhits_conf_level_reaches_the_loss (NB : NHits.Backend)
    (stop_after : Q) (target : string) (horizon window : nat)
    (ts_analysis : TsAnalysis) (pretrained : bool)
    (train_args : option (list (string * list (string * Z))))
    (train_data dev_data : Ds) (self' : NHits.NHitsMixer) :
  let trainer_args :=
    match train_args with
    | Some d => match lookup "trainer_args" d with Some a => a | None => [] end
    | None => []
    end in
  NHits.fit (NHits.__init__ stop_after target horizon window ts_analysis
               pretrained train_args) train_data dev_data = Ok self' ->
  NHits.pretrained self' = false ->
  exists m input_size handed_on level df val_size,
    NHits.train horizon input_size handed_on level (sample_freq ts_analysis)
      df val_size = Returns m
    /\ NHits.model self' = Some m
    /\ level = match lookup "conf_level" trainer_args with
               | Some v => v
               | None => 90%Z
               end
    /\ lookup "conf_level" handed_on = None
    /\ forall k, k <> "conf_level" ->
         lookup k handed_on = lookup k trainer_args.
Proof.
  cbv zeta. intros Hf Hpre.
  destruct (nhits_fit_training_call _ self' train_data dev_data Hf Hpre)
    as [n_time [m [Hm [_ [Ht _]]]]].
  assert (Hargs : match train_args with
                  | Some ((_ :: _) as d) =>
                      match lookup "trainer_args" d with
                      | Some a => a
                      | None => []
                      end
                  | _ => []
                  end
                  = match train_args with
                    | Some d =>
                        match lookup "trainer_args" d with
                        | Some a => a
                        | None => []
                        end
                    | None => []
                    end)
    by (destruct train_args as [[|x d]|]; reflexivity).
  unfold NHits.__init__ in Ht. cbv zeta in Ht. rewrite Hargs in Ht.
  set (trainer_args := match train_args with
                       | Some d => _
                       | None => []
                       end) in *.
  unfold NHits.pop in Ht at 1.
  cbn [NHits.horizon NHits.train_args NHits.conf_level NHits.ts_analysis] in Ht.
  do 6 eexists. split; [exact Ht|]. split; [exact Hm|].
  split; [reflexivity|].
  split; [apply (lookup_pop_same "conf_level" 90%Z trainer_args)|].
  intros k Hk. now apply (lookup_pop_other "conf_level" k 90%Z trainer_args).
Qed.

Lemma nhits_conf_level_reaches_the_loss_witness :
  exists self' m,
    @NHits.fit Examples.toy_nhits
      (@NHits.__init__ Examples.toy_nhits 1 "y" 2 3 Examples.grouped false
         (Some [("trainer_args", [("max_steps", 5%Z); ("conf_level", 80%Z)])]))
      Examples.two_series_ds Examples.empty_ds
    = Ok self'
    /\ NHits.model self' = Some m
    /\ Examples.toy_level m = 80%Z.
Proof.
  destruct (@NHits.fit Examples.toy_nhits
              (@NHits.__init__ Examples.toy_nhits 1 "y" 2 3 Examples.grouped
                 false
                 (Some [("trainer_args",
                         [("max_steps", 5%Z); ("conf_level", 80%Z)])]))
              Examples.two_series_ds Examples.empty_ds) as [self'|e] eqn:E;
    [|vm_compute in E; discriminate E].
  exists self'.
  destruct (nhits_conf_level_reaches_the_loss Examples.toy_nhits _ _ _ _ _ _ _
              _ _ self' E)
    as [m [w [args [level [df [val [Ht [Hm [Hlevel _]]]]]]]]].
  - vm_compute in E. inversion E. reflexivity.
  - exists m. split; [reflexivity|]. split; [exact Hm|].
    cbv zeta in Hlevel. vm_compute in Hlevel. subst level.
    simpl in Ht. inversion Ht. reflexivity.
Defined.

(** ** The loop of [encode] *)

Section EncodeLoop.
Context {T : Transformer.Torch}.
Import Transformer.

Lemma is_ok_bind_false {A C} (r : result A) (k : A -> result C) :
  (forall a, r = Ok a -> is_ok (k a) = false) -> is_ok (Py.bind r k) = false.
Proof. destruct r as [a|e]; simpl; auto. Qed.

(** [forward] needs at least one sequence: the longest length is asked of
    the lengths. *)
Lemma forward_of_no_sequence (self : TransformerEncoder) (src : Tensor)
    (device : Device) :
  is_ok (forward self src [] device) = false.
Proof.
  unfold forward. cbv zeta.
  apply is_ok_bind_false. intros mask _.
  apply is_ok_bind_false. intros src1 _.
  apply is_ok_bind_false. intros src2 _. reflexivity.
Qed.

(** A chunk that starts at the last time step, or later, has no sequence. *)
Lemma get_chunk_past_the_end (source : Tensor) (source_lengths : list Z)
    (start step : Z) (data target : Tensor) (lengths : list Z) :
  Forall (fun l => (l <= start + 1)%Z) source_lengths ->
  (0 <= step)%Z ->
  get_chunk source source_lengths start step = Ok (data, target, lengths) ->
  lengths = [].
Proof.
  intros Hall Hstep Hchunk. unfold get_chunk in Hchunk. cbv zeta in Hchunk.
  bind_ok Hchunk. bind_ok Hchunk. bind_ok Hchunk. bind_ok Hchunk.
  inversion Hchunk as [[Hd Ht Hl]]. clear - Hall Hstep.
  induction Hall as [|l ls Hl Hall IH]; [reflexivity|].
  cbn [map]. rewrite select_cons.
  assert (Hz : clamp 0 step (l - 1 - start) = 0%Z) by (unfold clamp; lia).
  rewrite Hz. cbn [Z.eqb negb app]. exact IH.
Qed.

Lemma encode_round_past_the_end
    (criterion : Tensor -> Tensor -> list Z -> outcome Q) (device : Device)
    (train_batch : Tensor) (len_batch : list Z) (timesteps : nat)
    (state : TransformerEncoder * option Tensor * Q) (start_chunk : nat) :
  Forall (fun l => (l <= Z.of_nat start_chunk + 1)%Z) len_batch ->
  is_ok (encode_round criterion device train_batch len_batch timesteps state
           start_chunk)
  = false.
Proof.
  intros Hall. destruct state as [[self output] loss]. unfold encode_round.
  apply is_ok_bind_false. intros [[data targets] lengths_chunk] Hchunk.
  apply get_chunk_past_the_end in Hchunk; [|exact Hall | lia]. subst.
  apply is_ok_bind_false. intros data1 _.
  apply is_ok_bind_false. intros forwarded Hf. exfalso.
  pose proof (forward_of_no_sequence self data1 device) as Hno.
  cbn [map] in Hf. rewrite Hf in Hno. discriminate Hno.
Qed.

Lemma range_by_steps (stop step : nat) :
  0 < step -> step < stop ->
  exists rest, range_by stop step = Ok (0 :: step :: rest).
Proof.
  intros Hstep Hstop. unfold range_by.
  destruct (Nat.eqb_spec step 0) as [->|_]; [lia|].
  assert (Hn : 2 <= (stop + step - 1) / step)
    by (apply Nat.div_le_lower_bound; lia).
  destruct ((stop + step - 1) / step) as [|[|n]]; try lia.
  cbn [seq map]. rewrite Nat.mul_0_l, Nat.mul_1_l. eexists. reflexivity.
Qed.

Lemma range_by_once (stop step : nat) :
  0 < stop -> stop <= step -> range_by stop step = Ok [0].
Proof.
  intros Hstop Hstep. unfold range_by.
  destruct (Nat.eqb_spec step 0) as [->|_]; [lia|].
  assert (Hn : (stop + step - 1) / step = 1).
  { symmetry. apply (Nat.div_unique _ _ _ (stop - 1)); lia. }
  rewrite Hn. reflexivity.
Qed.

Lemma range_by_nothing (step : nat) : 0 < step -> range_by 0 step = Ok [].
Proof.
  intros Hstep. unfold range_by.
  destruct (Nat.eqb_spec step 0) as [->|_]; [lia|].
  rewrite Nat.add_0_l, Nat.div_small by lia. reflexivity.
Qed.

End EncodeLoop.

(** X22: the loop of [encode] never completes a second round.  For a batch
    whose sequences are no longer than its time dimension, whenever the
    loop completes, either the batch is empty and no round was made, or the
    batch has at most as many sequences as time steps and the result is
    that of the single round over the chunk that starts at 0; a batch with
    more sequences than time steps makes the second round fail, because its
    chunk holds no sequence. *)
Theorem encode_loop_has_one_round (T : Transformer.Torch)
    (self : Transformer.TransformerEncoder)
    (criterion : Transformer.Tensor -> Transformer.Tensor -> list Z -> outcome Q)
    (device : Transformer.Device)
    (train_batch : Transformer.Tensor) (len_batch : list Z)
    (state : Transformer.TransformerEncoder * option Transformer.Tensor * Q) :
  Forall (fun l => (l <= Z.of_nat (Transformer.size1 train_batch))%Z) len_batch ->
  Transformer.encode_loop self criterion device train_batch len_batch = Ok state ->
  (Transformer.size0 train_batch = 0 /\ state = (self, None, 0%Q))
  \/ (0 < Transformer.size0 train_batch <= Transformer.size1 train_batch
      /\ Transformer.encode_round criterion device train_batch len_batch
           (Transformer.size1 train_batch) (self, None, 0%Q) 0
         = Ok state).
Proof.
  intros Hall Hloop. unfold Transformer.encode_loop in Hloop. cbv zeta in Hloop.
  set (batch_size := Transformer.size0 train_batch) in *.
  set (timesteps := Transformer.size1 train_batch) in *.
  destruct (Nat.eq_dec timesteps 0) as [Hzero|Hpos].
  { unfold Transformer.range_by in Hloop. rewrite Hzero in Hloop.
    discriminate Hloop. }
  destruct (Nat.eq_dec batch_size 0) as [Hempty|Hsome].
  { left. split; [exact Hempty|]. rewrite Hempty in Hloop.
    rewrite range_by_nothing in Hloop by lia. cbn [Py.bind foldM] in Hloop.
    now inversion Hloop. }
  destruct (Nat.le_gt_cases batch_size timesteps) as [Hle|Hgt].
  - right. split; [lia|].
    rewrite range_by_once in Hloop by lia. cbn [Py.bind foldM] in Hloop.
    destruct (Transformer.encode_round criterion device train_batch len_batch
                timesteps (self, None, 0%Q) 0) as [st|e]; [|discriminate Hloop].
    exact Hloop.
  - exfalso.
    destruct (range_by_steps batch_size timesteps) as [rest Hrange]; [lia|lia|].
    rewrite Hrange in Hloop. cbn [Py.bind foldM] in Hloop.
    destruct (Transformer.encode_round criterion device train_batch len_batch
                timesteps (self, None, 0%Q) 0) as [st|e]; [|discriminate Hloop].
    pose proof (encode_round_past_the_end criterion device train_batch len_batch
                  timesteps st timesteps) as Hfail.
    destruct (Transformer.encode_round criterion device train_batch len_batch
                timesteps st timesteps) as [st2|e]; [|discriminate Hloop].
    assert (Hno : is_ok (Ok st2) = false).
    { apply Hfail. eapply Forall_impl; [|exact Hall]. intros l Hl. simpl in Hl. lia. }
    discriminate Hno.
Qed.

Lemma encode_loop_has_one_round_witness :
  exists state,
    @Transformer.encode_loop Examples.toy_torch (Transformer.mkEncoder None)
      (fun _ _ _ => Returns 1%Q) "cpu" [[1; 2; 3; 4; 5]%Z] [5%Z]
    = Ok state
    /\ @Transformer.encode_round Examples.toy_torch (fun _ _ _ => Returns 1%Q)
         "cpu" [[1; 2; 3; 4; 5]%Z] [5%Z] 5
         (Transformer.mkEncoder None, None, 0%Q) 0
       = Ok state.
Proof.
  destruct (@Transformer.encode_loop Examples.toy_torch (Transformer.mkEncoder None)
              (fun _ _ _ => Returns 1%Q) "cpu" [[1; 2; 3; 4; 5]%Z] [5%Z])
    as [state|e] eqn:E; [|vm_compute in E; discriminate E].
  exists state. split; [reflexivity|].
  assert (Hlengths : Forall (fun l => (l <= 5)%Z) [5%Z])
    by (repeat constructor; lia).
  destruct (encode_loop_has_one_round Examples.toy_torch
              (Transformer.mkEncoder None) (fun _ _ _ => Returns 1%Q) "cpu"
              [[1; 2; 3; 4; 5]%Z] [5%Z] state Hlengths E)
    as [[Hempty _]|[_ Hround]].
  - discriminate Hempty.
  - exact Hround.
Defined.

(** ** The GluonTS mixer before it is fitted *)

(** X17: a GluonTS mixer that was constructed and never fitted can neither
    be updated nor, when it has a partition column, be called:
    [partial_fit] ends in an [AttributeError], whatever the data and the
    arguments, because the trainer is assigned to an estimator that is
    [None]; a call for a data set that reports the length of its frame ends
    in a [TypeError], because the cache of training rows is [None]. *)
Theorem gluonts_mixer_before_fit
    (GB : GluonTS.Backend) (GH : GluonTS.Helpers)
    (stop_after : Q) (target : string) (horizon window : nat)
    (ts_analysis : TsAnalysis) (n_epochs early_stop_patience : nat)
    (distribution_output : string) (seed : Z)
    (static_features_cat static_features_real : option (list string))
    (self : GluonTS.GluonTSMixer) :
  GluonTS.__init__ stop_after target horizon window ts_analysis n_epochs
    early_stop_patience distribution_output seed static_features_cat
    static_features_real = Ok self ->
  (forall train_data dev_data args,
      GluonTS.partial_fit self train_data dev_data args
      = Raise (Builtin AttributeError))
  /\ (forall ds args,
        group_by (tss ts_analysis) <> [] ->
        ds_len ds = length (data_frame ds) ->
        GluonTS.__call__ self ds args = Raise (Builtin TypeError)).
Proof.
  intros Hinit.
  destruct (gluonts_init_state _ _ _ _ _ _ _ _ _ _ _ self Hinit)
    as [_ [_ [_ [_ [Hest [_ Hcache]]]]]].
  assert (Hta : GluonTS.ts_analysis self = ts_analysis).
  { unfold GluonTS.__init__ in Hinit. cbv zeta in Hinit.
    bind_ok Hinit. bind_ok Hinit.
    match type of Hinit with
    | (if ?c then _ else _) = _ => destruct c; [discriminate Hinit|]
    end.
    inversion Hinit. reflexivity. }
  split.
  - intros train_data dev_data args.
    unfold GluonTS.partial_fit. cbv zeta. rewrite Hest. reflexivity.
  - intros ds args Hgby Hlen. unfold GluonTS.__call__. cbv zeta.
    rewrite setitem_array_ok by (simpl; rewrite length_map; auto).
    cbn [Py.bind].
    rewrite setitem_array_ok by (simpl; rewrite length_map; auto).
    cbn [Py.bind].
    unfold GluonTS._make_initial_ds, GluonTS.deduplicated_frame. cbv zeta.
    rewrite Hta.
    destruct (group_by (tss ts_analysis)) as [|g gby]; [contradiction|].
    cbn [andb]. rewrite Hcache. reflexivity.
Qed.

Lemma gluonts_mixer_before_fit_witness :
  exists self,
    @GluonTS.__init__ Examples.toy_gluon 1 "y" 2 3 Examples.grouped 10 3 ""
      0%Z None None = Ok self
    /\ @GluonTS.partial_fit Examples.toy_gluon self Examples.two_series_ds
         Examples.empty_ds None
       = Raise (Builtin AttributeError)
    /\ @GluonTS.__call__ Examples.toy_gluon Examples.toy_helpers self
         Examples.two_series_ds Examples.no_args
       = Raise (Builtin TypeError).
Proof.
  destruct (@GluonTS.__init__ Examples.toy_gluon 1 "y" 2 3 Examples.grouped 10 3
              "" 0%Z None None) as [self|e] eqn:E;
    [|vm_compute in E; discriminate E].
  exists self. split; [reflexivity|].
  destruct (gluonts_mixer_before_fit Examples.toy_gluon Examples.toy_helpers
              _ _ _ _ _ _ _ _ _ _ _ self E) as [Hupdate Hcall].
  split; [apply Hupdate|].
  apply Hcall; [discriminate | reflexivity].
Defined.
